(** * PyDBrave: a shallow embedding of the migration engine

    The development follows the Python sources module by module:
    - [PyStr]     the operations of Python's [str] the code relies on;
    - [Oracle]    [migrator/pydb_oracle.py] (connection parameters);
    - [Env]       the external collaborators (SQLAlchemy, pypomes_db, the
                  dialect modules) as a history-dependent environment;
    - [Migrator]  [migrator/pydb_migrator.py];
    - [Metadata]  [migration/steps/pydb_metadata.py];
    - [App]       [app_main.py] (the responses);
    - [Trace]     what the properties read off the calls of a run;
    - [Scenario]  small libraries and databases to run the code against.

    The properties follow, in [OracleFacts], [MigratorFacts] and
    [MetadataFacts].

    Strings are sequences of bytes; the case and digit classifications of
    [PyStr] are the ASCII ones (the engines' identifiers and the request
    parameters are ASCII). *)

From Stdlib Require Import Ascii NArith Lia.
From stdpp Require Import gmap strings list pretty.

(* ===================================================================== *)
(** ** Python strings *)
(* ===================================================================== *)

Module PyStr.

(** [c.lower()] on one character: [A]..[Z] are moved to [a]..[z]. *)
Definition lower_ascii (c : ascii) : ascii :=
  let n := N_of_ascii c in
  if ((65 <=? n) && (n <=? 90))%N then ascii_of_N (n + 32) else c.

(** [s.lower()] *)
Fixpoint lower (s : string) : string :=
  match s with
  | EmptyString => EmptyString
  | String c s' => String (lower_ascii c) (lower s')
  end.

Definition is_digit (c : ascii) : bool :=
  let n := N_of_ascii c in ((48 <=? n) && (n <=? 57))%N.

Fixpoint all_digits (s : string) : bool :=
  match s with
  | EmptyString => true
  | String c s' => is_digit c && all_digits s'
  end.

(** [s.isnumeric()]: at least one character, and all of them digits. *)
Definition isnumeric (s : string) : bool :=
  match s with
  | EmptyString => false
  | String _ _ => all_digits s
  end.

Fixpoint int_acc (acc : N) (s : string) : N :=
  match s with
  | EmptyString => acc
  | String c s' => int_acc (10 * acc + (N_of_ascii c - 48)) s'
  end.

(** [int(s)] for a string of digits. *)
Definition int (s : string) : N := int_acc 0 s.

(** [sep.join(l)] *)
Fixpoint join (sep : string) (l : list string) : string :=
  match l with
  | [] => EmptyString
  | [x] => x
  | x :: l' => x +:+ sep +:+ join sep l'
  end.

(** [s.startswith(p)] *)
Fixpoint startswith (p s : string) : bool :=
  match p, s with
  | EmptyString, _ => true
  | String a p', String b s' => bool_decide (a = b) && startswith p' s'
  | String _ _, EmptyString => false
  end.

(** The scan of [s.replace(old, new)] for a non-empty [old]: left to right,
    occurrences do not overlap.  [skip] counts the characters of the
    occurrence just replaced that are still to be passed over. *)
Fixpoint replace_scan (old new s : string) (skip : nat) : string :=
  match s with
  | EmptyString => EmptyString
  | String c s' =>
      match skip with
      | S k => replace_scan old new s' k
      | O =>
          if startswith old s
          then new +:+ replace_scan old new s' (String.length old - 1)
          else String c (replace_scan old new s' 0)
      end
  end.

(** With an empty [old], Python puts [new] before every character and at
    the end. *)
Fixpoint intersperse (new s : string) : string :=
  match s with
  | EmptyString => new
  | String c s' => new +:+ String c (intersperse new s')
  end.

(** [s.replace(old, new)] *)
Definition replace (s old new : string) : string :=
  match old with
  | EmptyString => intersperse new s
  | String _ _ => replace_scan old new s 0
  end.

(** [needle in s] on strings. *)
Fixpoint contains (needle s : string) : bool :=
  startswith needle s ||
  match s with
  | EmptyString => false
  | String _ s' => contains needle s'
  end.

(** Truth value of [d.get(k)] for a dictionary of strings: present and not
    empty. *)
Definition truthy (o : option string) : bool :=
  match o with
  | Some (String _ _) => true
  | _ => false
  end.

(** [x in l] for a list of strings. *)
Definition mem (x : string) (l : list string) : bool := bool_decide (x ∈ l).

(** [c.isupper()] on one character: [A]..[Z]. *)
Definition is_upper (c : ascii) : bool :=
  let n := N_of_ascii c in ((65 <=? n) && (n <=? 90))%N.

(** Whether a character of [s] is an upper-case letter. *)
Fixpoint has_upper (s : string) : bool :=
  match s with
  | EmptyString => false
  | String c s' => is_upper c || has_upper s'
  end.

End PyStr.

(* ===================================================================== *)
(** ** [migrator/pydb_oracle.py]: the Oracle connection parameters *)
(* ===================================================================== *)

Module Oracle.

(** The module's global variables. *)
Record Params := {
  ORCL_DB_CLIENT : option string;
  ORCL_DB_NAME : option string;
  ORCL_DB_USER : option string;
  ORCL_DB_PWD : option string;
  ORCL_DB_HOST : option string;
  ORCL_DB_PORT : option N
}.

Section SetConnectionParams.

(** [pypomes_core.validate_format_error(code, *args)]: the message built for
    an error code and its arguments. *)
Variable validate_format_error : nat → list string → string.

(** [if scheme.get(key): <global> = scheme.get(key)] *)
Definition assign (scheme : gmap string string) (key : string)
    (old : option string) : option string :=
  if PyStr.truthy (scheme !! key) then scheme !! key else old.

Definition set_connection_params (errors : list string)
    (scheme : gmap string string) (g : Params) : list string * Params :=
  (* SQLServer-only parameter *)
  let errors :=
    if PyStr.truthy (scheme !! "db-driver")
    then errors ++ [validate_format_error 113 ["Oracle"; "@db-driver"]]
    else errors in
  let '(errors, port) :=
    match scheme !! "db-port" with
    | Some p =>
        if PyStr.truthy (Some p) then
          if PyStr.isnumeric p
          then (errors, Some (PyStr.int p))
          else (errors ++ [validate_format_error 128 ["int"; "@ORCL_DB_PORT"]],
                ORCL_DB_PORT g)
        else (errors, ORCL_DB_PORT g)
    | None => (errors, ORCL_DB_PORT g)
    end in
  if bool_decide (length errors = 0) then
    (errors,
     {| ORCL_DB_NAME := assign scheme "db-name" (ORCL_DB_NAME g);
        ORCL_DB_USER := assign scheme "db-user" (ORCL_DB_USER g);
        ORCL_DB_PWD := assign scheme "db-pwd" (ORCL_DB_PWD g);
        ORCL_DB_CLIENT := assign scheme "db-client" (ORCL_DB_CLIENT g);
        ORCL_DB_HOST := assign scheme "db-host" (ORCL_DB_HOST g);
        ORCL_DB_PORT := port |})
  else
    (errors,
     {| ORCL_DB_NAME := ORCL_DB_NAME g;
        ORCL_DB_USER := ORCL_DB_USER g;
        ORCL_DB_PWD := ORCL_DB_PWD g;
        ORCL_DB_CLIENT := ORCL_DB_CLIENT g;
        ORCL_DB_HOST := ORCL_DB_HOST g;
        ORCL_DB_PORT := port |}).

End SetConnectionParams.

Definition build_select_query (schema table columns : string)
    (offset batch_size : nat) : string :=
  "SELECT " +:+ columns +:+ " "
  +:+ "FROM " +:+ schema +:+ "." +:+ table +:+ " "
  +:+ "ORDER BY rowid "
  +:+ "OFFSET " +:+ pretty offset +:+ " ROWS FETCH NEXT "
  +:+ pretty batch_size +:+ " ROWS ONLY".

Definition get_table_unlog_stmt (schema table : string) : string :=
  "ALTER TABLE " +:+ schema +:+ "." +:+ table +:+ " NOLOGGING;".

(** A value of the dictionary of parameters. *)
Inductive Value :=
| VStr (s : string)
| VInt (n : N)
| VNone.

Definition of_str (o : option string) : Value :=
  match o with
  | Some s => VStr s
  | None => VNone
  end.

Definition of_int (o : option N) : Value :=
  match o with
  | Some n => VInt n
  | None => VNone
  end.

Definition get_connection_params (g : Params) : gmap string Value :=
  <["rdbms" := VStr "oracle"]>
    (<["name" := of_str (ORCL_DB_NAME g)]>
       (<["user" := of_str (ORCL_DB_USER g)]>
          (<["password" := of_str (ORCL_DB_PWD g)]>
             (<["host" := of_str (ORCL_DB_HOST g)]>
                (<["port" := of_int (ORCL_DB_PORT g)]>
                   {["client" := of_str (ORCL_DB_CLIENT g)]}))))).

(** The keys of a request that hold strings, each with the field of the
    dictionary it is stored under. *)
Definition string_params : list (string * string) :=
  [("db-name", "name"); ("db-user", "user"); ("db-pwd", "password");
   ("db-client", "client"); ("db-host", "host")].

(** Truth value of a port: set and not 0. *)
Definition port_set (o : option N) : bool :=
  match o with
  | Some n => negb (n =? 0)%N
  | None => false
  end.

Section AssertConnectionParams.

Variable validate_format_error : nat → list string → string.

(** [if not <global>: errors.append(validate_format_error(112, name))] *)
Definition require (present : bool) (name : string) (errors : list string)
    : list string :=
  if present then errors else errors ++ [validate_format_error 112 [name]].

Definition assert_connection_params (errors : list string) (g : Params)
    : list string * bool :=
  (* 112: Required attribute *)
  let errors := require (PyStr.truthy (ORCL_DB_NAME g)) "@ORCL_DB_NAME" errors in
  let errors := require (PyStr.truthy (ORCL_DB_USER g)) "@ORCL_DB_USER" errors in
  let errors := require (PyStr.truthy (ORCL_DB_PWD g)) "@ORCL_DB_PWD" errors in
  let errors := require (PyStr.truthy (ORCL_DB_HOST g)) "@ORCL_DB_HOST" errors in
  let errors := require (port_set (ORCL_DB_PORT g)) "@ORCL_DB_PORT" errors in
  (errors, bool_decide (length errors = 0)).

End AssertConnectionParams.

Section Initialize.

(** [oracledb.init_oracle_client(lib_dir)]: answered from the directories
    tried so far, [Some e] when it raises [e]. *)
Variable init_oracle_client : list string → string → option string.
Variable db_except_msg : string → option string → option string → string.

(** [initialize]: the flag [client_initialized], the errors and the
    directories tried. *)
Definition initialize (errors : list string) (tr : list string) (g : Params)
    (client_initialized : bool) : bool * list string * list string :=
  match ORCL_DB_CLIENT g with
  | Some client =>
      if negb client_initialized then
        match init_oracle_client tr client with
        | None => (true, errors, tr ++ [client])
        | Some e =>
            (client_initialized,
             errors ++ [db_except_msg e (ORCL_DB_NAME g) (ORCL_DB_HOST g)],
             tr ++ [client])
        end
      else (client_initialized, errors, tr)
  | None => (client_initialized, errors, tr)
  end.

(** [n] calls of [initialize] in a row. *)
Fixpoint initialize_times (n : nat) (errors : list string) (tr : list string)
    (g : Params) (client_initialized : bool)
    : bool * list string * list string :=
  match n with
  | O => (client_initialized, errors, tr)
  | S n' =>
      let '(client_initialized, errors, tr) :=
        initialize errors tr g client_initialized in
      initialize_times n' errors tr g client_initialized
  end.

End Initialize.

End Oracle.

(* ===================================================================== *)
(** ** The external collaborators *)
(* ===================================================================== *)

(** The code talks to SQLAlchemy, to [pypomes_db] and to the dialect
    modules.  Their pure helpers are the fields of [Lib]; the calls that
    reach a database are logged as [Call]s, and a [World] answers each of
    them as a function of the calls made so far, so that the same statement
    may succeed once and fail later.  Calls the code does not guard with
    [try] are taken to return; the logger is left out. *)

Module Env.

(** [sqlalchemy.Column], as far as the code reads and writes it.  A type
    is represented by its rendering [str(column.type)]. *)
Record Column := {
  col_name : string;
  col_type : string;
  server_default : option string;
  col_default : option string
}.

(** [sqlalchemy.Table] *)
Record Table := {
  tbl_name : string;
  tbl_schema : option string;
  tbl_columns : list Column;
  tbl_indexes : list string
}.

(** A fetched tuple. *)
Definition Row := list string.

(** The dialect modules a [match rdbms] dispatches to; the [mysql] case is
    [pass]. *)
Inductive Dialect := oracle | postgres | sqlserver.

Definition dialect_of (rdbms : string) : option Dialect :=
  if bool_decide (rdbms = "mysql") then None
  else if bool_decide (rdbms = "oracle") then Some oracle
  else if bool_decide (rdbms = "postgres") then Some postgres
  else if bool_decide (rdbms = "sqlserver") then Some sqlserver
  else None.

(** An exception, by its text. *)
Inductive Result (A : Type) :=
| Ok (a : A)
| Raise (exc : string).
Arguments Ok {A} a.
Arguments Raise {A} exc.

(** [f"{x}"] for a value that may be [None]. *)
Definition fmt (o : option string) : string :=
  match o with
  | Some s => s
  | None => "None"
  end.

(** Truth value of a list. *)
Definition nonempty {A : Type} (l : list A) : bool :=
  match l with
  | [] => false
  | _ :: _ => true
  end.

End Env.

(* ===================================================================== *)
(** ** [migrator/pydb_migrator.py] *)
(* ===================================================================== *)

Module Migrator.
Import Env.

(** An engine, by the URL it was created for. *)
Definition Engine := string.

(** The calls that leave the process, in the order they are made. *)
Inductive Call :=
| CreateEngine (url : string)
| GetSchemaNames (engine : Engine)
| Reflect (engine : Engine) (schema : string)
| Execute (engine : Engine) (stmt : string)
| CreateAll (engine : Engine) (tables : list Table)
| DbConnect (rdbms : string)
| DisableSessionRestrictions (d : Dialect)
| RestoreSessionRestrictions (d : Dialect)
| ConnClose (rdbms : string)
| DbSelectAll (rdbms : string) (stmt : option string)
| DbBulkInsert (rdbms : string) (stmt : option string) (vals : list Row).

(** The helpers of [pypomes_core], [pydb_common], [pydb_validator],
    [pydb_types], SQLAlchemy's dependency sort and the statement builders of
    the dialect modules: none of them is defined in the files at hand, so
    they are parameters. *)
Record Lib := {
  validate_format_error : nat → list string → string;
  exc_format : string → string;
  db_except_msg : string → option string → option string → string;
  get_connection_string : string → string;
  (* the parameters of an engine, and the errors the lookup appends *)
  get_connection_params : string → gmap string string * list string;
  establish_equivalences : string → string → nat * nat;
  migrate_type : string → string → nat → nat → Column → string;
  is_large_binary : option string → bool;
  sorted_tables : list Table → list Table;
  MIGRATION_BATCH_SIZE : nat;
  dialect_build_bulk_select_stmt :
    Dialect → string → string → string → nat → nat → string;
  dialect_build_bulk_insert_stmt :
    Dialect → string → string → string → string
}.

(** The answers of the databases.  An [option string] answer is [None] when
    the call returns and [Some e] when it raises [e]; a [list string] answer
    is what the call appends to the error list it was given. *)
Record World := {
  create_engine : list Call → string → option string;
  get_schema_names : list Call → Engine → list string;
  reflect : list Call → Engine → string → list Table;
  execute : list Call → Engine → string → option string;
  create_all : list Call → Engine → list Table → option string;
  (* whether a connection was returned *)
  db_connect : list Call → string → bool * list string;
  dialect_disable_session_restrictions : list Call → Dialect → list string;
  dialect_restore_session_restrictions : list Call → Dialect → list string;
  db_select_all : list Call → string → option string → list Row * list string;
  db_bulk_insert :
    list Call → string → option string → list Row → list string
}.

(** One entry of ["migrated-tables"]; the columns are dictionaries. *)
Record MigratedTable := {
  mt_table : string;
  mt_columns : list (gmap string string);
  mt_count : nat;
  mt_status : string
}.

(** The dictionary [migrate] returns. *)
Record Migration := {
  source_rdbms_schema : string * string;
  target_rdbms_schema : string * string;
  migrated_tables : list MigratedTable
}.

(** What [column.lower()] evaluates to: a [Column] has no attribute
    [lower], neither has its comparator. *)
Definition column_lower (column : Column) : Result string :=
  Raise "AttributeError: Neither 'Column' object nor 'Comparator' object has an attribute 'lower'".

Section Code.

Variable L : Lib.
Variable W : World.

(** *** [build_engine] *)
Definition build_engine (tr : list Call) (errors : list string)
    (rdbms : string) : option Engine * list string * list Call :=
  let conn_str := get_connection_string L rdbms in
  match create_engine W tr conn_str with
  | None => (Some conn_str, errors, tr ++ [CreateEngine conn_str])
  | Some e =>
      let '(params, errs) := get_connection_params L rdbms in
      (None,
       errors ++ errs
         ++ [db_except_msg L e (params !! "name") (params !! "host")],
       tr ++ [CreateEngine conn_str])
  end.

(** *** [engine_exc_stmt] *)
Definition engine_exc_stmt (tr : list Call) (errors : list string)
    (rdbms : string) (engine : Engine) (stmt : string)
    : list string * list Call :=
  match execute W tr engine stmt with
  | None => (errors, tr ++ [Execute engine stmt])
  | Some e =>
      (* 104: Unexpected error: {} *)
      (errors ++ [validate_format_error L 104 [exc_format L e]],
       tr ++ [Execute engine stmt])
  end.

(** *** [setup_target_table] *)

(** The [try] block on one column: the assignments made before an
    exception stay. *)
Definition wrap_up_column (column : Column) (target_type : string)
    : Column * Result unit :=
  (* set column's new type; remove the server default value *)
  let column :=
    {| col_name := col_name column; col_type := target_type;
       server_default := None; col_default := col_default column |} in
  match col_default column with
  | None => (column, Ok ())
  | Some _ =>
      match column_lower column with
      | Ok s =>
          if PyStr.mem s ["sysdate"; "systime"]
          then ({| col_name := col_name column; col_type := col_type column;
                   server_default := server_default column;
                   col_default := None |}, Ok ())
          else (column, Ok ())
      | Raise e => (column, Raise e)
      end
  end.

Fixpoint setup_columns (errors : list string) (source_rdbms target_rdbms : string)
    (native_ordinal reference_ordinal : nat) (columns : list Column)
    : list Column * list string :=
  match columns with
  | [] => ([], errors)
  | column :: rest =>
      let target_type :=
        migrate_type L source_rdbms target_rdbms
          native_ordinal reference_ordinal column in
      let '(column, outcome) := wrap_up_column column target_type in
      let errors :=
        match outcome with
        | Ok _ => errors
        | Raise e => errors ++ [validate_format_error L 104 [exc_format L e]]
        end in
      let '(result, errors) :=
        setup_columns errors source_rdbms target_rdbms
          native_ordinal reference_ordinal rest in
      (column :: result, errors)
  end.

Definition setup_target_table (errors : list string)
    (source_rdbms target_rdbms : string)
    (native_ordinal reference_ordinal : nat) (source_table : Table)
    : list Column * list string :=
  setup_columns errors source_rdbms target_rdbms
    native_ordinal reference_ordinal (tbl_columns source_table).

(** *** [migrate_metadata] *)

(** The loop over [inspector.get_schema_names()]: the first name equal to
    [schema] up to case. *)
Fixpoint match_schema (schema : string) (names : list string) : option string :=
  match names with
  | [] => None
  | schema_name :: names' =>
      if bool_decide (PyStr.lower schema = PyStr.lower schema_name)
      then Some schema_name
      else match_schema schema names'
  end.

Definition probe_schema (tr : list Call) (engine : Engine) (schema : string)
    : option string * list Call :=
  (match_schema schema (get_schema_names W tr engine),
   tr ++ [GetSchemaNames engine]).

(** [MetaData.remove(table)]: tables are held by schema and name. *)
Definition table_key (t : Table) : option string * string :=
  (tbl_schema t, tbl_name t).

Definition metadata_remove (metadata : list Table) (table : Table) : list Table :=
  List.filter (λ t, negb (bool_decide (table_key t = table_key table))) metadata.

(** The names of [data_tables] that are not reflected. *)
Definition unlisted_tables (metadata : list Table) (data_tables : list string)
    : list string :=
  if nonempty data_tables then
    let table_names := map tbl_name (sorted_tables L metadata) in
    List.filter (λ spare_table, negb (PyStr.mem spare_table table_names))
      data_tables
  else [].

(** The metadata purged from the tables not asked for. *)
Definition purge_spare_tables (metadata : list Table) (data_tables : list string)
    : list Table :=
  if nonempty data_tables then
    let spare_tables :=
      List.filter (λ spare_table,
                     negb (PyStr.mem (tbl_name spare_table) data_tables))
        (sorted_tables L metadata) in
    foldl metadata_remove metadata spare_tables
  else metadata.

Definition drop_stmt (to_schema : string) (source_table : Table) : string :=
  "DROP TABLE IF EXISTS " +:+ to_schema +:+ "." +:+ tbl_name source_table.

(** [for source_table in reversed(source_tables)]: drop the table. *)
Fixpoint drop_loop (tr : list Call) (errors : list string)
    (target_rdbms : string) (target_engine : Engine) (to_schema : string)
    (tables : list Table) : list string * list Call :=
  match tables with
  | [] => (errors, tr)
  | source_table :: rest =>
      let '(errors, tr) :=
        engine_exc_stmt tr errors target_rdbms target_engine
          (drop_stmt to_schema source_table) in
      drop_loop tr errors target_rdbms target_engine to_schema rest
  end.

Definition drop_existing_tables (tr : list Call) (errors : list string)
    (target_rdbms : string) (target_engine : Engine) (to_schema : string)
    (source_tables : list Table) : list string * list Call :=
  drop_loop tr errors target_rdbms target_engine to_schema
    (reverse source_tables).

Definition create_schema_stmt (target_schema : string)
    (conn_params : gmap string string) : string :=
  "CREATE SCHEMA " +:+ target_schema +:+ " AUTHORIZATION "
    +:+ fmt (conn_params !! "user").

(** The [else] branch of "does the target schema already exist ?": create
    the schema, and look for it again when no error is on the list.
    [to_schema] is what the first probe left in the variable. *)
Definition create_target_schema (tr : list Call) (errors : list string)
    (target_rdbms target_schema : string) (target_engine : Engine)
    (to_schema : option string) : option string * list string * list Call :=
  let '(conn_params, errs) := get_connection_params L target_rdbms in
  let errors := errors ++ errs in
  let stmt := create_schema_stmt target_schema conn_params in
  let '(errors, tr) :=
    engine_exc_stmt tr errors target_rdbms target_engine stmt in
  (* SANITY CHECK: it has happened that a schema creation failed, with no
     errors reported *)
  if bool_decide (length errors = 0) then
    let '(found, tr) := probe_schema tr target_engine target_schema in
    (match found with Some schema_name => Some schema_name | None => to_schema end,
     errors, tr)
  else (to_schema, errors, tr).

(** [table_column["target-type"] = str(column.type)] on the first
    dictionary of that name. *)
Fixpoint register_type (table_columns : list (gmap string string))
    (column : Column) : list (gmap string string) :=
  match table_columns with
  | [] => []
  | table_column :: rest =>
      if bool_decide (table_column !! "name" = Some (col_name column))
      then <["target-type" := col_type column]> table_column :: rest
      else table_column :: register_type rest column
  end.

Definition column_data (column : Column) : gmap string string :=
  <["source-type" := col_type column]> {["name" := col_name column]}.

(** The body of "setup target tables" for one table: the migrated table,
    and the table as it stands afterwards. *)
Definition setup_table (errors : list string)
    (source_rdbms target_rdbms : string)
    (native_ordinal reference_ordinal : nat) (to_schema : string)
    (source_table : Table) : MigratedTable * Table * list string :=
  let table_columns := map column_data (tbl_columns source_table) in
  let '(columns, errors) :=
    setup_target_table errors source_rdbms target_rdbms
      native_ordinal reference_ordinal source_table in
  let table_columns := foldl register_type table_columns columns in
  ({| mt_table := tbl_name source_table; mt_columns := table_columns;
      mt_count := 0; mt_status := "none" |},
   {| tbl_name := tbl_name source_table; tbl_schema := Some to_schema;
      tbl_columns := columns; tbl_indexes := tbl_indexes source_table |},
   errors).

Fixpoint setup_tables (errors : list string)
    (source_rdbms target_rdbms : string)
    (native_ordinal reference_ordinal : nat) (to_schema : string)
    (source_tables : list Table)
    : list MigratedTable * list Table * list string :=
  match source_tables with
  | [] => ([], [], errors)
  | source_table :: rest =>
      let '(migrated_table, table, errors) :=
        setup_table errors source_rdbms target_rdbms
          native_ordinal reference_ordinal to_schema source_table in
      let '(result, tables, errors) :=
        setup_tables errors source_rdbms target_rdbms
          native_ordinal reference_ordinal to_schema rest in
      (migrated_table :: result, table :: tables, errors)
  end.

(** "create tables in target schema" *)
Definition create_tables (tr : list Call) (errors : list string)
    (target_engine : Engine) (tables : list Table)
    : list string * list Call :=
  match create_all W tr target_engine tables with
  | None => (errors, tr ++ [CreateAll target_engine tables])
  | Some e =>
      (errors ++ [validate_format_error L 104 [exc_format L e]],
       tr ++ [CreateAll target_engine tables])
  end.

(** From "does the target schema already exist ?" to the end of the
    function: [to_schema] is the outcome of the probe of the target. *)
Definition materialize (tr : list Call) (errors : list string)
    (source_rdbms target_rdbms target_schema : string)
    (target_engine : Engine) (source_tables : list Table)
    (to_schema : option string)
    : list MigratedTable * list string * list Call :=
  let '(to_schema, errors, tr) :=
    if PyStr.truthy to_schema then
      let '(errors, tr) :=
        drop_existing_tables tr errors target_rdbms target_engine
          (default EmptyString to_schema) source_tables in
      (to_schema, errors, tr)
    else
      create_target_schema tr errors target_rdbms target_schema
        target_engine to_schema in
  if PyStr.truthy to_schema then
    let '(native_ordinal, reference_ordinal) :=
      establish_equivalences L source_rdbms target_rdbms in
    let '(result, tables, errors) :=
      setup_tables errors source_rdbms target_rdbms
        native_ordinal reference_ordinal (default EmptyString to_schema)
        source_tables in
    let '(errors, tr) := create_tables tr errors target_engine tables in
    (result, errors, tr)
  else
    ([],
     errors ++ [validate_format_error L 104
                  ["unable to create schema in RDBMS " +:+ target_rdbms;
                   "@to-schema"]],
     tr).

(** The state in which "does the target schema already exist ?" is
    reached. *)
Record Candidates := {
  cd_trace : list Call;
  cd_errors : list string;
  cd_target_engine : Engine;
  cd_source_tables : list Table;
  cd_to_schema : option string
}.

(** From the start of [migrate_metadata] to the probe of the target
    schema: either the candidates, or the outcome of a refused request. *)
Definition select_candidates (tr : list Call) (errors : list string)
    (source_rdbms target_rdbms source_schema target_schema : string)
    (data_tables : list string)
    : Candidates + (list MigratedTable * list string * list Call) :=
  let '(source_engine, errors, tr) := build_engine tr errors source_rdbms in
  let '(target_engine, errors, tr) := build_engine tr errors target_rdbms in
  match source_engine, target_engine with
  | Some source_engine, Some target_engine =>
      let '(from_schema, tr) := probe_schema tr source_engine source_schema in
      if PyStr.truthy from_schema then
        let from_schema := default EmptyString from_schema in
        let source_metadata := reflect W tr source_engine from_schema in
        let tr := tr ++ [Reflect source_engine from_schema] in
        let unlisted := unlisted_tables source_metadata data_tables in
        if bool_decide (length unlisted = 0) then
          let source_metadata := purge_spare_tables source_metadata data_tables in
          let source_tables := sorted_tables L source_metadata in
          let '(to_schema, tr) := probe_schema tr target_engine target_schema in
          inl {| cd_trace := tr; cd_errors := errors;
                 cd_target_engine := target_engine;
                 cd_source_tables := source_tables;
                 cd_to_schema := to_schema |}
        else
          (* tables not found, report them *)
          inr ([],
               errors ++ [validate_format_error L 119
                            [PyStr.join ", " unlisted;
                             "not found in " +:+ source_rdbms +:+ "/" +:+ source_schema;
                             "@tables"]],
               tr)
      else
        (* 119: Invalid value {}: {} *)
        inr ([],
             errors ++ [validate_format_error L 119
                          [source_schema;
                           "schema not found in RDBMS " +:+ source_rdbms;
                           "@from-schema"]],
             tr)
  | _, _ => inr ([], errors, tr)
  end.

Definition migrate_metadata (tr : list Call) (errors : list string)
    (source_rdbms target_rdbms source_schema target_schema : string)
    (data_tables : list string)
    : list MigratedTable * list string * list Call :=
  match select_candidates tr errors source_rdbms target_rdbms
          source_schema target_schema data_tables with
  | inl c =>
      materialize (cd_trace c) (cd_errors c) source_rdbms target_rdbms
        target_schema (cd_target_engine c) (cd_source_tables c)
        (cd_to_schema c)
  | inr refused => refused
  end.

(** *** The dispatchers on [rdbms] *)

Definition build_bulk_select_stmt (rdbms schema table : string)
    (columns : list string) (offset batch_size : nat) : option string :=
  let columns_str := PyStr.join ", " columns in
  match dialect_of rdbms with
  | Some d =>
      Some (dialect_build_bulk_select_stmt L d schema table columns_str
              offset batch_size)
  | None => None
  end.

Definition build_bulk_insert_stmt (rdbms schema table : string)
    (columns : list string) : option string :=
  let columns_str := PyStr.join ", " columns in
  match dialect_of rdbms with
  | Some d => Some (dialect_build_bulk_insert_stmt L d schema table columns_str)
  | None => None
  end.

Definition disable_session_restrictions (tr : list Call)
    (errors : list string) (rdbms : string) : list string * list Call :=
  match dialect_of rdbms with
  | Some d =>
      (errors ++ dialect_disable_session_restrictions W tr d,
       tr ++ [DisableSessionRestrictions d])
  | None => (errors, tr)
  end.

Definition restore_session_restrictions (tr : list Call)
    (errors : list string) (rdbms : string) : list string * list Call :=
  match dialect_of rdbms with
  | Some d =>
      (errors ++ dialect_restore_session_restrictions W tr d,
       tr ++ [RestoreSessionRestrictions d])
  | None => (errors, tr)
  end.

(** *** [migrate_plain_data] *)

(** The names of the columns of the plain path. *)
Definition column_names (table_columns : list (gmap string string))
    : list string :=
  map (λ column, default EmptyString (column !! "name"))
    (List.filter (λ column, negb (is_large_binary L (column !! "source_type")))
       table_columns).

(** The variables of the [while] loop. *)
Record Loop := {
  lp_trace : list Call;
  lp_op_errors : list string;
  lp_bulk_data : list Row;
  lp_offset : nat;
  lp_migrated_count : nat
}.

(** [while not op_errors and bulk_data]; [None] when [fuel] iterations
    did not end the loop. *)
Fixpoint copy_loop (fuel : nat)
    (source_rdbms target_rdbms source_schema table : string)
    (column_names : list string) (insert_stmt : option string)
    (st : Loop) : option Loop :=
  if negb (nonempty (lp_op_errors st)) && nonempty (lp_bulk_data st) then
    match fuel with
    | O => None
    | S fuel =>
        let tr := lp_trace st in
        let bulk_data := lp_bulk_data st in
        (* insert the current chunk of data *)
        let op_errors :=
          lp_op_errors st
            ++ db_bulk_insert W tr target_rdbms insert_stmt bulk_data in
        let tr := tr ++ [DbBulkInsert target_rdbms insert_stmt bulk_data] in
        if bool_decide (0 < length op_errors) then
          (* yes, skip to next table *)
          Some {| lp_trace := tr; lp_op_errors := op_errors;
                  lp_bulk_data := bulk_data; lp_offset := lp_offset st;
                  lp_migrated_count := lp_migrated_count st |}
        else
          let migrated_count := lp_migrated_count st + length bulk_data in
          (* fetch the next chunk of data *)
          let offset := lp_offset st + length bulk_data in
          let sel_stmt :=
            build_bulk_select_stmt source_rdbms source_schema table
              column_names offset (MIGRATION_BATCH_SIZE L) in
          let '(bulk_data, errs) := db_select_all W tr source_rdbms sel_stmt in
          copy_loop fuel source_rdbms target_rdbms source_schema table
            column_names insert_stmt
            {| lp_trace := tr ++ [DbSelectAll source_rdbms sel_stmt];
               lp_op_errors := op_errors ++ errs;
               lp_bulk_data := bulk_data; lp_offset := offset;
               lp_migrated_count := migrated_count |}
    end
  else Some st.

(** The body of the loop over [migrated_tables]. *)
Definition migrate_table (fuel : nat) (tr : list Call) (errors : list string)
    (source_rdbms target_rdbms source_schema target_schema : string)
    (migrated_table : MigratedTable)
    : option (MigratedTable * list string * list Call) :=
  let offset := 0 in
  let migrated_count := 0 in
  let table := mt_table migrated_table in
  (* exclude BLOB, CLOB, RAW, and other large binary types from the column
     names list *)
  let table_columns := mt_columns migrated_table in
  let column_names := column_names table_columns in
  (* build the INSERT and SELECT statements *)
  let insert_stmt :=
    build_bulk_insert_stmt target_rdbms target_schema table column_names in
  let sel_stmt :=
    build_bulk_select_stmt source_rdbms source_schema table column_names
      offset (MIGRATION_BATCH_SIZE L) in
  (* copy the table data *)
  let op_errors : list string := [] in
  let '(bulk_data, errs) := db_select_all W tr source_rdbms sel_stmt in
  let errors := errors ++ errs in
  let tr := tr ++ [DbSelectAll source_rdbms sel_stmt] in
  match copy_loop fuel source_rdbms target_rdbms source_schema table
          column_names insert_stmt
          {| lp_trace := tr; lp_op_errors := op_errors;
             lp_bulk_data := bulk_data; lp_offset := offset;
             lp_migrated_count := migrated_count |} with
  | None => None
  | Some st =>
      let '(errors, status) :=
        if nonempty (lp_op_errors st) then
          (errors ++ lp_op_errors st,
           if bool_decide (lp_migrated_count st = 0) then "none" else "partial")
        else (errors, "full") in
      Some ({| mt_table := mt_table migrated_table;
               mt_columns := mt_columns migrated_table;
               mt_count := lp_migrated_count st;
               mt_status := status |},
            errors, lp_trace st)
  end.

Fixpoint migrate_plain_data (fuel : nat) (tr : list Call)
    (errors : list string)
    (source_rdbms target_rdbms source_schema target_schema : string)
    (migrated_tables : list MigratedTable)
    : option (list MigratedTable * list string * list Call) :=
  match migrated_tables with
  | [] => Some ([], errors, tr)
  | migrated_table :: rest =>
      match migrate_table fuel tr errors source_rdbms target_rdbms
              source_schema target_schema migrated_table with
      | None => None
      | Some (migrated_table, errors, tr) =>
          match migrate_plain_data fuel tr errors source_rdbms target_rdbms
                  source_schema target_schema rest with
          | None => None
          | Some (rest, errors, tr) => Some (migrated_table :: rest, errors, tr)
          end
      end
  end.

(** *** [migrate] *)

(** "Started migrating the plain data" to "Finished migrating the plain
    data": the tables, and the [op_errors] and the calls of the phase. *)
Definition plain_data_phase (fuel : nat) (tr : list Call)
    (source_rdbms target_rdbms source_schema target_schema : string)
    (migrated_tables : list MigratedTable)
    : option (list MigratedTable * list string * list Call) :=
  let '(target_conn, op_errors) := db_connect W tr target_rdbms in
  let tr := tr ++ [DbConnect target_rdbms] in
  if target_conn then
    (* disable target RDBMS restrictions to speed-up bulk copying *)
    let '(op_errors, tr) :=
      disable_session_restrictions tr op_errors target_rdbms in
    match
      (if negb (nonempty op_errors)
       then migrate_plain_data fuel tr op_errors source_rdbms target_rdbms
              source_schema target_schema migrated_tables
       else Some (migrated_tables, op_errors, tr))
    with
    | None => None
    | Some (migrated_tables, op_errors, tr) =>
        (* restore target RDBMS restrictions delaying bulk copying *)
        let '(op_errors, tr) :=
          restore_session_restrictions tr op_errors target_rdbms in
        Some (migrated_tables, op_errors, tr ++ [ConnClose target_rdbms])
    end
  else Some (migrated_tables, op_errors, tr).

Definition migrate (fuel : nat) (errors : list string)
    (source_rdbms target_rdbms source_schema target_schema : string)
    (data_tables : list string)
    : option (Migration * list string * list Call) :=
  let '(migrated_tables, errors, tr) :=
    migrate_metadata [] errors source_rdbms target_rdbms
      source_schema target_schema data_tables in
  match plain_data_phase fuel tr source_rdbms target_rdbms
          source_schema target_schema migrated_tables with
  | None => None
  | Some (migrated_tables, op_errors, tr) =>
      Some ({| source_rdbms_schema := (source_rdbms, source_schema);
               target_rdbms_schema := (target_rdbms, target_schema);
               migrated_tables := migrated_tables |},
            errors ++ op_errors, tr)
  end.

End Code.

End Migrator.

(* ===================================================================== *)
(** ** [migration/steps/pydb_metadata.py] *)
(* ===================================================================== *)

Module Metadata.
Import Env.

#[global] Instance Column_eq_dec : EqDecision Column.
Proof. solve_decision. Defined.

#[global] Instance Table_eq_dec : EqDecision Table.
Proof. solve_decision. Defined.

(** An engine, by the RDBMS it was built for. *)
Definition Engine := string.

(** What [migrate_tables] returns: the migrated columns of each table. *)
Definition MigratedData := gmap string (list (gmap string string)).

Inductive Call :=
| BuildEngine (rdbms : string)
| GetSchemaNames (engine : Engine)
| GetViewNames (engine : Engine)
| GetMaterializedViewNames (engine : Engine)
| Reflect (engine : Engine) (schema : string)
| MigrateSchema (target_rdbms target_schema : string) (target_tables : list Table)
| MigrateTables (source_rdbms target_rdbms source_schema : string)
    (target_tables : list Table)
| CreateAll (engine : Engine) (tables : list Table)
| DbGetViewScript (view_type view_name engine : string)
| DbExecute (exc_stmt engine : string).

(** The helpers of [pypomes_core] and SQLAlchemy's dependency sort, which
    raises on mutually dependent tables. *)
Record Lib := {
  validate_format_error : nat → list string → string;
  exc_format : string → string;
  str_sanitize : string → string;
  sorted_tables : list Table → Result (list Table)
}.

(** The databases, and the modules [pydb_engine] and [pydb_migration],
    which are not among the files at hand: each answers with its value and
    with the errors it appends. *)
Record World := {
  build_engine : list Call → string → bool * list string;
  get_schema_names : list Call → Engine → list string;
  get_view_names : list Call → Engine → list string;
  get_materialized_view_names : list Call → Engine → list string;
  (* the tables reflected, and the warning raised, if any *)
  reflect : list Call → Engine → string → list Table * option string;
  migrate_schema :
    list Call → string → string → list Table → option string * list string;
  migrate_tables :
    list Call → string → string → string → list Table
    → option MigratedData * list string;
  create_all : list Call → Engine → list Table → option string;
  db_get_view_script : list Call → string → string → string → string * list string;
  db_execute : list Call → string → string → list string
}.

(** The double-quote character. *)
Definition dquote : string := String "034"%char EmptyString.

(** [l.remove(x)]: the first occurrence goes. *)
Fixpoint remove_first (x : string) (l : list string) : list string :=
  match l with
  | [] => []
  | y :: l' => if bool_decide (x = y) then l' else y :: remove_first x l'
  end.

Section Code.

Variable L : Lib.
Variable W : World.

(** *** [migrate_view] *)

(** The script as it is sent to the target. *)
Definition rewrite_view_script (view_script source_rdbms source_schema
    target_schema : string) : string :=
  let view_script :=
    PyStr.replace
      (PyStr.replace (PyStr.lower view_script)
         (source_schema +:+ ".") (target_schema +:+ "."))
      (dquote +:+ source_schema +:+ dquote +:+ ".")
      (dquote +:+ target_schema +:+ dquote +:+ ".") in
  if bool_decide (source_rdbms = "oracle")
  then (* purge Oracle-specific clauses *)
       PyStr.replace view_script "force editionable " EmptyString
  else view_script.

Definition migrate_view (tr : list Call) (errors : list string)
    (view_name view_type source_rdbms source_schema target_rdbms
       target_schema : string) : list string * list Call :=
  (* obtain the script used to create the view *)
  let name := target_schema +:+ "." +:+ view_name in
  let '(view_script, errs) :=
    db_get_view_script W tr view_type name source_rdbms in
  let errors := errors ++ errs in
  let tr := tr ++ [DbGetViewScript view_type name source_rdbms] in
  if negb (nonempty errors) then
    (* no, create the view in the target schema *)
    let view_script :=
      rewrite_view_script view_script source_rdbms source_schema
        target_schema in
    let errors := errors ++ db_execute W tr view_script target_rdbms in
    let tr := tr ++ [DbExecute view_script target_rdbms] in
    if nonempty errors then
      (* yes, insert a leading explanatory error message *)
      let err_msg := "Failed: '" +:+ str_sanitize L view_script +:+ "'" in
      (validate_format_error L 101 [err_msg] :: errors, tr)
    else (errors, tr)
  else (errors, tr).

(** *** [migrate_metadata] *)

(** The loop over [source_inspector.get_schema_names()]. *)
Fixpoint match_schema (source_schema : string) (names : list string)
    : option string :=
  match names with
  | [] => None
  | schema_name :: names' =>
      if bool_decide (source_schema = PyStr.lower schema_name)
      then Some schema_name
      else match_schema source_schema names'
  end.

(** The variables of "build list of migration candidates". *)
Record Filter := {
  flt_target_tables : list Table;
  flt_include_tables : list string;
  flt_exclude_tables : list string
}.

Definition filter_step (include : bool) (from_schema : string)
    (plain_views mat_views : list string) (process_views process_mviews : bool)
    (st : Filter) (source_table : Table) : Filter :=
  let table_name := PyStr.lower (tbl_name source_table) in
  if PyStr.mem table_name (flt_include_tables st) then
    {| flt_target_tables := flt_target_tables st ++ [source_table];
       flt_include_tables := remove_first table_name (flt_include_tables st);
       flt_exclude_tables := flt_exclude_tables st |}
  else if PyStr.mem table_name (flt_exclude_tables st) then
    {| flt_target_tables := flt_target_tables st;
       flt_include_tables := flt_include_tables st;
       flt_exclude_tables := remove_first table_name (flt_exclude_tables st) |}
  else if include
          && bool_decide (tbl_schema source_table = Some from_schema)
          && negb (PyStr.mem table_name plain_views && negb process_views)
          && negb (PyStr.mem table_name mat_views && negb process_mviews)
  then
    {| flt_target_tables := flt_target_tables st ++ [source_table];
       flt_include_tables := flt_include_tables st;
       flt_exclude_tables := flt_exclude_tables st |}
  else st.

Definition filter_tables (from_schema : string)
    (plain_views mat_views : list string) (process_views process_mviews : bool)
    (include_tables exclude_tables : list string) (source_tables : list Table)
    : Filter :=
  let include := negb (nonempty include_tables) in
  foldl (filter_step include from_schema plain_views mat_views
           process_views process_mviews)
    {| flt_target_tables := []; flt_include_tables := include_tables;
       flt_exclude_tables := exclude_tables |}
    source_tables.

(** "purge the source metadata from tables not selected, and from indexes
    if applicable" *)
Definition purge (step_metadata process_indexes : bool)
    (target_tables source_tables : list Table) : list Table :=
  omap (λ source_table,
          if bool_decide (source_table ∈ target_tables) then
            if step_metadata && negb process_indexes
            then Some {| tbl_name := tbl_name source_table;
                         tbl_schema := tbl_schema source_table;
                         tbl_columns := tbl_columns source_table;
                         tbl_indexes := [] |}
            else Some source_table
          else None)
    source_tables.

(** "migrate the schema, one table/view at a time" *)
Fixpoint construct (tr : list Call) (errors : list string)
    (source_rdbms target_rdbms from_schema to_schema : string)
    (plain_views mat_views : list string) (sorted : list Table)
    : list string * list Call :=
  match sorted with
  | [] => (errors, tr)
  | sorted_table :: rest =>
      (* assign the new schema for the migration candidate table *)
      let sorted_table :=
        {| tbl_name := tbl_name sorted_table; tbl_schema := Some to_schema;
           tbl_columns := tbl_columns sorted_table;
           tbl_indexes := tbl_indexes sorted_table |} in
      let '(errors, tr) :=
        if PyStr.mem (tbl_name sorted_table) plain_views
           || PyStr.mem (tbl_name sorted_table) mat_views
        then
          migrate_view tr errors (tbl_name sorted_table)
            (if PyStr.mem (tbl_name sorted_table) mat_views then "M" else "P")
            source_rdbms from_schema target_rdbms to_schema
        else
          match create_all W tr target_rdbms [sorted_table] with
          | None => (errors, tr ++ [CreateAll target_rdbms [sorted_table]])
          | Some e =>
              (* 104: The operation {} returned the error {} *)
              (errors ++ [validate_format_error L 104
                            ["schema-construction";
                             str_sanitize L (exc_format L e)]],
               tr ++ [CreateAll target_rdbms [sorted_table]])
          end in
      construct tr errors source_rdbms target_rdbms from_schema to_schema
        plain_views mat_views rest
  end.

(** From "proceed with the appropriate tables" on. *)
Definition migrate_selected (tr : list Call) (errors : list string)
    (source_rdbms target_rdbms source_schema target_schema from_schema : string)
    (step_metadata process_views process_mviews : bool)
    (plain_views mat_views : list string) (metadata : list Table)
    : option MigratedData * list string * list Call :=
  let '(sorted, errors) :=
    match sorted_tables L metadata with
    | Ok sorted => (sorted, errors)
    | Raise e =>
        ([], errors ++ [validate_format_error L 104
                          ["schema-migration";
                           str_sanitize L (exc_format L e)]])
    end in
  if negb (nonempty errors) then
    let '(to_schema, errors, tr) :=
      if step_metadata then
        let '(to_schema, errs) :=
          migrate_schema W tr target_rdbms target_schema sorted in
        (to_schema, errors ++ errs,
         tr ++ [MigrateSchema target_rdbms target_schema sorted])
      else (Some target_schema, errors, tr) in
    if PyStr.truthy to_schema then
      let to_schema := default EmptyString to_schema in
      let '(result, errs) :=
        migrate_tables W tr source_rdbms target_rdbms source_schema sorted in
      let errors := errors ++ errs in
      let tr :=
        tr ++ [MigrateTables source_rdbms target_rdbms source_schema sorted] in
      if step_metadata then
        let '(errors, tr) :=
          construct tr errors source_rdbms target_rdbms from_schema to_schema
            plain_views mat_views sorted in
        (result, errors, tr)
      else (result, errors, tr)
    else
      (* 102: Unexpected error: {} *)
      (None,
       errors ++ [validate_format_error L 102
                    ["unable to create schema in RDBMS " +:+ target_rdbms;
                     "@to-schema"]],
       tr)
  else (None, errors, tr).

(** The state in which "build list of migration candidates" is guarded. *)
Record Reflected := {
  rf_trace : list Call;
  rf_errors : list string;
  rf_from_schema : string;
  rf_plain_views : list string;
  rf_mat_views : list string;
  rf_source_tables : list Table
}.

(** From the start of [migrate_metadata] to the reflection of the source
    schema: what was reflected, or the outcome of a refused request. *)
Definition reflect_source (tr : list Call) (errors : list string)
    (source_rdbms target_rdbms source_schema : string)
    : Reflected + (option MigratedData * list string * list Call) :=
  (* create engines *)
  let '(source_engine, errs) := build_engine W tr source_rdbms in
  let errors := errors ++ errs in
  let tr := tr ++ [BuildEngine source_rdbms] in
  let '(target_engine, errs) := build_engine W tr target_rdbms in
  let errors := errors ++ errs in
  let tr := tr ++ [BuildEngine target_rdbms] in
  if source_engine && target_engine then
    let from_schema :=
      match_schema source_schema (get_schema_names W tr source_rdbms) in
    let tr := tr ++ [GetSchemaNames source_rdbms] in
    if PyStr.truthy from_schema then
      let from_schema := default EmptyString from_schema in
      (* obtain the list of plain and materialized views in source schema *)
      let plain_views := get_view_names W tr source_rdbms in
      let tr := tr ++ [GetViewNames source_rdbms] in
      let mat_views := get_materialized_view_names W tr source_rdbms in
      let tr := tr ++ [GetMaterializedViewNames source_rdbms] in
      (* obtain the source schema metadata *)
      let '(source_tables, warning) := reflect W tr source_rdbms from_schema in
      let tr := tr ++ [Reflect source_rdbms from_schema] in
      let errors :=
        match warning with
        | None => errors
        | Some e =>
            errors ++ [validate_format_error L 104
                         ["schema-reflection"; str_sanitize L (exc_format L e)]]
        end in
      inl {| rf_trace := tr; rf_errors := errors;
             rf_from_schema := from_schema; rf_plain_views := plain_views;
             rf_mat_views := mat_views; rf_source_tables := source_tables |}
    else
      (* 142: Invalid value {}: {} *)
      inr (None,
           errors ++ [validate_format_error L 142
                        [source_schema;
                         "schema not found in RDBMS " +:+ source_rdbms;
                         "@from-schema"]],
           tr)
  else inr (None, errors, tr).

(** From [if not errors] on. *)
Definition migrate_reflected (r : Reflected)
    (source_rdbms target_rdbms source_schema target_schema : string)
    (step_metadata process_indexes process_views process_mviews : bool)
    (include_tables exclude_tables : list string)
    : option MigratedData * list string * list Call :=
  let tr := rf_trace r in
  let errors := rf_errors r in
  if negb (nonempty errors) then
    (* build list of migration candidates *)
    let st :=
      filter_tables (rf_from_schema r) (rf_plain_views r) (rf_mat_views r)
        process_views process_mviews include_tables exclude_tables
        (rf_source_tables r) in
    if nonempty (flt_include_tables st) || nonempty (flt_exclude_tables st) then
      (* some tables not found, report them *)
      let bad_tables :=
        PyStr.join "," (flt_include_tables st ++ flt_exclude_tables st) in
      (None,
       errors ++ [validate_format_error L 142
                    [bad_tables;
                     "not found in " +:+ source_rdbms +:+ "." +:+ source_schema]],
       tr)
    else
      migrate_selected tr errors source_rdbms target_rdbms source_schema
        target_schema (rf_from_schema r) step_metadata process_views
        process_mviews (rf_plain_views r) (rf_mat_views r)
        (purge step_metadata process_indexes (flt_target_tables st)
           (rf_source_tables r))
  else (None, errors, tr).

Definition migrate_metadata (tr : list Call) (errors : list string)
    (source_rdbms target_rdbms source_schema target_schema : string)
    (step_metadata process_indexes process_views process_mviews : bool)
    (include_tables exclude_tables : list string)
    : option MigratedData * list string * list Call :=
  match reflect_source tr errors source_rdbms target_rdbms source_schema with
  | inl r =>
      migrate_reflected r source_rdbms target_rdbms source_schema
        target_schema step_metadata process_indexes process_views
        process_mviews include_tables exclude_tables
  | inr refused => refused
  end.

End Code.

End Metadata.


(* ===================================================================== *)
(** ** [app_main.py]: the HTTP responses *)
(* ===================================================================== *)

Module App.

(** A JSON response of Flask: the object sent, [None] for [null], and the
    status code. *)
Record Response (Value : Type) := {
  body : option (gmap string Value);
  status_code : nat
}.
Arguments body {Value} _.
Arguments status_code {Value} _.

Section BuildResponse.

(** The values of a reply are left as they are; [strings] is a list of
    strings as a value. *)
Context {Value : Type}.
Variable strings : list string → Value.

(** [pypomes_core.validate_format_errors] *)
Variable validate_format_errors : list string → list string.

(** [jsonify(obj)]: the status is 200. *)
Definition jsonify (obj : option (gmap string Value)) : Response Value :=
  {| body := obj; status_code := 200 |}.

Definition _build_response (errors : list string)
    (reply : option (gmap string Value)) : Response Value :=
  if bool_decide (length errors = 0) then
    (* 'reply' might be None *)
    jsonify reply
  else
    let reply_err : gmap string Value :=
      {["errors" := strings (validate_format_errors errors)]} in
    let reply_err :=
      match reply with
      | Some reply => reply ∪ reply_err   (* [reply_err.update(reply)] *)
      | None => reply_err
      end in
    {| body := body (jsonify (Some reply_err)); status_code := 400 |}.

End BuildResponse.

End App.

(* ===================================================================== *)
(** ** What the properties read off a run *)
(* ===================================================================== *)

Module Trace.
Import Env Migrator.

(** A call of the batch loop. *)
Definition data_call (c : Call) : Prop :=
  match c with
  | DbSelectAll _ _ | DbBulkInsert _ _ _ => True
  | _ => False
  end.

(** A call that only reads a catalog or builds an engine. *)
Definition read_call (c : Call) : Prop :=
  match c with
  | CreateEngine _ | GetSchemaNames _ | Reflect _ _ => True
  | _ => False
  end.


(** The sizes of the batches handed to [db_bulk_insert], in order. *)
Fixpoint inserts (tr : list Call) : list nat :=
  match tr with
  | [] => []
  | DbBulkInsert _ _ vals :: tr' => length vals :: inserts tr'
  | _ :: tr' => inserts tr'
  end.

(** The catalog of [engine] is read right after [stmt] was executed. *)
Definition reprobed (engine : Engine) (stmt : string) (tr : list Call) : Prop :=
  ∃ pre post, tr = pre ++ Execute engine stmt :: GetSchemaNames engine :: post.

(** The rows handed to [db_bulk_insert], in order. *)
Fixpoint inserted (tr : list Call) : list Row :=
  match tr with
  | [] => []
  | DbBulkInsert _ _ vals :: tr' => vals ++ inserted tr'
  | _ :: tr' => inserted tr'
  end.

(** How many times the catalog of [engine] was read. *)
Fixpoint probes (engine : Engine) (tr : list Call) : nat :=
  match tr with
  | [] => 0
  | GetSchemaNames e :: tr' =>
      (if bool_decide (e = engine) then 1 else 0) + probes engine tr'
  | _ :: tr' => probes engine tr'
  end.

(** The calls of a table whose batches [batches] were all committed, after
    its first SELECT: each batch is inserted, and the next SELECT is built
    for the offset moved on by the size of the batch. *)
Fixpoint paging (L : Lib)
    (source_rdbms target_rdbms source_schema table : string)
    (column_names : list string) (insert_stmt : option string)
    (offset : nat) (batches : list (list Row)) : list Call :=
  match batches with
  | [] => []
  | bulk_data :: rest =>
      DbBulkInsert target_rdbms insert_stmt bulk_data
      :: DbSelectAll source_rdbms
           (build_bulk_select_stmt L source_rdbms source_schema table
              column_names (offset + length bulk_data)
              (MIGRATION_BATCH_SIZE L))
      :: paging L source_rdbms target_rdbms source_schema table column_names
           insert_stmt (offset + length bulk_data) rest
  end.

(** Every batch of [batches] is what the SELECT before it returned; [tr]
    is the history before the SELECT at [offset]. *)
Fixpoint fetched (L : Lib) (W : World)
    (source_rdbms target_rdbms source_schema table : string)
    (column_names : list string) (insert_stmt : option string)
    (tr : list Call) (offset : nat) (batches : list (list Row)) : Prop :=
  match batches with
  | [] => True
  | bulk_data :: rest =>
      let sel_stmt :=
        build_bulk_select_stmt L source_rdbms source_schema table
          column_names offset (MIGRATION_BATCH_SIZE L) in
      bulk_data = (db_select_all W tr source_rdbms sel_stmt).1
      ∧ fetched L W source_rdbms target_rdbms source_schema table
          column_names insert_stmt
          (tr ++ [DbSelectAll source_rdbms sel_stmt;
                  DbBulkInsert target_rdbms insert_stmt bulk_data])
          (offset + length bulk_data) rest
  end.

(** The number of rows of [batches]. *)
Definition rows_of (batches : list (list Row)) : nat :=
  foldr (λ bulk_data n, length bulk_data + n) 0 batches.

(** The first SELECT of a table: the page at offset 0. *)
Definition first_select (L : Lib) (source_rdbms source_schema : string)
    (mt : MigratedTable) : Call :=
  DbSelectAll source_rdbms
    (build_bulk_select_stmt L source_rdbms source_schema (mt_table mt)
       (column_names L (mt_columns mt)) 0 (MIGRATION_BATCH_SIZE L)).

End Trace.

(** The same for [migration/steps/pydb_metadata.py]. *)
Module StepTrace.
Import Env Metadata.

(** A call that builds an engine or reads the catalog of the source. *)
Definition setup_call (c : Call) : Prop :=
  match c with
  | BuildEngine _ | GetSchemaNames _ | GetViewNames _
  | GetMaterializedViewNames _ | Reflect _ _ => True
  | _ => False
  end.

(** A call of the schema construction: the schema, a table or a view. *)
Definition construction_call (c : Call) : Prop :=
  match c with
  | MigrateSchema _ _ _ | CreateAll _ _ | DbGetViewScript _ _ _
  | DbExecute _ _ => True
  | _ => False
  end.

(** A call that creates a table or a view of the target. *)
Definition build_call (c : Call) : Prop :=
  match c with
  | CreateAll _ _ | DbGetViewScript _ _ _ | DbExecute _ _ => True
  | _ => False
  end.

(** A statement sent to the target. *)
Definition execute_call (c : Call) : Prop :=
  match c with
  | DbExecute _ _ => True
  | _ => False
  end.

(** Whether the selection takes a table, from the lists as they are when
    its turn comes; [include] tells that no table was listed for
    inclusion. *)
Definition selects (include : bool) (from_schema : string)
    (plain_views mat_views : list string) (process_views process_mviews : bool)
    (include_tables exclude_tables : list string) (source_table : Table)
    : bool :=
  let table_name := PyStr.lower (tbl_name source_table) in
  PyStr.mem table_name include_tables
  || negb (PyStr.mem table_name exclude_tables)
     && include
     && bool_decide (tbl_schema source_table = Some from_schema)
     && negb (PyStr.mem table_name plain_views && negb process_views)
     && negb (PyStr.mem table_name mat_views && negb process_mviews).

(** The tables handed to [create_all], call by call. *)
Fixpoint created (tr : list Call) : list (list Table) :=
  match tr with
  | [] => []
  | CreateAll _ tables :: tr' => tables :: created tr'
  | _ :: tr' => created tr'
  end.

(** The views whose script was asked for, by type and name. *)
Fixpoint scripts_requested (tr : list Call) : list (string * string) :=
  match tr with
  | [] => []
  | DbGetViewScript view_type view_name _ :: tr' =>
      (view_type, view_name) :: scripts_requested tr'
  | _ :: tr' => scripts_requested tr'
  end.

End StepTrace.

(* ===================================================================== *)
(** ** Concrete libraries and databases *)
(* ===================================================================== *)

(** Small databases the code is run against: a source with one schema and
    its tables, a target, and the faults to inject. *)

Module Scenario.
Import Env.

(** ["<code>: <message>"] *)
Definition format_error (code : nat) (args : list string) : string :=
  pretty code +:+ ": " +:+ PyStr.join "; " args.

Fixpoint drop_chars (n : nat) (s : string) : string :=
  match n, s with
  | S n', String _ s' => drop_chars n' s'
  | _, _ => s
  end.

(** The text of [s] after the first occurrence of [marker]. *)
Fixpoint after (marker s : string) : option string :=
  if PyStr.startswith marker s
  then Some (drop_chars (String.length marker) s)
  else match s with
       | EmptyString => None
       | String _ s' => after marker s'
       end.

Fixpoint digits_prefix (s : string) : string :=
  match s with
  | String c s' =>
      if PyStr.is_digit c then String c (digits_prefix s') else EmptyString
  | EmptyString => EmptyString
  end.

(** The number written after [marker] in a statement. *)
Definition number_after (marker : string) (stmt : option string) : option nat :=
  match stmt with
  | Some stmt =>
      match after marker stmt with
      | Some rest =>
          let d := digits_prefix rest in
          if PyStr.isnumeric d then Some (N.to_nat (PyStr.int d)) else None
      | None => None
      end
  | None => None
  end.

Definition persons : Table :=
  {| tbl_name := "persons"; tbl_schema := Some "HR";
     tbl_columns :=
       [ {| col_name := "id"; col_type := "INTEGER";
            server_default := None; col_default := None |};
         {| col_name := "since"; col_type := "DATE";
            server_default := Some "sysdate"; col_default := Some "now" |};
         {| col_name := "photo"; col_type := "BLOB";
            server_default := None; col_default := None |} ];
     tbl_indexes := [] |}.

Definition jobs : Table :=
  {| tbl_name := "jobs"; tbl_schema := Some "HR";
     tbl_columns :=
       [ {| col_name := "id"; col_type := "INTEGER";
            server_default := None; col_default := None |} ];
     tbl_indexes := [] |}.

(** Seven rows. *)
Definition seven : list Row :=
  map (λ n, [pretty n]) (seq 1 7).

(** The stored parameters of an Oracle engine, and a request that names a
    driver, a port and another database. *)
Definition orcl : Oracle.Params :=
  {| Oracle.ORCL_DB_CLIENT := None;
     Oracle.ORCL_DB_NAME := Some "orcl";
     Oracle.ORCL_DB_USER := Some "scott";
     Oracle.ORCL_DB_PWD := Some "tiger";
     Oracle.ORCL_DB_HOST := Some "localhost";
     Oracle.ORCL_DB_PORT := Some 1%N |}.

(** A request that renames the database and moves it to another port. *)
Definition scheme_moved : gmap string string :=
  <["db-port" := "1522"]> {["db-name" := "other"]}.

(** A request for the port 0. *)
Definition scheme_port_zero : gmap string string :=
  {["db-port" := "0"]}.

(** The parameters of [orcl] with a client library. *)
Definition orcl_with_client : Oracle.Params :=
  {| Oracle.ORCL_DB_CLIENT := Some "/opt/oracle/instantclient";
     Oracle.ORCL_DB_NAME := Oracle.ORCL_DB_NAME orcl;
     Oracle.ORCL_DB_USER := Oracle.ORCL_DB_USER orcl;
     Oracle.ORCL_DB_PWD := Oracle.ORCL_DB_PWD orcl;
     Oracle.ORCL_DB_HOST := Oracle.ORCL_DB_HOST orcl;
     Oracle.ORCL_DB_PORT := Oracle.ORCL_DB_PORT orcl |}.

(** A client library that loads at the third attempt. *)
Definition loads_at_third (tr : list string) (lib_dir : string)
    : option string :=
  if bool_decide (length tr < 2) then Some "DPI-1047" else None.


Module M.
Import Migrator.

Definition lib (batch_size : nat) : Lib :=
  {| validate_format_error := format_error;
     exc_format := λ e, e;
     db_except_msg := λ e name host, e +:+ " at " +:+ fmt host;
     get_connection_string := λ rdbms, rdbms +:+ "://db";
     get_connection_params := λ rdbms, ({["user" := "bob"]}, []);
     establish_equivalences := λ _ _, (0, 0);
     migrate_type := λ _ _ _ _ column,
       if bool_decide (col_type column = "BLOB") then "BYTEA"
       else col_type column;
     is_large_binary := λ t,
       bool_decide (t ∈ [Some "BLOB"; Some "CLOB"; Some "RAW"]);
     sorted_tables := λ tables, tables;
     MIGRATION_BATCH_SIZE := batch_size;
     dialect_build_bulk_select_stmt := λ _, Oracle.build_select_query;
     dialect_build_bulk_insert_stmt := λ _ schema table columns,
       "INSERT INTO " +:+ schema +:+ "." +:+ table
       +:+ " (" +:+ columns +:+ ")" |}.

(** A source and a target, and what goes wrong. *)
Record Db := {
  source_url : string;
  source_schemas : list string;
  source_tables : list Table;
  rows : list Row;
  target_schemas : list string;
  (* the catalog of the target once a CREATE SCHEMA was executed *)
  target_schemas_created : list string;
  (* the statements the target refuses *)
  refused : string → bool;
  (* the offset at which a SELECT fails *)
  select_fails_at : option nat;
  (* how many INSERTs go through before one fails *)
  inserts_before_failure : option nat
}.

Definition executed_create (c : Call) : bool :=
  match c with
  | Execute _ stmt => PyStr.startswith "CREATE SCHEMA" stmt
  | _ => false
  end.

Definition is_insert (c : Call) : bool :=
  match c with
  | DbBulkInsert _ _ _ => true
  | _ => false
  end.

Definition world (db : Db) : World :=
  {| create_engine := λ _ _, None;
     get_schema_names := λ tr engine,
       if bool_decide (engine = source_url db) then source_schemas db
       else if existsb executed_create tr then target_schemas_created db
       else target_schemas db;
     reflect := λ _ _ _, source_tables db;
     execute := λ _ _ stmt,
       if refused db stmt then Some "ProgrammingError" else None;
     create_all := λ _ _ _, None;
     db_connect := λ _ _, (true, []);
     dialect_disable_session_restrictions := λ _ _, [];
     dialect_restore_session_restrictions := λ _ _, [];
     db_select_all := λ _ _ stmt,
       match number_after "OFFSET " stmt, number_after "FETCH NEXT " stmt with
       | Some offset, Some batch_size =>
           if bool_decide (select_fails_at db = Some offset)
           then ([], ["SELECT failed"])
           else (take batch_size (drop offset (rows db)), [])
       | _, _ => ([], ["not a paginated SELECT"])
       end;
     db_bulk_insert := λ tr _ _ _,
       if bool_decide (inserts_before_failure db
                       = Some (length (List.filter is_insert tr)))
       then ["INSERT failed"]
       else [] |}.

(** An Oracle source with the schema [HR], and a Postgres target that has
    the schema [hr]. *)
Definition hr : Db :=
  {| source_url := "oracle://db";
     source_schemas := ["SYS"; "HR"];
     source_tables := [jobs; persons];
     rows := seven;
     target_schemas := ["public"; "hr"];
     target_schemas_created := ["public"; "hr"];
     refused := λ _, false;
     select_fails_at := None;
     inserts_before_failure := None |}.

(** The same, with the faults of a scenario. *)
Definition hr_with (select_fails : option nat) (inserts : option nat) : Db :=
  {| source_url := source_url hr; source_schemas := source_schemas hr;
     source_tables := source_tables hr; rows := rows hr;
     target_schemas := target_schemas hr;
     target_schemas_created := target_schemas_created hr;
     refused := refused hr;
     select_fails_at := select_fails;
     inserts_before_failure := inserts |}.

(** A target without the schema; [created] is its catalog after a CREATE
    SCHEMA, and [refuse] tells whether the target refuses the statement. *)
Definition hr_absent (created : list string) (refuse : bool) : Db :=
  {| source_url := source_url hr; source_schemas := source_schemas hr;
     source_tables := source_tables hr; rows := rows hr;
     target_schemas := ["public"];
     target_schemas_created := created;
     refused := λ stmt, refuse && PyStr.startswith "CREATE SCHEMA" stmt;
     select_fails_at := None;
     inserts_before_failure := None |}.

(** One entry of ["migrated-tables"], as [migrate_metadata] leaves it. *)
Definition migrated (table : Table) : MigratedTable :=
  (setup_table (lib 3) [] "oracle" "postgres" 0 0 "hr" table).1.1.

(** The databases of [db] with a target that refuses connections. *)
Definition offline (db : Db) : World :=
  {| create_engine := create_engine (world db);
     get_schema_names := get_schema_names (world db);
     reflect := reflect (world db);
     execute := execute (world db);
     create_all := create_all (world db);
     db_connect := λ _ _, (false, ["connection refused"]);
     dialect_disable_session_restrictions :=
       dialect_disable_session_restrictions (world db);
     dialect_restore_session_restrictions :=
       dialect_restore_session_restrictions (world db);
     db_select_all := db_select_all (world db);
     db_bulk_insert := db_bulk_insert (world db) |}.

End M.

Module S.
Import Metadata.

Definition lib : Lib :=
  {| validate_format_error := format_error;
     exc_format := λ e, e;
     str_sanitize := λ s, s;
     sorted_tables := λ tables, Ok tables |}.

(** A source: its schemas, its tables and views, the names of the views
    and the script that creates them. *)
Record Db := {
  schemas : list string;
  tables : list Table;
  views : list string;
  view_script : string
}.

Definition world (db : Db) : World :=
  {| build_engine := λ _ _, (true, []);
     get_schema_names := λ _ _, schemas db;
     get_view_names := λ _ _, views db;
     get_materialized_view_names := λ _ _, [];
     reflect := λ _ _ _, (tables db, None);
     migrate_schema := λ _ _ target_schema _, (Some target_schema, []);
     migrate_tables := λ _ _ _ _ _, (Some ∅, []);
     create_all := λ _ _ _, None;
     db_get_view_script := λ _ _ _ _, (view_script db, []);
     db_execute := λ _ _ _, [] |}.

Definition orders : Table :=
  {| tbl_name := "orders"; tbl_schema := Some "Sales";
     tbl_columns :=
       [ {| col_name := "id"; col_type := "INTEGER";
            server_default := None; col_default := None |} ];
     tbl_indexes := [] |}.

Definition v_active : Table :=
  {| tbl_name := "v_active"; tbl_schema := Some "Sales";
     tbl_columns :=
       [ {| col_name := "id"; col_type := "INTEGER";
            server_default := None; col_default := None |} ];
     tbl_indexes := [] |}.

(** The script of [v_active], with the schema quoted once and bare once. *)
Definition v_active_script : string :=
  "CREATE VIEW " +:+ dquote +:+ "Sales" +:+ dquote
  +:+ ".v_active AS SELECT id FROM Sales.orders".

(** A Postgres source whose schema was created as [Sales]. *)
Definition sales : Db :=
  {| schemas := ["public"; "Sales"];
     tables := [orders; v_active];
     views := ["v_active"];
     view_script := v_active_script |}.

(** The statements sent to the target by [db_execute]. *)
Fixpoint executed (tr : list Call) : list string :=
  match tr with
  | [] => []
  | DbExecute exc_stmt _ :: tr' => exc_stmt :: executed tr'
  | _ :: tr' => executed tr'
  end.

End S.

End Scenario.
(* ===================================================================== *)
(** * Properties *)
(* ===================================================================== *)

Module PyStrFacts.
Import PyStr.

Lemma lower_idemp s : lower (lower s) = lower s.
Proof.
  induction s as [|c s IH]; [done|].
  cbn [lower]. f_equal; [|done].
  destruct c as [[] [] [] [] [] [] [] []]; reflexivity.
Qed.

Lemma mem_true x l : mem x l = true ↔ x ∈ l.
Proof. unfold mem. by rewrite bool_decide_eq_true. Qed.

Lemma mem_false x l : mem x l = false ↔ x ∉ l.
Proof. unfold mem. by rewrite bool_decide_eq_false. Qed.

Lemma append_inj_r s a b : s +:+ a = s +:+ b → a = b.
Proof.
  induction s as [|c s IH]; [done|]. intros Heq.
  change (String c (s +:+ a) = String c (s +:+ b)) in Heq.
  injection Heq. auto.
Qed.

(** Two runs of digits, each followed by a character that is no digit:
    equal texts have equal runs. *)
Lemma digits_split d1 d2 c1 r1 c2 r2 :
  all_digits d1 = true → all_digits d2 = true →
  is_digit c1 = false → is_digit c2 = false →
  d1 +:+ String c1 r1 = d2 +:+ String c2 r2 →
  d1 = d2 ∧ String c1 r1 = String c2 r2.
Proof.
  intros Hd1 Hd2 Hc1 Hc2. revert d2 Hd2.
  induction d1 as [|a d1 IH]; intros [|b d2] Hd2 Heq; [done|..].
  - change (String c1 r1 = String b (d2 +:+ String c2 r2)) in Heq.
    injection Heq as -> _. cbn in Hd2. by rewrite Hc1 in Hd2.
  - change (String a (d1 +:+ String c1 r1) = String c2 r2) in Heq.
    injection Heq as -> _. cbn in Hd1. by rewrite Hc2 in Hd1.
  - change (String a (d1 +:+ String c1 r1)
            = String b (d2 +:+ String c2 r2)) in Heq.
    injection Heq as -> Heq. cbn in Hd1, Hd2.
    apply andb_true_iff in Hd1 as [_ Hd1].
    apply andb_true_iff in Hd2 as [_ Hd2].
    destruct (IH Hd1 d2 Hd2 Heq) as [-> ->]. done.
Qed.

Lemma pretty_N_go_digits x s :
  all_digits s = true → all_digits (pretty_N_go x s) = true.
Proof.
  revert s. induction (N.lt_wf_0 x) as [x _ IH]; intros s Hs.
  destruct (decide (x = 0)%N) as [->|]; [by rewrite pretty_N_go_0|].
  rewrite pretty_N_go_step by lia. apply IH; [apply N.div_lt; lia|].
  cbn [all_digits]. rewrite Hs, andb_true_r.
  unfold pretty_N_char. by repeat case_match.
Qed.

(** A number is written with digits. *)
Lemma pretty_nat_digits (n : nat) : all_digits (pretty n) = true.
Proof.
  unfold pretty, pretty_nat, pretty, pretty_N.
  case_decide; [done|]. by apply pretty_N_go_digits.
Qed.

(** No character of a lower-cased string is an upper-case letter. *)
Lemma has_upper_lower s : has_upper (lower s) = false.
Proof.
  induction s as [|c s IH]; [done|].
  cbn [lower has_upper]. rewrite IH, orb_false_r.
  destruct c as [[] [] [] [] [] [] [] []]; reflexivity.
Qed.

Lemma has_upper_app s1 s2 :
  has_upper (s1 +:+ s2) = has_upper s1 || has_upper s2.
Proof.
  induction s1 as [|c s1 IH]; [done|].
  change (is_upper c || has_upper (s1 +:+ s2)
          = is_upper c || has_upper s1 || has_upper s2).
  by rewrite IH, orb_assoc.
Qed.

Lemma startswith_has_upper p s :
  startswith p s = true → has_upper p = true → has_upper s = true.
Proof.
  revert s. induction p as [|a p IH]; intros [|b s]; cbn; try done.
  intros [Hab Hps]%andb_true_iff. apply bool_decide_eq_true in Hab as <-.
  intros [Ha|Hp]%orb_true_iff; apply orb_true_iff; [by left|right].
  by apply IH.
Qed.

(** A string in which [old] cannot occur is left as it is. *)
Lemma replace_no_upper s old new :
  has_upper old = true → has_upper s = false → replace s old new = s.
Proof.
  intros Hold. destruct old as [|a old]; [done|]. unfold replace.
  induction s as [|c s IH]; [done|].
  intros Hs. cbn [replace_scan].
  destruct (startswith (String a old) (String c s)) eqn:Hstart.
  - apply startswith_has_upper in Hstart; [congruence|done].
  - cbn in Hs. apply orb_false_iff in Hs as [_ Hs]. by rewrite IH.
Qed.

End PyStrFacts.

Module OracleFacts.
Import Oracle.

Section SetConnectionParams.

Variable validate_format_error : nat → list string → string.

(** The error list only grows. *)
Lemma set_connection_params_errors errors scheme g :
  errors `prefix_of` (set_connection_params validate_format_error errors scheme g).1.
Proof.
  unfold set_connection_params.
  destruct (PyStr.truthy (scheme !! "db-driver"));
    destruct (scheme !! "db-port") as [p|]; cbn -[PyStr.isnumeric];
    repeat case_match; simplify_eq/=;
    try done; try (by apply prefix_app_r);
    try (rewrite <- (assoc_L (++)); by apply prefix_app_r).
Qed.

(** The port a call leaves behind depends on [db-port] alone. *)
Lemma set_connection_params_port errors scheme g p :
  scheme !! "db-port" = Some p →
  PyStr.isnumeric p = true →
  ORCL_DB_PORT (set_connection_params validate_format_error errors scheme g).2 = Some (PyStr.int p).
Proof.
  intros Hp Hnum. unfold set_connection_params. rewrite Hp.
  assert (PyStr.truthy (Some p) = true) as ->.
  { destruct p; [discriminate Hnum | done]. }
  rewrite Hnum. by repeat case_match; simplify_eq/=.
Qed.



End SetConnectionParams.


(** *** Storing and reading the parameters *)

Section RoundTrip.

Variable validate_format_error : nat → list string → string.

(** The parameters a call without error leaves behind. *)
Lemma set_connection_params_stored errors scheme g :
  (set_connection_params validate_format_error errors scheme g).1 = [] →
  (set_connection_params validate_format_error errors scheme g).2
  = {| ORCL_DB_NAME := assign scheme "db-name" (ORCL_DB_NAME g);
       ORCL_DB_USER := assign scheme "db-user" (ORCL_DB_USER g);
       ORCL_DB_PWD := assign scheme "db-pwd" (ORCL_DB_PWD g);
       ORCL_DB_CLIENT := assign scheme "db-client" (ORCL_DB_CLIENT g);
       ORCL_DB_HOST := assign scheme "db-host" (ORCL_DB_HOST g);
       ORCL_DB_PORT :=
         match scheme !! "db-port" with
         | Some (String c p) => Some (PyStr.int (String c p))
         | _ => ORCL_DB_PORT g
         end |}.
Proof.
  unfold set_connection_params.
  destruct (PyStr.truthy (scheme !! "db-driver"));
    destruct (scheme !! "db-port") as [[|c p]|]; cbn -[PyStr.isnumeric];
    repeat case_match; simplify_eq/=; intros Hnil; try done;
    match goal with
    | H : bool_decide (length ?l = 0) = false |- _ =>
        apply bool_decide_eq_false in H; by rewrite Hnil in H
    | _ => by destruct errors
    end.
Qed.

(** X3: Round trip: after a call of [set_connection_params] that leaves the
    error list empty, [get_connection_params] gives back every string
    parameter of the request that is not empty, and the port it names as a
    number; a parameter the request does not name, or names as empty, reads
    as it did before. *)
Theorem set_then_get_connection_params errors scheme g :
  (set_connection_params validate_format_error errors scheme g).1 = [] →
  let before := get_connection_params g in
  let after :=
    get_connection_params
      (set_connection_params validate_format_error errors scheme g).2 in
  (∀ key field, (key, field) ∈ string_params →
     after !! field
     = if PyStr.truthy (scheme !! key) then Some (of_str (scheme !! key))
       else before !! field)
  ∧ (∀ p, scheme !! "db-port" = Some p → p ≠ EmptyString →
       after !! "port" = Some (VInt (PyStr.int p)))
  ∧ (PyStr.truthy (scheme !! "db-port") = false →
     after !! "port" = before !! "port")
  ∧ after !! "rdbms" = Some (VStr "oracle").
Proof.
  intros Hok. cbv zeta. rewrite set_connection_params_stored by done.
  unfold get_connection_params, assign. cbn.
  split; [|split; [|split]].
  - intros key field Hin. unfold string_params in Hin.
    repeat (apply elem_of_cons in Hin as [[= -> ->]|Hin]);
      [..|by apply elem_of_nil in Hin];
      repeat (rewrite lookup_insert_ne by done);
      rewrite ?lookup_insert_eq, ?lookup_singleton_eq;
      by destruct (PyStr.truthy _).
  - intros p Hp Hne. repeat (rewrite lookup_insert_ne by done).
    rewrite lookup_insert_eq, Hp. by destruct p.
  - intros Hnone. repeat (rewrite lookup_insert_ne by done).
    rewrite !lookup_insert_eq.
    by destruct (scheme !! "db-port") as [[|c p]|].
  - by rewrite lookup_insert_eq.
Qed.

(** X4: What [assert_connection_params] answers: [True] exactly when the list
    it was given is empty and the name, the user, the password and the
    host are set and not empty and the port is set and not 0; it appends
    one error for each of the five that is not. *)
Theorem assert_connection_params_answer errors g :
  ((assert_connection_params validate_format_error errors g).2 = true
   ↔ errors = []
     ∧ PyStr.truthy (ORCL_DB_NAME g) = true
     ∧ PyStr.truthy (ORCL_DB_USER g) = true
     ∧ PyStr.truthy (ORCL_DB_PWD g) = true
     ∧ PyStr.truthy (ORCL_DB_HOST g) = true
     ∧ port_set (ORCL_DB_PORT g) = true)
  ∧ length (assert_connection_params validate_format_error errors g).1
    = length errors
      + length (List.filter negb
                  [PyStr.truthy (ORCL_DB_NAME g);
                   PyStr.truthy (ORCL_DB_USER g);
                   PyStr.truthy (ORCL_DB_PWD g);
                   PyStr.truthy (ORCL_DB_HOST g);
                   port_set (ORCL_DB_PORT g)]).
Proof.
  unfold assert_connection_params, require.
  destruct (PyStr.truthy (ORCL_DB_NAME g)), (PyStr.truthy (ORCL_DB_USER g)),
    (PyStr.truthy (ORCL_DB_PWD g)), (PyStr.truthy (ORCL_DB_HOST g)),
    (port_set (ORCL_DB_PORT g)); cbn;
    rewrite ?length_app; cbn;
    (split; [|lia]); rewrite bool_decide_eq_true; rewrite ?length_app; cbn;
    (split;
     [ intros Hlen; first [lia | by destruct errors]
     | intros (Herrors & ? & ? & ? & ? & ?); by subst ]).
Qed.

(** X5: The port 0: [set_connection_params] takes a numeric [db-port] whose
    value is 0 as the port, and [assert_connection_params] then reports
    the port as a required attribute that is missing. *)
Theorem port_zero_stored_then_missing errors scheme g p errors' :
  scheme !! "db-port" = Some p →
  PyStr.isnumeric p = true →
  PyStr.int p = 0%N →
  let g' := (set_connection_params validate_format_error errors scheme g).2 in
  ORCL_DB_PORT g' = Some 0%N
  ∧ (assert_connection_params validate_format_error errors' g').2 = false
  ∧ validate_format_error 112 ["@ORCL_DB_PORT"]
    ∈ (assert_connection_params validate_format_error errors' g').1.
Proof.
  intros Hp Hnum Hzero. cbv zeta.
  pose proof (set_connection_params_port validate_format_error errors scheme
                g p Hp Hnum) as Hport.
  rewrite Hzero in Hport. split; [done|].
  unfold assert_connection_params. rewrite Hport. cbn.
  unfold require at 1. cbn [negb].
  split; [|apply elem_of_app; right; by left].
  apply bool_decide_eq_false. rewrite length_app. cbn. lia.
Qed.

End RoundTrip.

Lemma set_then_get_connection_params_witness :
  let after :=
    get_connection_params
      (set_connection_params Scenario.format_error [] Scenario.scheme_moved
         Scenario.orcl).2 in
  after !! "name" = Some (VStr "other")
  ∧ after !! "user" = Some (VStr "scott")
  ∧ after !! "port" = Some (VInt 1522).
Proof.
  destruct (set_then_get_connection_params Scenario.format_error []
              Scenario.scheme_moved Scenario.orcl)
    as (Hstrings & Hport & _); [reflexivity|].
  split; [|split].
  - rewrite (Hstrings "db-name" "name") by (unfold string_params; set_solver).
    reflexivity.
  - rewrite (Hstrings "db-user" "user") by (unfold string_params; set_solver).
    reflexivity.
  - rewrite (Hport "1522"); done.
Defined.

Lemma assert_connection_params_answer_witness :
  (assert_connection_params Scenario.format_error [] Scenario.orcl).2 = true.
Proof.
  apply (assert_connection_params_answer Scenario.format_error []
           Scenario.orcl).
  repeat split; reflexivity.
Defined.

Lemma port_zero_stored_then_missing_witness :
  let g' :=
    (set_connection_params Scenario.format_error []
       Scenario.scheme_port_zero Scenario.orcl).2 in
  ORCL_DB_PORT g' = Some 0%N
  ∧ (assert_connection_params Scenario.format_error [] g').2 = false
  ∧ "112: @ORCL_DB_PORT"
    ∈ (assert_connection_params Scenario.format_error [] g').1.
Proof.
  apply (port_zero_stored_then_missing Scenario.format_error []
           Scenario.scheme_port_zero Scenario.orcl "0" []); reflexivity.
Defined.

(** *** The client library *)

Section Initialize.

Variable init_oracle_client : list string → string → option string.
Variable db_except_msg : string → option string → option string → string.

(** Once the flag is set, [initialize] does nothing. *)
Lemma initialize_times_done n errors tr g :
  initialize_times init_oracle_client db_except_msg n errors tr g true
  = (true, errors, tr).
Proof.
  induction n as [|n IH]; [done|]. cbn. unfold initialize.
  by destruct (ORCL_DB_CLIENT g).
Qed.

(** X6: The client library is loaded at most once: over any number of calls of
    [initialize], the call of [init_oracle_client] that returns is the
    last one made, and it sets the flag; every call before it raised, and
    left one error each. *)
Theorem client_initialized_once n errors tr g :
  let out :=
    initialize_times init_oracle_client db_except_msg n errors tr g false in
  ∃ tried,
    out.2 = tr ++ tried
    ∧ length out.1.2 + (if out.1.1 then 1 else 0)
      = length errors + length tried
    ∧ (out.1.1 = true → tried ≠ [])
    ∧ ∀ i client,
        tried !! i = Some client →
        (init_oracle_client (tr ++ take i tried) client = None
         ↔ out.1.1 = true ∧ S i = length tried).
Proof.
  cbv zeta. revert errors tr. induction n as [|n IH]; intros errors tr.
  - exists []. cbn. rewrite app_nil_r. split; [done|]. split; [lia|].
    split; [done|]. intros i client Hi. by rewrite lookup_nil in Hi.
  - cbn. unfold initialize.
    destruct (ORCL_DB_CLIENT g) as [client|] eqn:Hclient; cbn.
    + destruct (init_oracle_client tr client) as [e|] eqn:Hinit.
      * destruct (IH (errors ++ [db_except_msg e (ORCL_DB_NAME g)
                                   (ORCL_DB_HOST g)]) (tr ++ [client]))
          as (tried & Htr & Hlen & Hflag & Hlast).
        exists (client :: tried). rewrite Htr, <- (assoc_L (++)).
        split; [done|]. rewrite length_app in Hlen. cbn in *.
        split; [lia|]. split; [done|].
        intros [|i] c Hi; cbn in *.
        -- simplify_eq. rewrite app_nil_r, Hinit. split; [done|].
           intros [Htrue Hone]. apply Hflag in Htrue. by destruct tried.
        -- specialize (Hlast i c Hi).
           rewrite <- (assoc_L (++)) in Hlast. cbn in Hlast.
           rewrite Hlast. split; intros [? ?]; split; auto; lia.
      * rewrite initialize_times_done. exists [client]. cbn.
        split; [done|]. split; [lia|]. split; [done|].
        intros [|i] c Hi; cbn in *; [|by destruct i].
        simplify_eq. by rewrite app_nil_r.
    + assert (∀ m,
                initialize_times init_oracle_client db_except_msg m errors tr
                  g false = (false, errors, tr)) as ->.
      { clear IH. induction m as [|m IHm]; [done|]. cbn. unfold initialize.
        by rewrite Hclient. }
      exists []. cbn. rewrite app_nil_r. split; [done|]. split; [lia|].
      split; [done|]. intros i c Hi. by rewrite lookup_nil in Hi.
Qed.

End Initialize.

(** Five calls with a library that loads at the third attempt: three
    attempts are made, two errors are left and the flag is set. *)
Lemma client_initialized_once_witness :
  ∃ tried,
    initialize_times Scenario.loads_at_third
      (λ e name host, e) 5 [] [] Scenario.orcl_with_client false
    = (true, ["DPI-1047"; "DPI-1047"], tried)
    ∧ length tried = 3.
Proof.
  destruct (client_initialized_once Scenario.loads_at_third
              (λ e name host, e) 5 [] [] Scenario.orcl_with_client)
    as (tried & Htr & _ & _ & _).
  exists tried. cbn in Htr. split; [|by rewrite <- Htr].
  by rewrite <- Htr.
Defined.

(** X7: The paginated query tells its page: for a given schema, table and
    list of columns, two queries are the same text only for the same
    offset and the same batch size. *)
Theorem build_select_query_page schema table columns offset batch_size
    offset' batch_size' :
  build_select_query schema table columns offset batch_size
  = build_select_query schema table columns offset' batch_size' →
  offset = offset' ∧ batch_size = batch_size'.
Proof.
  unfold build_select_query. intros Heq.
  do 10 apply PyStrFacts.append_inj_r in Heq.
  apply (PyStrFacts.digits_split _ _ " " _ " ") in Heq as [Hoffset Heq];
    [|apply PyStrFacts.pretty_nat_digits..|done|done].
  apply (inj pretty) in Hoffset.
  apply (PyStrFacts.append_inj_r " ROWS FETCH NEXT ") in Heq.
  apply (PyStrFacts.digits_split _ _ " " _ " ") in Heq as [Hbatch _];
    [|apply PyStrFacts.pretty_nat_digits..|done|done].
  by apply (inj pretty) in Hbatch.
Qed.

(** The second page of seven rows read by three. *)
Lemma build_select_query_page_witness :
  build_select_query "hr" "jobs" "id" 3 3
  = "SELECT id FROM hr.jobs ORDER BY rowid OFFSET 3 ROWS FETCH NEXT 3 ROWS ONLY"
  ∧ 3 = 3 ∧ 3 = 3.
Proof.
  split; [reflexivity|].
  exact (build_select_query_page "hr" "jobs" "id" 3 3 3 3 eq_refl).
Defined.

End OracleFacts.

Module MigratorFacts.
Import Env Migrator Trace.

Section Code.

Variable L : Lib.
Variable W : World.

(** *** The batch loop *)

Section Loop.

Variables source_rdbms target_rdbms source_schema table : string.
Variable columns : list string.
Variable insert_stmt : option string.


Lemma paging_inserts offset batches :
  inserts
    (paging L source_rdbms target_rdbms source_schema table columns
       insert_stmt offset batches) = map length batches.
Proof.
  revert offset. induction batches as [|b bs IH]; intros offset; cbn; [done|].
  by rewrite IH.
Qed.

Lemma inserts_app tr1 tr2 : inserts (tr1 ++ tr2) = inserts tr1 ++ inserts tr2.
Proof.
  induction tr1 as [|[] tr1 IH]; cbn; by rewrite ?IH.
Qed.

(** The loop, run from a state whose data is what the SELECT at its offset
    returned: the batches it commits are paged one after the other, each
    moves the count and the offset by its size, and at most one more batch
    is handed over, the one whose INSERT failed. *)
Lemma copy_loop_paging fuel st st' trp :
  copy_loop L W fuel source_rdbms target_rdbms source_schema table columns
    insert_stmt st = Some st' →
  lp_trace st
  = trp ++ [DbSelectAll source_rdbms
              (build_bulk_select_stmt L source_rdbms source_schema table
                 columns (lp_offset st) (MIGRATION_BATCH_SIZE L))] →
  lp_bulk_data st
  = (db_select_all W trp source_rdbms
       (build_bulk_select_stmt L source_rdbms source_schema table
          columns (lp_offset st) (MIGRATION_BATCH_SIZE L))).1 →
  ∃ committed failed,
    lp_trace st'
    = lp_trace st
        ++ paging L source_rdbms target_rdbms source_schema table columns
             insert_stmt (lp_offset st) committed
        ++ failed
    ∧ fetched L W source_rdbms target_rdbms source_schema table columns
        insert_stmt trp (lp_offset st) committed
    ∧ lp_migrated_count st' = lp_migrated_count st + rows_of committed
    ∧ lp_offset st' = lp_offset st + rows_of committed
    ∧ (failed = []
       ∨ ∃ bulk_data,
           failed = [DbBulkInsert target_rdbms insert_stmt bulk_data]
           ∧ lp_op_errors st' ≠ []).
Proof.
  revert st trp. induction fuel as [|fuel IH]; intros st trp Hrun Htr Hdata.
  - cbn in Hrun.
    destruct (negb (nonempty (lp_op_errors st)) && nonempty (lp_bulk_data st));
      [discriminate|]. injection Hrun as <-.
    exists [], []. cbn. rewrite !app_nil_r. repeat split; auto; lia.
  - cbn in Hrun.
    destruct (negb (nonempty (lp_op_errors st)) && nonempty (lp_bulk_data st)).
    2:{ injection Hrun as <-. exists [], []. cbn. rewrite !app_nil_r.
        repeat split; auto; lia. }
    case_bool_decide as Herr.
    + injection Hrun as <-. exists [], [DbBulkInsert target_rdbms insert_stmt (lp_bulk_data st)].
      cbn. repeat split; auto; try lia.
      right. eexists. split; [done|]. intros Hnil. rewrite Hnil in Herr.
      cbn in Herr. lia.
    + destruct (db_select_all W _ source_rdbms _) as [data errs] eqn:Hsel.
      apply (IH _ (trp ++ [DbSelectAll source_rdbms
                     (build_bulk_select_stmt L source_rdbms source_schema table
                        columns (lp_offset st) (MIGRATION_BATCH_SIZE L));
                   DbBulkInsert target_rdbms insert_stmt (lp_bulk_data st)]))
        in Hrun as (committed & failed & Ht & Hf & Hc & Ho & Hfail); cbn in *.
      * exists (lp_bulk_data st :: committed), failed.
        unfold rows_of in *. cbn.
        rewrite Ht, Hc, Ho. rewrite <- !(assoc_L (++)). cbn.
        repeat split; auto; lia.
      * rewrite Htr. by rewrite <- !(assoc_L (++)).
      * rewrite Htr in Hsel. rewrite <- !(assoc_L (++)) in Hsel. cbn in Hsel.
        by rewrite Hsel.
Qed.

(** How the loop ends: with an error on [op_errors], or, when it started
    with none, on an empty fetch. *)
Lemma copy_loop_end fuel st st' :
  copy_loop L W fuel source_rdbms target_rdbms source_schema table columns
    insert_stmt st = Some st' →
  lp_op_errors st' ≠ [] ∨ lp_bulk_data st' = [].
Proof.
  revert st. induction fuel as [|fuel IH]; intros st Hrun; cbn in Hrun.
  - destruct (lp_op_errors st) eqn:He, (lp_bulk_data st) eqn:Hd;
      cbn in Hrun; simplify_eq; rewrite ?He, ?Hd; auto.
  - destruct (lp_op_errors st) eqn:He, (lp_bulk_data st) eqn:Hd;
      cbn in Hrun; simplify_eq; rewrite ?He, ?Hd; auto.
    case_bool_decide as Herr.
    + injection Hrun as <-. cbn. left. intros Hnil. rewrite Hnil in Herr.
      cbn in Herr. lia.
    + destruct (db_select_all W _ source_rdbms _) as [data errs].
      by apply IH in Hrun.
Qed.

(** More fuel does not change the outcome of a loop that ended. *)
Lemma copy_loop_fuel fuel k st st' :
  copy_loop L W fuel source_rdbms target_rdbms source_schema table columns
    insert_stmt st = Some st' →
  copy_loop L W (fuel + k) source_rdbms target_rdbms source_schema table
    columns insert_stmt st = Some st'.
Proof.
  revert st. induction fuel as [|fuel IH]; intros st Hrun; cbn in Hrun.
  - destruct k; cbn;
      destruct (negb (nonempty (lp_op_errors st)) && nonempty (lp_bulk_data st));
      done.
  - cbn.
    destruct (negb (nonempty (lp_op_errors st)) && nonempty (lp_bulk_data st));
      [|done].
    case_bool_decide; [done|].
    destruct (db_select_all W _ source_rdbms _) as [data errs].
    by apply IH.
Qed.

Lemma take_app_drop_length {A} n (l : list A) :
  take n l ++ drop (length (take n l)) l = l.
Proof.
  rewrite length_take. destruct (decide (n ≤ length l)).
  - rewrite Nat.min_l by done. apply take_drop.
  - rewrite Nat.min_r, take_ge, drop_ge by lia. apply app_nil_r.
Qed.

Lemma inserted_app tr1 tr2 :
  inserted (tr1 ++ tr2) = inserted tr1 ++ inserted tr2.
Proof.
  induction tr1 as [|[] tr1 IH]; cbn; rewrite ?IH; try done.
  by rewrite (assoc_L (++)).
Qed.

(** **** On a source that pages a finite list of rows *)

Section Paging.

Variable rows : list Row.

Hypothesis paged : ∀ tr offset,
  offset ≤ length rows →
  (db_select_all W tr source_rdbms
     (build_bulk_select_stmt L source_rdbms source_schema table columns
        offset (MIGRATION_BATCH_SIZE L))).1
  = take (MIGRATION_BATCH_SIZE L) (drop offset rows).

(** The loop ends within one iteration per row still to fetch. *)
Lemma copy_loop_ends fuel st :
  lp_bulk_data st = take (MIGRATION_BATCH_SIZE L) (drop (lp_offset st) rows) →
  lp_offset st ≤ length rows →
  length rows - lp_offset st < fuel →
  ∃ st',
    copy_loop L W fuel source_rdbms target_rdbms source_schema table columns
      insert_stmt st = Some st'.
Proof.
  revert st. induction fuel as [|fuel IH]; intros st Hdata Hle Hfuel; [lia|].
  cbn.
  destruct (negb (nonempty (lp_op_errors st)) && nonempty (lp_bulk_data st))
    eqn:Hcond; [|by eexists].
  case_bool_decide; [by eexists|].
  destruct (db_select_all W _ source_rdbms _) as [data errs] eqn:Hsel.
  apply andb_prop in Hcond as [_ Hnonempty].
  assert (0 < length (lp_bulk_data st)) as Hpos
    by (destruct (lp_bulk_data st); [done|cbn; lia]).
  assert (length (lp_bulk_data st) ≤ length rows - lp_offset st) as Hlen.
  { rewrite Hdata, length_take, length_drop. lia. }
  apply IH; cbn; [|lia|lia].
  apply (f_equal fst) in Hsel. cbn in Hsel. rewrite <- Hsel.
  apply paged. lia.
Qed.

(** When moreover no SELECT and no INSERT of the table reports an error and
    the batch size is not 0, the loop hands over the rest of the rows and
    counts them. *)
Lemma copy_loop_copies fuel st :
  0 < MIGRATION_BATCH_SIZE L →
  (∀ tr offset,
     offset ≤ length rows →
     (db_select_all W tr source_rdbms
        (build_bulk_select_stmt L source_rdbms source_schema table columns
           offset (MIGRATION_BATCH_SIZE L))).2 = []) →
  (∀ tr vals, db_bulk_insert W tr target_rdbms insert_stmt vals = []) →
  lp_op_errors st = [] →
  lp_bulk_data st = take (MIGRATION_BATCH_SIZE L) (drop (lp_offset st) rows) →
  lp_offset st ≤ length rows →
  length rows - lp_offset st < fuel →
  ∃ st',
    copy_loop L W fuel source_rdbms target_rdbms source_schema table columns
      insert_stmt st = Some st'
    ∧ lp_op_errors st' = []
    ∧ lp_migrated_count st'
      = lp_migrated_count st + (length rows - lp_offset st)
    ∧ inserted (lp_trace st')
      = inserted (lp_trace st) ++ drop (lp_offset st) rows.
Proof.
  intros Hbatch Hselect Hinsert.
  revert st. induction fuel as [|fuel IH];
    intros st Herrors Hdata Hle Hfuel; [lia|].
  cbn. rewrite Herrors. cbn [nonempty negb andb app].
  destruct (lp_bulk_data st) as [|row data] eqn:Hbulk.
  - (* an empty fetch: no row is left *)
    cbn. eexists. split; [done|]. split; [done|].
    assert (length rows ≤ lp_offset st) as Hall.
    { symmetry in Hdata. apply (f_equal length) in Hdata.
      rewrite length_take, length_drop in Hdata. cbn in Hdata. lia. }
    rewrite drop_ge by done. rewrite app_nil_r.
    split; [lia|done].
  - cbn [nonempty]. rewrite Hinsert. cbn [length].
    rewrite bool_decide_eq_false_2 by lia.
    destruct (db_select_all W _ source_rdbms _) as [data' errs] eqn:Hsel.
    assert (length (row :: data) ≤ length rows - lp_offset st) as Hlen.
    { rewrite Hdata, length_take, length_drop. lia. }
    cbn [length] in Hlen.
    pose proof (Hselect (lp_trace st
                         ++ [DbBulkInsert target_rdbms insert_stmt (row :: data)])
                  (lp_offset st + S (length data))) as Herrs.
    pose proof (paged (lp_trace st
                       ++ [DbBulkInsert target_rdbms insert_stmt (row :: data)])
                  (lp_offset st + S (length data))) as Hpage.
    rewrite Hsel in Herrs, Hpage. cbn in Herrs, Hpage.
    rewrite Herrs by lia.
    destruct (IH {| lp_trace := (lp_trace st
                       ++ [DbBulkInsert target_rdbms insert_stmt (row :: data)])
                      ++ [DbSelectAll source_rdbms
                            (build_bulk_select_stmt L source_rdbms
                               source_schema table columns
                               (lp_offset st + S (length data))
                               (MIGRATION_BATCH_SIZE L))];
                    lp_op_errors := [];
                    lp_bulk_data := data';
                    lp_offset := lp_offset st + S (length data);
                    lp_migrated_count :=
                      lp_migrated_count st + S (length data) |})
      as (st' & Hrun & Herr' & Hcount & Hrows); cbn; [done|apply Hpage; lia|lia|lia|].
    exists st'. split; [done|]. split; [done|]. split; [cbn in Hcount; lia|].
    cbn in Hrows. rewrite Hrows, !inserted_app. cbn.
    rewrite !app_nil_r, <- (assoc_L (++)). f_equal.
    change (S (length data)) with (length (row :: data)).
    rewrite <- drop_drop, Hdata.
    apply take_app_drop_length.
Qed.

End Paging.

End Loop.

(** *** One table *)

Section Table.

Variables source_rdbms target_rdbms source_schema target_schema : string.

(** The calls of a table: its first SELECT at offset 0, the committed
    batches paged from there, and at most one failed INSERT; the count is
    the number of rows of the committed batches. *)
Lemma migrate_table_paging fuel tr errors mt mt' errors' tr' :
  migrate_table L W fuel tr errors source_rdbms target_rdbms source_schema
    target_schema mt = Some (mt', errors', tr') →
  ∃ committed failed,
    tr' = tr
          ++ DbSelectAll source_rdbms
               (build_bulk_select_stmt L source_rdbms source_schema
                  (mt_table mt) (column_names L (mt_columns mt)) 0
                  (MIGRATION_BATCH_SIZE L))
          :: paging L source_rdbms target_rdbms source_schema (mt_table mt)
               (column_names L (mt_columns mt))
               (build_bulk_insert_stmt L target_rdbms target_schema
                  (mt_table mt) (column_names L (mt_columns mt)))
               0 committed
          ++ failed
    ∧ fetched L W source_rdbms target_rdbms source_schema (mt_table mt)
        (column_names L (mt_columns mt))
        (build_bulk_insert_stmt L target_rdbms target_schema
           (mt_table mt) (column_names L (mt_columns mt)))
        tr 0 committed
    ∧ mt_count mt' = rows_of committed
    ∧ (failed = []
       ∨ ∃ bulk_data,
           failed
           = [DbBulkInsert target_rdbms
                (build_bulk_insert_stmt L target_rdbms target_schema
                   (mt_table mt) (column_names L (mt_columns mt)))
                bulk_data]
           ∧ mt_status mt' ≠ "full").
Proof.
  unfold migrate_table. intros Hrun.
  destruct (db_select_all W tr source_rdbms _) as [data errs] eqn:Hsel.
  destruct (copy_loop _ _ _ _ _ _ _ _ _ _) as [st|] eqn:Hloop; [|done].
  apply (copy_loop_paging _ _ _ _ _ _ _ _ _ tr) in Hloop
    as (committed & failed & Ht & Hf & Hc & _ & Hfail); cbn in *;
    [| done | by rewrite Hsel].
  exists committed, failed.
  destruct (nonempty (lp_op_errors st)) eqn:Herr; simplify_eq/=;
    rewrite Ht, <- (assoc_L (++)); (split; [done|]);
    (split; [done|]); (split; [done|]).
  - destruct Hfail as [->|(b & -> & _)]; [by left|right].
    eexists. split; [done|]. by case_bool_decide.
  - destruct Hfail as [->|(b & -> & Hne)]; [by left|].
    by destruct (lp_op_errors st).
Qed.


(** The status of a table, from the state in which its loop ended. *)
Lemma migrate_table_status fuel tr errors mt mt' errors' tr' :
  migrate_table L W fuel tr errors source_rdbms target_rdbms source_schema
    target_schema mt = Some (mt', errors', tr') →
  mt_status mt' = "full" ∨ mt_status mt' = "partial" ∧ 0 < mt_count mt'
  ∨ mt_status mt' = "none" ∧ mt_count mt' = 0.
Proof.
  unfold migrate_table. intros Hrun.
  destruct (db_select_all W tr source_rdbms _) as [data errs].
  destruct (copy_loop _ _ _ _ _ _ _ _ _ _) as [st|]; [|done].
  destruct (nonempty (lp_op_errors st)); simplify_eq/=; [|by left].
  right. case_bool_decide; [right | left]; split; auto; lia.
Qed.

(** The slip of the first SELECT: its errors go to [errors], not to
    [op_errors], so a table whose first SELECT fails without rows is
    recorded as fully migrated. *)
Lemma migrate_table_first_select_error fuel tr errors mt errs :
  db_select_all W tr source_rdbms
    (build_bulk_select_stmt L source_rdbms source_schema (mt_table mt)
       (column_names L (mt_columns mt)) 0 (MIGRATION_BATCH_SIZE L))
  = ([], errs) →
  ∃ mt' tr',
    migrate_table L W fuel tr errors source_rdbms target_rdbms source_schema
      target_schema mt = Some (mt', errors ++ errs, tr')
    ∧ mt_status mt' = "full" ∧ mt_count mt' = 0.
Proof.
  intros Hsel. unfold migrate_table. rewrite Hsel.
  destruct fuel; cbn; eauto.
Qed.

Lemma migrate_table_fuel fuel k tr errors mt out :
  migrate_table L W fuel tr errors source_rdbms target_rdbms source_schema
    target_schema mt = Some out →
  migrate_table L W (fuel + k) tr errors source_rdbms target_rdbms
    source_schema target_schema mt = Some out.
Proof.
  unfold migrate_table.
  destruct (db_select_all W tr source_rdbms _) as [data errs].
  destruct (copy_loop _ _ fuel _ _ _ _ _ _ _) as [st|] eqn:Hloop; [|done].
  by rewrite (copy_loop_fuel _ _ _ _ _ _ _ _ _ _ Hloop).
Qed.

(** X1: A table ends: on a source that answers the SELECT of every offset up
    to the number of its rows with the page of the rows at that offset,
    [migrate_table] returns as soon as the fuel exceeds that number,
    whatever the INSERTs do. *)
Theorem paged_table_returns (rows : list Row) fuel tr errors mt :
  (∀ tr offset,
     offset ≤ length rows →
     (db_select_all W tr source_rdbms
        (build_bulk_select_stmt L source_rdbms source_schema (mt_table mt)
           (column_names L (mt_columns mt)) offset (MIGRATION_BATCH_SIZE L))).1
     = take (MIGRATION_BATCH_SIZE L) (drop offset rows)) →
  length rows < fuel →
  ∃ out,
    migrate_table L W fuel tr errors source_rdbms target_rdbms source_schema
      target_schema mt = Some out.
Proof.
  intros Hpaged Hfuel. unfold migrate_table.
  destruct (db_select_all W tr source_rdbms _) as [data errs] eqn:Hsel.
  edestruct (copy_loop_ends source_rdbms target_rdbms source_schema
               (mt_table mt) (column_names L (mt_columns mt))
               (build_bulk_insert_stmt L target_rdbms target_schema
                  (mt_table mt) (column_names L (mt_columns mt)))
               rows Hpaged fuel) as [st' ->]; cbn; [| |by rewrite Nat.sub_0_r|].
  - apply (f_equal fst) in Hsel. cbn in Hsel. rewrite <- Hsel.
    apply Hpaged. lia.
  - lia.
  - destruct (nonempty (lp_op_errors st')); by eexists.
Qed.

(** X2: Row conservation: when moreover the batch size is not 0 and no SELECT
    and no INSERT of the table reports an error, the table is recorded
    [full] with the number of the source rows as its count, no error is
    added, and the rows handed to the target are the source rows, in
    order. *)
Theorem paged_table_copied (rows : list Row) fuel tr errors mt :
  (∀ tr offset,
     offset ≤ length rows →
     db_select_all W tr source_rdbms
       (build_bulk_select_stmt L source_rdbms source_schema (mt_table mt)
          (column_names L (mt_columns mt)) offset (MIGRATION_BATCH_SIZE L))
     = (take (MIGRATION_BATCH_SIZE L) (drop offset rows), [])) →
  (∀ tr vals,
     db_bulk_insert W tr target_rdbms
       (build_bulk_insert_stmt L target_rdbms target_schema (mt_table mt)
          (column_names L (mt_columns mt))) vals = []) →
  0 < MIGRATION_BATCH_SIZE L →
  length rows < fuel →
  ∃ mt' tr',
    migrate_table L W fuel tr errors source_rdbms target_rdbms source_schema
      target_schema mt = Some (mt', errors, tr')
    ∧ mt_status mt' = "full"
    ∧ mt_count mt' = length rows
    ∧ inserted tr' = inserted tr ++ rows.
Proof.
  intros Hpaged Hinsert Hbatch Hfuel. unfold migrate_table.
  rewrite Hpaged by lia. rewrite app_nil_r.
  edestruct (copy_loop_copies source_rdbms target_rdbms source_schema
               (mt_table mt) (column_names L (mt_columns mt))
               (build_bulk_insert_stmt L target_rdbms target_schema
                  (mt_table mt) (column_names L (mt_columns mt)))
               rows) as (st' & -> & Herrors & Hcount & Hrows); cbn;
    [ intros; by rewrite Hpaged | done
    | intros; by rewrite Hpaged | done | done | done | lia
    | by rewrite Nat.sub_0_r | ].
  rewrite Herrors. cbn. do 2 eexists. split; [done|]. cbn.
  split; [done|]. split; [cbn in Hcount; lia|].
  cbn in Hrows. by rewrite Hrows, inserted_app, app_nil_r.
Qed.

(** *** All tables *)


(** The tables keep their order and their names. *)
Lemma migrate_plain_data_tables fuel tr errors mts mts' errors' tr' :
  migrate_plain_data L W fuel tr errors source_rdbms target_rdbms
    source_schema target_schema mts = Some (mts', errors', tr') →
  map mt_table mts' = map mt_table mts.
Proof.
  revert tr errors mts' errors' tr'.
  induction mts as [|mt mts IH]; intros tr errors mts' errors' tr' Hrun;
    cbn in Hrun; [by simplify_eq|].
  destruct (migrate_table _ _ _ _ _ _ _ _ _ _) as [[[mt1 errors1] tr1]|]
    eqn:Htable; [|done].
  destruct (migrate_plain_data _ _ _ _ _ _ _ _ _ _)
    as [[[rest errors2] tr2]|] eqn:Hrest; [|done].
  simplify_eq. cbn. f_equal; [|by eapply IH].
  unfold migrate_table in Htable.
  destruct (db_select_all W tr source_rdbms _).
  destruct (copy_loop _ _ _ _ _ _ _ _ _ _); [|done].
  by destruct (nonempty _); simplify_eq.
Qed.

(** *** The phase *)


End Table.

End Code.

(** The source of [Scenario.M.hr] pages its seven rows. *)
Lemma hr_paged tr offset :
  offset ≤ 7 →
  db_select_all (Scenario.M.world Scenario.M.hr) tr "oracle"
    (build_bulk_select_stmt (Scenario.M.lib 3) "oracle" "hr" "jobs"
       (column_names (Scenario.M.lib 3)
          (mt_columns (Scenario.M.migrated Scenario.jobs)))
       offset 3)
  = (take 3 (drop offset Scenario.seven), []).
Proof.
  intros Hle.
  do 8 (destruct offset as [|offset]; [vm_compute; reflexivity|]). lia.
Qed.

Lemma paged_table_returns_witness :
  ∃ out,
    migrate_table (Scenario.M.lib 3) (Scenario.M.world Scenario.M.hr) 8 []
      [] "oracle" "postgres" "hr" "hr" (Scenario.M.migrated Scenario.jobs)
    = Some out.
Proof.
  apply (paged_table_returns (Scenario.M.lib 3)
           (Scenario.M.world Scenario.M.hr) "oracle" "postgres" "hr" "hr"
           Scenario.seven).
  - intros tr offset Hle. cbn in Hle.
    change (MIGRATION_BATCH_SIZE (Scenario.M.lib 3)) with 3.
    change (mt_table (Scenario.M.migrated Scenario.jobs)) with "jobs".
    by rewrite hr_paged.
  - cbn. lia.
Defined.

Lemma paged_table_copied_witness :
  ∃ mt' tr',
    migrate_table (Scenario.M.lib 3) (Scenario.M.world Scenario.M.hr) 8 []
      [] "oracle" "postgres" "hr" "hr" (Scenario.M.migrated Scenario.jobs)
    = Some (mt', [], tr')
    ∧ mt_status mt' = "full"
    ∧ mt_count mt' = 7
    ∧ inserted tr' = Scenario.seven.
Proof.
  apply (paged_table_copied (Scenario.M.lib 3)
           (Scenario.M.world Scenario.M.hr) "oracle" "postgres" "hr" "hr"
           Scenario.seven 8 [] []).
  - intros tr offset Hle. cbn in Hle.
    change (MIGRATION_BATCH_SIZE (Scenario.M.lib 3)) with 3.
    change (mt_table (Scenario.M.migrated Scenario.jobs)) with "jobs".
    by apply hr_paged.
  - intros tr vals. reflexivity.
  - cbn. lia.
  - cbn. lia.
Defined.

(** *** The plain path and the large binary columns *)

(** No dictionary of [migrate_metadata] has the key [source_type]: the
    type is stored under [source-type]. *)
Lemma column_data_source_type column :
  column_data column !! "source_type" = None.
Proof.
  unfold column_data.
  rewrite lookup_insert_ne by done. by rewrite lookup_singleton_ne.
Qed.

Lemma register_type_source_type table_columns column :
  Forall (λ c : gmap string string, c !! "source_type" = None) table_columns →
  Forall (λ c : gmap string string, c !! "source_type" = None)
    (register_type table_columns column).
Proof.
  induction 1 as [|c cs Hc Hcs IH]; cbn; [constructor|].
  case_bool_decide; constructor; auto.
  by rewrite lookup_insert_ne.
Qed.

Lemma setup_table_source_type L errors source_rdbms target_rdbms
    native_ordinal reference_ordinal to_schema source_table :
  Forall (λ c : gmap string string, c !! "source_type" = None)
    (mt_columns
       (setup_table L errors source_rdbms target_rdbms native_ordinal
          reference_ordinal to_schema source_table).1.1).
Proof.
  unfold setup_table.
  destruct (setup_target_table _ _ _ _ _ _ _) as [columns errors']. cbn.
  assert (Forall (λ c : gmap string string, c !! "source_type" = None)
            (map column_data (tbl_columns source_table))) as Hinit.
  { apply Forall_map, Forall_true. intros c. apply column_data_source_type. }
  revert Hinit. generalize (map column_data (tbl_columns source_table)).
  induction columns as [|column columns IH]; intros cs Hcs; cbn; [done|].
  by apply IH, register_type_source_type.
Qed.

(** On such dictionaries the type test sees [None] for every column: the
    plain path takes all the columns, or none of them. *)
Lemma column_names_untyped L (table_columns : list (gmap string string)) :
  Forall (λ c : gmap string string, c !! "source_type" = None) table_columns →
  column_names L table_columns
  = if is_large_binary L None then []
    else map (λ c, default EmptyString (c !! "name")) table_columns.
Proof.
  unfold column_names.
  induction 1 as [|c cs Hc Hcs IH]; cbn; [by destruct (is_large_binary L None)|].
  rewrite Hc. destruct (is_large_binary L None); cbn in *; [done|].
  by rewrite IH.
Qed.

(** C2 (what the code does): for the table [persons(id INTEGER, since
    DATE, photo BLOB)] as [migrate_metadata] registers it, the columns of
    the plain path are not [id, since], whatever [is_large_binary] holds to
    be large: [photo] stays in, unless every column is left out. *)
Theorem column_names_keep_lob_columns L :
  column_names L (mt_columns (Scenario.M.migrated Scenario.persons))
  = (if is_large_binary L None then [] else ["id"; "since"; "photo"])
  ∧ column_names L (mt_columns (Scenario.M.migrated Scenario.persons))
    ≠ ["id"; "since"].
Proof.
  rewrite column_names_untyped by apply setup_table_source_type.
  split; destruct (is_large_binary L None); done.
Qed.

(** *** The status of a table *)

(** C1 (what the code does): a table whose first SELECT fails is recorded
    with the status [full] and the count 0, the error going to the list of
    the phase; the same failure on the second SELECT gives [partial]. *)
Theorem first_select_error_recorded_full :
  (∃ mt' tr',
     migrate_table (Scenario.M.lib 3)
       (Scenario.M.world (Scenario.M.hr_with (Some 0) None)) 4 [] []
       "oracle" "postgres" "hr" "hr" (Scenario.M.migrated Scenario.jobs)
     = Some (mt', ["SELECT failed"], tr')
     ∧ mt_status mt' = "full" ∧ mt_count mt' = 0 ∧ inserts tr' = [])
  ∧ (∃ mt' tr',
       migrate_table (Scenario.M.lib 3)
         (Scenario.M.world (Scenario.M.hr_with (Some 3) None)) 4 [] []
         "oracle" "postgres" "hr" "hr" (Scenario.M.migrated Scenario.jobs)
       = Some (mt', ["SELECT failed"], tr')
       ∧ mt_status mt' = "partial" ∧ mt_count mt' = 3 ∧ inserts tr' = [3]).
Proof.
  split; do 2 eexists; (split; [vm_compute; reflexivity|]); done.
Qed.

(** *** Counts and offsets *)

(** C3: the calls of a table are its SELECT at offset 0, then for every
    committed batch the INSERT of the rows the SELECT before it returned
    and the SELECT at the offset moved on by their number, then at most
    one failed INSERT; the count of the table is the number of rows of the
    committed batches.  With a batch size of 3 and 7 source rows there are
    three INSERTs of 3, 3 and 1 rows, a count of 7 and the status [full];
    when the SELECT after the second commit fails, or the third INSERT,
    the status is [partial] and the count 6. *)
Theorem batches_move_count_and_offset :
  (∀ L W fuel tr errors source_rdbms target_rdbms source_schema
     target_schema mt mt' errors' tr',
     migrate_table L W fuel tr errors source_rdbms target_rdbms
       source_schema target_schema mt = Some (mt', errors', tr') →
     ∃ committed failed,
       tr' = tr
             ++ DbSelectAll source_rdbms
                  (build_bulk_select_stmt L source_rdbms source_schema
                     (mt_table mt) (column_names L (mt_columns mt)) 0
                     (MIGRATION_BATCH_SIZE L))
             :: paging L source_rdbms target_rdbms source_schema
                  (mt_table mt) (column_names L (mt_columns mt))
                  (build_bulk_insert_stmt L target_rdbms target_schema
                     (mt_table mt) (column_names L (mt_columns mt)))
                  0 committed
             ++ failed
       ∧ fetched L W source_rdbms target_rdbms source_schema (mt_table mt)
           (column_names L (mt_columns mt))
           (build_bulk_insert_stmt L target_rdbms target_schema
              (mt_table mt) (column_names L (mt_columns mt)))
           tr 0 committed
       ∧ mt_count mt' = rows_of committed
       ∧ (failed = []
          ∨ ∃ bulk_data,
              failed
              = [DbBulkInsert target_rdbms
                   (build_bulk_insert_stmt L target_rdbms target_schema
                      (mt_table mt) (column_names L (mt_columns mt)))
                   bulk_data]
              ∧ mt_status mt' ≠ "full"))
  ∧ (∀ k, ∃ mt' tr',
       migrate_table (Scenario.M.lib 3) (Scenario.M.world Scenario.M.hr)
         (4 + k) [] [] "oracle" "postgres" "hr" "hr"
         (Scenario.M.migrated Scenario.jobs)
       = Some (mt', [], tr')
       ∧ inserts tr' = [3; 3; 1]
       ∧ mt_count mt' = 7 ∧ mt_status mt' = "full")
  ∧ (∀ k, ∃ mt' tr',
       migrate_table (Scenario.M.lib 3)
         (Scenario.M.world (Scenario.M.hr_with (Some 6) None))
         (4 + k) [] [] "oracle" "postgres" "hr" "hr"
         (Scenario.M.migrated Scenario.jobs)
       = Some (mt', ["SELECT failed"], tr')
       ∧ inserts tr' = [3; 3]
       ∧ mt_count mt' = 6 ∧ mt_status mt' = "partial")
  ∧ (∀ k, ∃ mt' tr',
       migrate_table (Scenario.M.lib 3)
         (Scenario.M.world (Scenario.M.hr_with None (Some 2)))
         (4 + k) [] [] "oracle" "postgres" "hr" "hr"
         (Scenario.M.migrated Scenario.jobs)
       = Some (mt', ["INSERT failed"], tr')
       ∧ inserts tr' = [3; 3; 1]
       ∧ mt_count mt' = 6 ∧ mt_status mt' = "partial").
Proof.
  split; [intros *; apply migrate_table_paging|].
  repeat split; intros k; do 2 eexists;
    (split; [apply migrate_table_fuel; vm_compute; reflexivity|]); done.
Qed.

(** On the seven rows of [jobs], paged by three. *)
Lemma batches_move_count_and_offset_witness :
  ∃ out committed,
    migrate_table (Scenario.M.lib 3) (Scenario.M.world Scenario.M.hr) 4 []
      [] "oracle" "postgres" "hr" "hr" (Scenario.M.migrated Scenario.jobs)
    = Some out
    ∧ map length committed = inserts out.2
    ∧ mt_count out.1.1 = rows_of committed.
Proof.
  destruct batches_move_count_and_offset as [Hpaging _].
  destruct (migrate_table (Scenario.M.lib 3) (Scenario.M.world Scenario.M.hr)
              4 [] [] "oracle" "postgres" "hr" "hr"
              (Scenario.M.migrated Scenario.jobs))
    as [[[mt' errors'] tr']|] eqn:Hrun; [|by vm_compute in Hrun].
  destruct (Hpaging _ _ _ _ _ _ _ _ _ _ _ _ _ Hrun)
    as (committed & failed & Htr & _ & Hcount & Hfailed).
  exists (mt', errors', tr'), committed. split; [done|]. split; [|done].
  cbn. rewrite Htr. cbn. rewrite inserts_app, paging_inserts.
  destruct Hfailed as [->|(b & -> & Hstatus)]; [by rewrite app_nil_r|].
  exfalso. apply Hstatus. by vm_compute in Hrun; simplify_eq.
Defined.

(** *** The session restrictions *)



(** *** The metadata *)

Section Metadata.

Variable L : Lib.
Variable W : World.

Lemma engine_exc_stmt_trace tr errors rdbms engine stmt :
  (engine_exc_stmt L W tr errors rdbms engine stmt).2
  = tr ++ [Execute engine stmt].
Proof. unfold engine_exc_stmt. by destruct (execute W tr engine stmt). Qed.

Lemma build_engine_trace tr errors rdbms :
  (build_engine L W tr errors rdbms).2
  = tr ++ [CreateEngine (get_connection_string L rdbms)].
Proof.
  unfold build_engine.
  destruct (create_engine W tr _); [|done].
  by destruct (get_connection_params L rdbms).
Qed.

Lemma build_engine_engine tr errors rdbms engine :
  (build_engine L W tr errors rdbms).1.1 = Some engine →
  engine = get_connection_string L rdbms
  ∧ (build_engine L W tr errors rdbms).1.2 = errors.
Proof.
  unfold build_engine.
  destruct (create_engine W tr _); [|by intros [= <-]].
  by destruct (get_connection_params L rdbms).
Qed.

(** The statements of the loop over the tables to drop. *)
Lemma drop_loop_trace tr errors target_rdbms target_engine to_schema tables :
  (drop_loop L W tr errors target_rdbms target_engine to_schema tables).2
  = tr ++ map (λ t, Execute target_engine (drop_stmt to_schema t)) tables.
Proof.
  revert tr errors. induction tables as [|t tables IH]; intros tr errors; cbn.
  - by rewrite app_nil_r.
  - destruct (engine_exc_stmt L W tr errors target_rdbms target_engine _)
      as [errors1 tr1] eqn:Hexc.
    rewrite IH. apply (f_equal snd) in Hexc. cbn in Hexc.
    rewrite engine_exc_stmt_trace in Hexc. subst tr1.
    by rewrite <- (assoc_L (++)).
Qed.

Lemma setup_tables_names errors source_rdbms target_rdbms native_ordinal
    reference_ordinal to_schema source_tables :
  map tbl_name
    (setup_tables L errors source_rdbms target_rdbms native_ordinal
       reference_ordinal to_schema source_tables).1.2
  = map tbl_name source_tables.
Proof.
  revert errors. induction source_tables as [|t ts IH]; intros errors; [done|].
  cbn. unfold setup_table at 1.
  destruct (setup_target_table _ _ _ _ _ _ _) as [columns errors1]. cbn.
  specialize (IH errors1).
  destruct (setup_tables _ _ _ _ _ _ _ _) as [[result tables] errors2].
  cbn in *. by rewrite IH.
Qed.

(** The calls made before the target schema is looked for, and what the
    candidates are. *)
Lemma select_candidates_inl tr errors source_rdbms target_rdbms
    source_schema target_schema data_tables c :
  select_candidates L W tr errors source_rdbms target_rdbms source_schema
    target_schema data_tables = inl c →
  ∃ from_schema metadata,
    cd_trace c
    = tr ++ [CreateEngine (get_connection_string L source_rdbms);
             CreateEngine (get_connection_string L target_rdbms);
             GetSchemaNames (get_connection_string L source_rdbms);
             Reflect (get_connection_string L source_rdbms) from_schema;
             GetSchemaNames (get_connection_string L target_rdbms)]
    ∧ cd_target_engine c = get_connection_string L target_rdbms
    ∧ cd_errors c = errors
    ∧ cd_source_tables c = sorted_tables L metadata
    ∧ cd_to_schema c
      = match_schema target_schema
          (get_schema_names W
             (tr ++ [CreateEngine (get_connection_string L source_rdbms);
                     CreateEngine (get_connection_string L target_rdbms);
                     GetSchemaNames (get_connection_string L source_rdbms);
                     Reflect (get_connection_string L source_rdbms) from_schema])
             (get_connection_string L target_rdbms)).
Proof.
  unfold select_candidates.
  destruct (build_engine L W tr errors source_rdbms)
    as [[se errors1] tr1] eqn:Hse.
  destruct (build_engine L W tr1 errors1 target_rdbms)
    as [[te errors2] tr2] eqn:Hte.
  destruct se as [se|], te as [te|]; try done.
  pose proof (build_engine_trace tr errors source_rdbms) as Htr1.
  pose proof (build_engine_engine tr errors source_rdbms se) as Hse'.
  rewrite Hse in Htr1, Hse'. cbn in Htr1, Hse'.
  destruct Hse' as [-> ->]; [done|].
  pose proof (build_engine_trace tr1 errors target_rdbms) as Htr2.
  pose proof (build_engine_engine tr1 errors target_rdbms te) as Hte'.
  rewrite Hte in Htr2, Hte'. cbn in Htr2, Hte'.
  destruct Hte' as [-> ->]; [done|]. subst tr1 tr2.
  unfold probe_schema.
  destruct (PyStr.truthy _) eqn:Hfrom; [|done].
  case_bool_decide; [|done].
  intros [= <-]. cbn.
  eexists _, _. rewrite <- !(assoc_L (++)). cbn. done.
Qed.

(** C4: whenever the target schema is found in the catalog of the target,
    the calls of [migrate_metadata] are the reads of the two catalogs,
    then one [DROP TABLE IF EXISTS] for each selected table, in the
    reverse of the dependency-sorted list, and only then the creation of
    the tables. *)
Theorem existing_tables_dropped_in_reverse tr errors source_rdbms
    target_rdbms source_schema target_schema data_tables c to_schema :
  select_candidates L W tr errors source_rdbms target_rdbms source_schema
    target_schema data_tables = inl c →
  cd_to_schema c = Some to_schema →
  to_schema ≠ EmptyString →
  ∃ from_schema metadata tables,
    cd_source_tables c = sorted_tables L metadata
    ∧ map tbl_name tables = map tbl_name (cd_source_tables c)
    ∧ (migrate_metadata L W tr errors source_rdbms target_rdbms
         source_schema target_schema data_tables).2
      = tr ++ [CreateEngine (get_connection_string L source_rdbms);
               CreateEngine (get_connection_string L target_rdbms);
               GetSchemaNames (get_connection_string L source_rdbms);
               Reflect (get_connection_string L source_rdbms) from_schema;
               GetSchemaNames (get_connection_string L target_rdbms)]
           ++ map (λ t, Execute (get_connection_string L target_rdbms)
                          (drop_stmt to_schema t))
                (reverse (cd_source_tables c))
           ++ [CreateAll (get_connection_string L target_rdbms) tables].
Proof.
  intros Hc Hto Hne. unfold migrate_metadata. rewrite Hc.
  apply select_candidates_inl
    in Hc as (from_schema & metadata & Htr & Hte & _ & Hsorted & _).
  unfold materialize. rewrite Hto.
  destruct to_schema as [|ch to_schema]; [done|].
  cbn [PyStr.truthy default from_option id].
  unfold drop_existing_tables.
  destruct (drop_loop _ _ _ _ _ _ _ _) as [errors1 tr1] eqn:Hdrop.
  apply (f_equal snd) in Hdrop. rewrite drop_loop_trace in Hdrop.
  cbn in Hdrop. subst tr1. cbv beta iota zeta.
  cbn [PyStr.truthy default from_option id].
  destruct (establish_equivalences L source_rdbms target_rdbms)
    as [native_ordinal reference_ordinal].
  pose proof (setup_tables_names errors1 source_rdbms target_rdbms
                native_ordinal reference_ordinal (String ch to_schema)
                (cd_source_tables c)) as Hnames.
  destruct (setup_tables _ _ _ _ _ _ _ _) as [[result tables] errors2].
  exists from_schema, metadata, tables. split; [done|]. split; [done|].
  cbv beta iota zeta. unfold create_tables. rewrite Htr, Hte.
  destruct (create_all W _ _ _); cbn; by rewrite <- !(assoc_L (++)).
Qed.

(** C5 (amended): whenever the target schema is not found, [CREATE SCHEMA
    <schema> AUTHORIZATION <user>] is executed; the catalog of the target
    is read again only when the error list is empty after that; when an
    error is on the list, or the schema is still not found, the explicit
    error 104 is appended and nothing else is done: no table is
    registered, none is created. *)
Theorem schema_created_then_checked tr errors source_rdbms target_rdbms
    source_schema target_schema data_tables c :
  select_candidates L W tr errors source_rdbms target_rdbms source_schema
    target_schema data_tables = inl c →
  PyStr.truthy (cd_to_schema c) = false →
  let engine := cd_target_engine c in
  let stmt :=
    create_schema_stmt target_schema
      (get_connection_params L target_rdbms).1 in
  let created :=
    engine_exc_stmt L W (cd_trace c)
      (cd_errors c ++ (get_connection_params L target_rdbms).2)
      target_rdbms engine stmt in
  let out :=
    migrate_metadata L W tr errors source_rdbms target_rdbms source_schema
      target_schema data_tables in
  let refusal :=
    validate_format_error L 104
      ["unable to create schema in RDBMS " +:+ target_rdbms; "@to-schema"] in
  created.2 = cd_trace c ++ [Execute engine stmt]
  ∧ (created.1 ≠ [] → out = ([], created.1 ++ [refusal], created.2))
  ∧ (created.1 = [] →
     (∃ rest, out.2 = created.2 ++ GetSchemaNames engine :: rest)
     ∧ (PyStr.truthy
          (match_schema target_schema (get_schema_names W created.2 engine))
        = false →
        out = ([], [refusal], created.2 ++ [GetSchemaNames engine]))).
Proof.
  intros Hc Habsent. cbv zeta.
  split; [apply engine_exc_stmt_trace|].
  unfold migrate_metadata. rewrite Hc.
  unfold materialize. rewrite Habsent. unfold create_target_schema.
  destruct (get_connection_params L target_rdbms) as [conn_params errs].
  cbn [fst snd].
  destruct (engine_exc_stmt _ _ _ _ _ _ _) as [errors1 tr1]. cbn [fst snd].
  split.
  - intros Hne. rewrite bool_decide_eq_false_2 by by destruct errors1.
    by rewrite Habsent.
  - intros ->. cbn [length bool_decide decide_rel]. rewrite bool_decide_eq_true_2 by done.
    unfold probe_schema.
    destruct (match_schema target_schema _) as [found|] eqn:Hfound.
    + destruct (PyStr.truthy (Some found)) eqn:Hfound'.
      * split; [|done].
        destruct (establish_equivalences L source_rdbms target_rdbms).
        destruct (setup_tables _ _ _ _ _ _ _ _) as [[result tables] errors2].
        unfold create_tables.
        destruct (create_all W _ _ _); cbn; rewrite <- (assoc_L (++)); eauto.
      * split; [exists []; by rewrite app_nil_l|done].
    + rewrite Habsent. split; [exists []; by rewrite app_nil_l|done].
Qed.

(** What [setup_target_table] leaves of the columns: the translated type,
    no server default, and the declared default. *)
Lemma setup_columns_columns errors source_rdbms target_rdbms native_ordinal
    reference_ordinal columns :
  (setup_columns L errors source_rdbms target_rdbms native_ordinal
     reference_ordinal columns).1
  = map (λ column,
           {| col_name := col_name column;
              col_type := migrate_type L source_rdbms target_rdbms
                            native_ordinal reference_ordinal column;
              server_default := None;
              col_default := col_default column |})
      columns.
Proof.
  revert errors. induction columns as [|column columns IH]; intros errors;
    [done|].
  cbn. unfold wrap_up_column, column_lower. cbn.
  destruct (col_default column) eqn:Hdefault;
    match goal with
    | |- context [setup_columns L ?e _ _ _ _ columns] =>
        specialize (IH e); destruct (setup_columns L e _ _ _ _ columns)
    end; cbn in *; by rewrite IH, ?Hdefault.
Qed.

(** C7 (amended): every column [setup_target_table] returns has its name,
    the translated type and no server default; its declared default is
    left as it is when it is none of [sysdate] and [systime], so
    [current_timestamp], [getdate] and [now] stay. *)
Theorem server_default_stripped errors source_rdbms target_rdbms
    native_ordinal reference_ordinal source_table :
  Forall2
    (λ column migrated,
       col_name migrated = col_name column
       ∧ col_type migrated
         = migrate_type L source_rdbms target_rdbms native_ordinal
             reference_ordinal column
       ∧ server_default migrated = None
       ∧ (∀ d, col_default column = Some d →
               PyStr.mem (PyStr.lower d) ["sysdate"; "systime"] = false →
               col_default migrated = Some d)
       ∧ (col_default column = None → col_default migrated = None))
    (tbl_columns source_table)
    (setup_target_table L errors source_rdbms target_rdbms native_ordinal
       reference_ordinal source_table).1.
Proof.
  unfold setup_target_table. rewrite setup_columns_columns.
  apply Forall2_fmap_r, Forall_Forall2_diag, Forall_true.
  intros column. cbn. repeat split; auto.
Qed.

End Metadata.

(** On a target that has the schema [hr]: [persons] is dropped before
    [jobs], the reverse of the order in which they are created. *)
Lemma existing_tables_dropped_in_reverse_witness :
  ∃ c from_schema tables,
    select_candidates (Scenario.M.lib 3) (Scenario.M.world Scenario.M.hr)
      [] [] "oracle" "postgres" "hr" "hr" [] = inl c
    ∧ cd_to_schema c = Some "hr"
    ∧ map tbl_name (cd_source_tables c) = ["jobs"; "persons"]
    ∧ (migrate_metadata (Scenario.M.lib 3) (Scenario.M.world Scenario.M.hr)
         [] [] "oracle" "postgres" "hr" "hr" []).2
      = [CreateEngine "oracle://db"; CreateEngine "postgres://db";
         GetSchemaNames "oracle://db"; Reflect "oracle://db" from_schema;
         GetSchemaNames "postgres://db";
         Execute "postgres://db" "DROP TABLE IF EXISTS hr.persons";
         Execute "postgres://db" "DROP TABLE IF EXISTS hr.jobs";
         CreateAll "postgres://db" tables].
Proof.
  destruct (select_candidates (Scenario.M.lib 3)
              (Scenario.M.world Scenario.M.hr) [] [] "oracle" "postgres"
              "hr" "hr" []) as [c|] eqn:Hc; [|by vm_compute in Hc].
  assert (cd_to_schema c = Some "hr" ∧ cd_source_tables c
          = [Scenario.jobs; Scenario.persons]) as [Hto Htables]
    by (vm_compute in Hc; by simplify_eq).
  destruct (existing_tables_dropped_in_reverse _ _ _ _ _ _ _ _ _ c "hr"
              Hc Hto) as (from_schema & metadata & tables & _ & _ & Htr);
    [done|].
  exists c, from_schema, tables. split; [done|]. split; [done|].
  split; [by rewrite Htables|].
  rewrite Htr, Htables. reflexivity.
Defined.

(** C5 (as stated, refuted): on a target without the schema that refuses
    the [CREATE SCHEMA], the statement is executed and the catalog of the
    target is not read again: it was read once, before the statement. *)
Lemma create_schema_refused_not_reprobed :
  let tr :=
    (migrate_metadata (Scenario.M.lib 3)
       (Scenario.M.world (Scenario.M.hr_absent ["public"; "hr"] true))
       [] [] "oracle" "postgres" "hr" "hr" []).2 in
  tr = [CreateEngine "oracle://db"; CreateEngine "postgres://db";
        GetSchemaNames "oracle://db"; Reflect "oracle://db" "HR";
        GetSchemaNames "postgres://db";
        Execute "postgres://db" "CREATE SCHEMA hr AUTHORIZATION bob"]
  ∧ probes "postgres://db" tr = 1
  ∧ ¬ reprobed "postgres://db" "CREATE SCHEMA hr AUTHORIZATION bob" tr.
Proof.
  cbv zeta.
  assert ((migrate_metadata (Scenario.M.lib 3)
             (Scenario.M.world (Scenario.M.hr_absent ["public"; "hr"] true))
             [] [] "oracle" "postgres" "hr" "hr" []).2
          = [CreateEngine "oracle://db"; CreateEngine "postgres://db";
             GetSchemaNames "oracle://db"; Reflect "oracle://db" "HR";
             GetSchemaNames "postgres://db";
             Execute "postgres://db" "CREATE SCHEMA hr AUTHORIZATION bob"])
    as -> by (vm_compute; reflexivity).
  split; [done|]. split; [done|].
  intros (pre & post & Heq).
  do 6 (destruct pre as [|? pre]; [discriminate Heq|];
        injection Heq as _ Heq).
  destruct pre; discriminate Heq.
Qed.

(** On a target on which the [CREATE SCHEMA] goes through without effect:
    the catalog is read again, the schema is missed, the request ends on
    the error 104. *)
Lemma schema_created_then_checked_witness :
  ∃ c,
    select_candidates (Scenario.M.lib 3)
      (Scenario.M.world (Scenario.M.hr_absent ["public"] false))
      [] [] "oracle" "postgres" "hr" "hr" [] = inl c
    ∧ PyStr.truthy (cd_to_schema c) = false
    ∧ migrate_metadata (Scenario.M.lib 3)
        (Scenario.M.world (Scenario.M.hr_absent ["public"] false))
        [] [] "oracle" "postgres" "hr" "hr" []
      = ([],
         ["104: unable to create schema in RDBMS postgres; @to-schema"],
         [CreateEngine "oracle://db"; CreateEngine "postgres://db";
          GetSchemaNames "oracle://db"; Reflect "oracle://db" "HR";
          GetSchemaNames "postgres://db";
          Execute "postgres://db" "CREATE SCHEMA hr AUTHORIZATION bob";
          GetSchemaNames "postgres://db"]).
Proof.
  destruct (select_candidates (Scenario.M.lib 3)
              (Scenario.M.world (Scenario.M.hr_absent ["public"] false))
              [] [] "oracle" "postgres" "hr" "hr" []) as [c|] eqn:Hc;
    [|by vm_compute in Hc].
  assert (PyStr.truthy (cd_to_schema c) = false) as Habsent
    by (vm_compute in Hc; by simplify_eq).
  exists c. split; [done|]. split; [done|].
  destruct (schema_created_then_checked _ _ _ _ _ _ _ _ _ c Hc Habsent)
    as (_ & _ & Hchecked).
  vm_compute in Hc. simplify_eq.
  destruct Hchecked as [_ ->]; reflexivity.
Defined.

(** C7 (as stated, refuted): the column [since] of [persons] is declared
    with the default [now] and keeps it; its server default is removed. *)
Lemma default_now_not_replaced :
  map col_default
    (setup_target_table (Scenario.M.lib 3) [] "oracle" "postgres" 0 0
       Scenario.persons).1
  = [None; Some "now"; None]
  ∧ map server_default
      (setup_target_table (Scenario.M.lib 3) [] "oracle" "postgres" 0 0
         Scenario.persons).1
    = [None; None; None].
Proof. split; reflexivity. Qed.

(** On the column [since] of [persons]. *)
Lemma server_default_stripped_witness :
  ∃ migrated,
    (setup_target_table (Scenario.M.lib 3) [] "oracle" "postgres" 0 0
       Scenario.persons).1 !! 1 = Some migrated
    ∧ col_name migrated = "since"
    ∧ col_type migrated = "DATE"
    ∧ server_default migrated = None
    ∧ col_default migrated = Some "now".
Proof.
  pose proof (server_default_stripped (Scenario.M.lib 3) [] "oracle"
                "postgres" 0 0 Scenario.persons) as Hall.
  eapply (Forall2_lookup_l _ _ _ 1) in Hall
    as (migrated & Hmigrated & Hname & Htype & Hserver & Hdefault & _);
    [|reflexivity].
  exists migrated. split; [done|].
  repeat split; [done|done|done|].
  by apply Hdefault.
Defined.

(** *** Refused requests, registered tables, and the error list *)

Section More.

Variable L : Lib.
Variable W : World.

Lemma build_engine_errors tr errors rdbms :
  errors `prefix_of` (build_engine L W tr errors rdbms).1.2
  ∧ ((build_engine L W tr errors rdbms).1.1 = None →
     length errors < length (build_engine L W tr errors rdbms).1.2).
Proof.
  unfold build_engine.
  destruct (create_engine W tr _); [|done].
  destruct (get_connection_params L rdbms) as [params errs]. cbn.
  split; [by apply prefix_app_r|]. intros _. rewrite !length_app. cbn. lia.
Qed.

Lemma engine_exc_stmt_errors tr errors rdbms engine stmt :
  errors `prefix_of` (engine_exc_stmt L W tr errors rdbms engine stmt).1.
Proof.
  unfold engine_exc_stmt.
  destruct (execute W tr engine stmt); [by apply prefix_app_r|done].
Qed.

Lemma drop_loop_errors tr errors target_rdbms target_engine to_schema tables :
  errors `prefix_of`
    (drop_loop L W tr errors target_rdbms target_engine to_schema tables).1.
Proof.
  revert tr errors. induction tables as [|t tables IH]; intros tr errors;
    cbn; [done|].
  pose proof (engine_exc_stmt_errors tr errors target_rdbms target_engine
                (drop_stmt to_schema t)) as Hexc.
  destruct (engine_exc_stmt L W tr errors target_rdbms target_engine _)
    as [errors1 tr1]. etrans; [exact Hexc|apply IH].
Qed.

Lemma setup_columns_errors errors source_rdbms target_rdbms native_ordinal
    reference_ordinal columns :
  errors `prefix_of`
    (setup_columns L errors source_rdbms target_rdbms native_ordinal
       reference_ordinal columns).2.
Proof.
  revert errors. induction columns as [|column columns IH]; intros errors;
    [done|].
  cbn. destruct (wrap_up_column column _) as [column' outcome].
  match goal with
  | |- context [setup_columns L ?e _ _ _ _ columns] =>
      specialize (IH e); destruct (setup_columns L e _ _ _ _ columns)
  end.
  cbn in *. destruct outcome; [done|].
  etrans; [|exact IH]. by apply prefix_app_r.
Qed.

Lemma setup_tables_errors errors source_rdbms target_rdbms native_ordinal
    reference_ordinal to_schema source_tables :
  errors `prefix_of`
    (setup_tables L errors source_rdbms target_rdbms native_ordinal
       reference_ordinal to_schema source_tables).2.
Proof.
  revert errors. induction source_tables as [|t ts IH]; intros errors; [done|].
  cbn. unfold setup_table at 1. unfold setup_target_table.
  pose proof (setup_columns_errors errors source_rdbms target_rdbms
                native_ordinal reference_ordinal (tbl_columns t)) as Hcols.
  destruct (setup_columns _ _ _ _ _ _ _) as [columns errors1].
  specialize (IH errors1).
  destruct (setup_tables _ _ _ _ _ _ _ _) as [[result tables] errors2].
  cbn in *. by etrans.
Qed.

Lemma materialize_errors tr errors source_rdbms target_rdbms target_schema
    target_engine source_tables to_schema :
  errors `prefix_of`
    (materialize L W tr errors source_rdbms target_rdbms target_schema
       target_engine source_tables to_schema).1.2.
Proof.
  unfold materialize.
  assert (∀ st : option string * list string * list Call,
            errors `prefix_of` st.1.2 →
            errors `prefix_of`
              (let '(to_schema, errors, tr) := st in
               if PyStr.truthy to_schema then
                 let '(native_ordinal, reference_ordinal) :=
                   establish_equivalences L source_rdbms target_rdbms in
                 let '(result, tables, errors) :=
                   setup_tables L errors source_rdbms target_rdbms
                     native_ordinal reference_ordinal
                     (default EmptyString to_schema) source_tables in
                 let '(errors, tr) :=
                   create_tables L W tr errors target_engine tables in
                 (result, errors, tr)
               else
                 ([],
                  errors ++ [validate_format_error L 104
                               ["unable to create schema in RDBMS "
                                +:+ target_rdbms; "@to-schema"]],
                  tr)).1.2) as Hrest.
  { intros [[to_schema' errors1] tr1] Hpre. cbn in Hpre.
    destruct (PyStr.truthy to_schema'); [|by apply prefix_app_r].
    destruct (establish_equivalences L source_rdbms target_rdbms)
      as [native_ordinal reference_ordinal].
    pose proof (setup_tables_errors errors1 source_rdbms target_rdbms
                  native_ordinal reference_ordinal
                  (default EmptyString to_schema') source_tables) as Hsetup.
    destruct (setup_tables _ _ _ _ _ _ _ _) as [[result tables] errors2].
    unfold create_tables. cbn in Hsetup.
    destruct (create_all W tr1 target_engine tables); cbn;
      [apply prefix_app_r|]; by etrans. }
  apply Hrest.
  destruct (PyStr.truthy to_schema).
  - unfold drop_existing_tables.
    pose proof (drop_loop_errors tr errors target_rdbms target_engine
                  (default EmptyString to_schema) (reverse source_tables))
      as Hdrop.
    by destruct (drop_loop _ _ _ _ _ _ _ _).
  - unfold create_target_schema.
    destruct (get_connection_params L target_rdbms) as [conn_params errs].
    pose proof (engine_exc_stmt_errors tr (errors ++ errs) target_rdbms
                  target_engine (create_schema_stmt target_schema conn_params))
      as Hexc.
    destruct (engine_exc_stmt _ _ _ _ _ _ _) as [errors1 tr1].
    cbn in Hexc.
    assert (errors `prefix_of` errors1) by (etrans; [by apply prefix_app_r|done]).
    case_bool_decide; [|done].
    by destruct (probe_schema W tr1 target_engine target_schema).
Qed.

(** The outcome of a refused request. *)
Lemma select_candidates_inr tr errors source_rdbms target_rdbms
    source_schema target_schema data_tables out :
  select_candidates L W tr errors source_rdbms target_rdbms source_schema
    target_schema data_tables = inr out →
  out.1.1 = []
  ∧ errors `prefix_of` out.1.2
  ∧ length errors < length out.1.2
  ∧ ∃ new, out.2 = tr ++ new ∧ Forall read_call new.
Proof.
  unfold select_candidates.
  pose proof (build_engine_errors tr errors source_rdbms) as [Hpre1 Hlen1].
  pose proof (build_engine_trace L W tr errors source_rdbms) as Htr1.
  destruct (build_engine L W tr errors source_rdbms) as [[se errors1] tr1].
  pose proof (build_engine_errors tr1 errors1 target_rdbms) as [Hpre2 Hlen2].
  pose proof (build_engine_trace L W tr1 errors1 target_rdbms) as Htr2.
  destruct (build_engine L W tr1 errors1 target_rdbms) as [[te errors2] tr2].
  cbn in *. subst tr1 tr2.
  apply prefix_length in Hpre1 as Hle1. apply prefix_length in Hpre2 as Hle2.
  assert (errors `prefix_of` errors2) as Hpre by by etrans.
  assert (Forall read_call
            [CreateEngine (get_connection_string L source_rdbms);
             CreateEngine (get_connection_string L target_rdbms)]) as Hreads
    by by repeat constructor.
  destruct se as [se|], te as [te|];
    try (intros [= <-]; cbn; repeat split; auto;
         [ try (specialize (Hlen1 eq_refl)); try (specialize (Hlen2 eq_refl));
           lia
         | eexists; split; [by rewrite <- (assoc_L (++))|done] ]).
  unfold probe_schema.
  destruct (PyStr.truthy _).
  - case_bool_decide; [done|].
    intros [= <-]; cbn. split; [done|].
    split; [etrans; [exact Hpre|by apply prefix_app_r]|].
    split; [rewrite length_app; cbn; lia|].
    eexists. split; [by rewrite <- !(assoc_L (++))|]. by repeat constructor.
  - intros [= <-]; cbn. split; [done|].
    split; [etrans; [exact Hpre|by apply prefix_app_r]|].
    split; [rewrite length_app; cbn; lia|].
    eexists. split; [by rewrite <- !(assoc_L (++))|]. by repeat constructor.
Qed.

(** X8: A refused request: when [migrate_metadata] stops before it looks for
    the target schema (an engine could not be created, the source schema
    was not found, or a table of [data_tables] is not reflected), it
    registers no table, it has recorded at least one more error, and all
    it did was to create engines and read the source. *)
Theorem refused_request_only_reads tr errors source_rdbms target_rdbms
    source_schema target_schema data_tables out :
  select_candidates L W tr errors source_rdbms target_rdbms source_schema
    target_schema data_tables = inr out →
  migrate_metadata L W tr errors source_rdbms target_rdbms source_schema
    target_schema data_tables = out
  ∧ out.1.1 = []
  ∧ errors `prefix_of` out.1.2
  ∧ length errors < length out.1.2
  ∧ ∃ new, out.2 = tr ++ new ∧ Forall read_call new.
Proof.
  intros Hrefused. split.
  - unfold migrate_metadata. by rewrite Hrefused.
  - by eapply select_candidates_inr.
Qed.

(** The errors of the caller are kept: [migrate_metadata] only appends to
    the list it is given. *)
Lemma migrate_metadata_errors tr errors source_rdbms target_rdbms
    source_schema target_schema data_tables :
  errors `prefix_of`
    (migrate_metadata L W tr errors source_rdbms target_rdbms source_schema
       target_schema data_tables).1.2.
Proof.
  destruct (select_candidates L W tr errors source_rdbms target_rdbms
              source_schema target_schema data_tables) as [c|out] eqn:Hc.
  - unfold migrate_metadata. rewrite Hc.
    apply select_candidates_inl in Hc as (_ & _ & _ & _ & <- & _).
    apply materialize_errors.
  - unfold migrate_metadata. rewrite Hc.
    by apply select_candidates_inr in Hc as (_ & Hpre & _).
Qed.

(** X9: No error is lost: the list [migrate] returns starts with the list it
    was given. *)
Theorem migrate_keeps_errors fuel errors source_rdbms target_rdbms
    source_schema target_schema data_tables out :
  migrate L W fuel errors source_rdbms target_rdbms source_schema
    target_schema data_tables = Some out →
  errors `prefix_of` out.1.2.
Proof.
  unfold migrate.
  pose proof (migrate_metadata_errors [] errors source_rdbms target_rdbms
                source_schema target_schema data_tables) as Hmd.
  destruct (migrate_metadata _ _ _ _ _ _ _ _ _) as [[mts errors1] tr1].
  destruct (plain_data_phase _ _ _ _ _ _ _ _ _)
    as [[[mts2 op_errors] tr2]|]; [|done].
  intros [= <-]. cbn in *. etrans; [exact Hmd|by apply prefix_app_r].
Qed.

End More.

(** A request for a table the source does not have. *)
Lemma refused_request_only_reads_witness :
  ∃ out,
    select_candidates (Scenario.M.lib 3) (Scenario.M.world Scenario.M.hr) []
      ["earlier"] "oracle" "postgres" "hr" "hr" ["missing"] = inr out
    ∧ migrate_metadata (Scenario.M.lib 3) (Scenario.M.world Scenario.M.hr) []
        ["earlier"] "oracle" "postgres" "hr" "hr" ["missing"] = out
    ∧ out.1.1 = []
    ∧ ["earlier"] `prefix_of` out.1.2
    ∧ length ["earlier"] < length out.1.2
    ∧ ∃ new, out.2 = [] ++ new ∧ Forall read_call new.
Proof.
  destruct (select_candidates (Scenario.M.lib 3)
              (Scenario.M.world Scenario.M.hr) [] ["earlier"] "oracle"
              "postgres" "hr" "hr" ["missing"]) as [c|out] eqn:Hrefused;
    [by vm_compute in Hrefused|].
  exists out. split; [reflexivity|].
  exact (refused_request_only_reads (Scenario.M.lib 3)
           (Scenario.M.world Scenario.M.hr) [] ["earlier"] "oracle"
           "postgres" "hr" "hr" ["missing"] out Hrefused).
Defined.

(** A migration of [Scenario.M.hr] started with an error on the list. *)
Lemma migrate_keeps_errors_witness :
  ∃ out,
    migrate (Scenario.M.lib 3) (Scenario.M.world Scenario.M.hr) 10
      ["earlier"] "oracle" "postgres" "hr" "hr" [] = Some out
    ∧ ["earlier"] `prefix_of` out.1.2.
Proof.
  destruct (migrate (Scenario.M.lib 3) (Scenario.M.world Scenario.M.hr) 10
              ["earlier"] "oracle" "postgres" "hr" "hr" []) as [out|] eqn:Hrun;
    [|by vm_compute in Hrun].
  exists out. split; [reflexivity|].
  exact (migrate_keeps_errors (Scenario.M.lib 3)
           (Scenario.M.world Scenario.M.hr) 10 ["earlier"] "oracle"
           "postgres" "hr" "hr" [] out Hrun).
Defined.

(** *** The registered tables and the tables copied *)

Section Tables.

Variable L : Lib.
Variable W : World.

Lemma register_type_at pre d rest column :
  Forall (λ d' : gmap string string, d' !! "name" ≠ Some (col_name column))
    pre →
  d !! "name" = Some (col_name column) →
  register_type (pre ++ d :: rest) column
  = pre ++ <["target-type" := col_type column]> d :: rest.
Proof.
  intros Hpre Hd. induction Hpre as [|d' pre Hd' Hpre IH]; cbn.
  - by rewrite bool_decide_eq_true_2.
  - rewrite bool_decide_eq_false_2 by done. by rewrite IH.
Qed.

Lemma register_types_all (f : Column → string) pre rest :
  NoDup (map col_name (pre ++ rest)) →
  foldl register_type
    (map (λ c, <["target-type" := f c]> (column_data c)) pre
     ++ map column_data rest)
    (map (λ c, {| col_name := col_name c; col_type := f c;
                  server_default := None; col_default := col_default c |})
       rest)
  = map (λ c, <["target-type" := f c]> (column_data c)) (pre ++ rest).
Proof.
  revert pre. induction rest as [|c rest IH]; intros pre Hnodup; cbn.
  - by rewrite !app_nil_r.
  - rewrite register_type_at; cbn.
    + rewrite (cons_middle c pre rest), (assoc_L (++)) in Hnodup.
      specialize (IH (pre ++ [c]) Hnodup).
      rewrite map_app in IH. cbn in IH. rewrite <- (assoc_L (++)) in IH.
      cbn in IH. rewrite IH. by rewrite <- (assoc_L (++)).
    + rewrite map_app in Hnodup. apply NoDup_app in Hnodup as (_ & Hnot & _).
      apply Forall_map, Forall_forall. intros c' Hc'. cbn.
      rewrite lookup_insert_ne by done. unfold column_data.
      rewrite lookup_insert_ne by done. rewrite lookup_singleton.
      intros [= Heq]. apply (Hnot (col_name c')).
      * by apply list_elem_of_fmap_2.
      * cbn. rewrite Heq. left.
    + unfold column_data. rewrite lookup_insert_ne by done.
      by rewrite lookup_singleton.
Qed.

(** X10: What [migrate_metadata] registers for a table whose columns have
    distinct names: the name of the table, one dictionary per column, in
    order, with the name of the column, its source type and the type
    [migrate_type] gave it, the count 0 and the status [none]. *)
Theorem setup_table_registers_columns errors source_rdbms target_rdbms
    native_ordinal reference_ordinal to_schema source_table :
  NoDup (map col_name (tbl_columns source_table)) →
  (setup_table L errors source_rdbms target_rdbms native_ordinal
     reference_ordinal to_schema source_table).1.1
  = {| mt_table := tbl_name source_table;
       mt_columns :=
         map (λ column,
                <["target-type" := migrate_type L source_rdbms target_rdbms
                                     native_ordinal reference_ordinal column]>
                  (<["source-type" := col_type column]>
                     {["name" := col_name column]}))
           (tbl_columns source_table);
       mt_count := 0; mt_status := "none" |}.
Proof.
  intros Hnodup. unfold setup_table, setup_target_table.
  pose proof (setup_columns_columns L errors source_rdbms target_rdbms
                native_ordinal reference_ordinal (tbl_columns source_table))
    as Hcolumns.
  destruct (setup_columns _ _ _ _ _ _ _) as [columns errors1].
  cbn in Hcolumns. subst columns. cbn. f_equal.
  by rewrite (register_types_all _ [] (tbl_columns source_table)).
Qed.

(** *** Every table is attempted *)

Lemma migrate_table_errors fuel tr errors source_rdbms target_rdbms
    source_schema target_schema mt mt' errors' tr' :
  migrate_table L W fuel tr errors source_rdbms target_rdbms source_schema
    target_schema mt = Some (mt', errors', tr') →
  errors `prefix_of` errors'
  ∧ mt_table mt' = mt_table mt ∧ mt_columns mt' = mt_columns mt
  ∧ (mt_status mt' ≠ "full" → length errors < length errors').
Proof.
  unfold migrate_table.
  destruct (db_select_all W tr source_rdbms _) as [data errs].
  destruct (copy_loop _ _ _ _ _ _ _ _ _ _) as [st|]; [|done].
  destruct (lp_op_errors st) as [|e op_errors] eqn:Hop; cbn;
    intros ?; simplify_eq/=.
  - split; [by apply prefix_app_r|done].
  - split; [by do 2 apply prefix_app_r|]. repeat split.
    intros _. rewrite !length_app. cbn. lia.
Qed.

Lemma migrate_plain_data_errors fuel tr errors source_rdbms target_rdbms
    source_schema target_schema mts mts' errors' tr' :
  migrate_plain_data L W fuel tr errors source_rdbms target_rdbms
    source_schema target_schema mts = Some (mts', errors', tr') →
  errors `prefix_of` errors'.
Proof.
  revert tr errors mts' errors' tr'.
  induction mts as [|mt mts IH]; intros tr errors mts' errors' tr' Hrun;
    cbn in Hrun; [by simplify_eq|].
  destruct (migrate_table _ _ _ _ _ _ _ _ _ _) as [[[mt1 errors1] tr1]|]
    eqn:Htable; [|done].
  destruct (migrate_plain_data _ _ _ _ _ _ _ _ _ _)
    as [[[rest errors2] tr2]|] eqn:Hrest; [|done].
  simplify_eq. apply IH in Hrest.
  apply migrate_table_errors in Htable as (Hpre1 & _). by etrans.
Qed.

(** X11: A failure does not end the phase: whatever a table left on the error
    list, every table of the list is attempted, in order, starting with
    its SELECT at offset 0; the tables come back in the same order with
    their names and columns, and the errors given are kept. *)
Theorem every_table_attempted fuel tr errors source_rdbms target_rdbms
    source_schema target_schema mts mts' errors' tr' :
  migrate_plain_data L W fuel tr errors source_rdbms target_rdbms
    source_schema target_schema mts = Some (mts', errors', tr') →
  Forall2 (λ mt mt', mt_table mt' = mt_table mt
                     ∧ mt_columns mt' = mt_columns mt) mts mts'
  ∧ errors `prefix_of` errors'
  ∧ ∃ new,
      tr' = tr ++ new
      ∧ map (first_select L source_rdbms source_schema) mts `sublist_of` new.
Proof.
  revert tr errors mts' errors' tr'.
  induction mts as [|mt mts IH]; intros tr errors mts' errors' tr' Hrun;
    cbn in Hrun.
  - simplify_eq. split; [constructor|]. split; [done|]. exists [].
    by rewrite app_nil_r.
  - destruct (migrate_table _ _ _ _ _ _ _ _ _ _) as [[[mt1 errors1] tr1]|]
      eqn:Htable; [|done].
    destruct (migrate_plain_data _ _ _ _ _ _ _ _ _ _)
      as [[[rest errors2] tr2]|] eqn:Hrest; [|done].
    simplify_eq.
    pose proof (migrate_plain_data_errors _ _ _ _ _ _ _ _ _ _ _ Hrest)
      as Hpre2.
    apply IH in Hrest as (Hrest & _ & new2 & -> & Hsub).
    pose proof (migrate_table_errors _ _ _ _ _ _ _ _ _ _ _ Htable)
      as (Hpre1 & Hname & Hcols & _).
    apply migrate_table_paging in Htable
      as (committed & failed & -> & _ & _ & _).
    split; [by constructor|]. split; [by etrans|].
    eexists. split; [by rewrite <- !(assoc_L (++))|].
    cbn. apply sublist_skip. rewrite <- (assoc_L (++)).
    do 2 apply sublist_inserts_l. done.
Qed.

(** X12: The status of every table is one of [full], [partial] and [none];
    [none] goes with the count 0 and [partial] with a count above 0; and a
    table that is not [full] has left an error on the list. *)
Theorem status_tells_errors fuel tr errors source_rdbms target_rdbms
    source_schema target_schema mts mts' errors' tr' :
  migrate_plain_data L W fuel tr errors source_rdbms target_rdbms
    source_schema target_schema mts = Some (mts', errors', tr') →
  Forall (λ mt', mt_status mt' = "full"
                 ∨ mt_status mt' = "partial" ∧ 0 < mt_count mt'
                 ∨ mt_status mt' = "none" ∧ mt_count mt' = 0) mts'
  ∧ (Exists (λ mt', mt_status mt' ≠ "full") mts' →
     length errors < length errors').
Proof.
  revert tr errors mts' errors' tr'.
  induction mts as [|mt mts IH]; intros tr errors mts' errors' tr' Hrun;
    cbn in Hrun.
  - simplify_eq. split; [constructor|]. by intros ?%Exists_nil.
  - destruct (migrate_table _ _ _ _ _ _ _ _ _ _) as [[[mt1 errors1] tr1]|]
      eqn:Htable; [|done].
    destruct (migrate_plain_data _ _ _ _ _ _ _ _ _ _)
      as [[[rest errors2] tr2]|] eqn:Hrest; [|done].
    simplify_eq.
    pose proof (migrate_plain_data_errors _ _ _ _ _ _ _ _ _ _ _ Hrest)
      as Hpre2.
    apply IH in Hrest as [Hrest Hgrew].
    pose proof (migrate_table_errors _ _ _ _ _ _ _ _ _ _ _ Htable)
      as (Hpre1 & _ & _ & Hgrew1).
    apply migrate_table_status in Htable.
    split; [by constructor|].
    apply prefix_length in Hpre1, Hpre2.
    intros [Hnot|Hnot]%Exists_cons.
    + specialize (Hgrew1 Hnot). lia.
    + specialize (Hgrew Hnot). lia.
Qed.

(** *** A phase with nothing to copy *)

(** Without a connection, with an error from connecting, or without a
    table, the phase returns whatever the fuel, hands the tables back and
    makes no call of the batch loop. *)
Lemma plain_data_phase_idle fuel tr source_rdbms target_rdbms source_schema
    target_schema mts :
  (db_connect W tr target_rdbms).1 = false
  ∨ (db_connect W tr target_rdbms).2 ≠ []
  ∨ mts = [] →
  ∃ op_errors new,
    plain_data_phase L W fuel tr source_rdbms target_rdbms source_schema
      target_schema mts
    = Some (mts, op_errors, tr ++ DbConnect target_rdbms :: new)
    ∧ Forall (λ c, ¬ data_call c) new.
Proof.
  intros Hidle. unfold plain_data_phase, disable_session_restrictions,
    restore_session_restrictions.
  destruct (db_connect W tr target_rdbms) as [[] errs]; cbn in *.
  - assert (∀ op_errors tr1,
              (if negb (nonempty (errs ++ op_errors))
               then migrate_plain_data L W fuel tr1 (errs ++ op_errors)
                      source_rdbms target_rdbms source_schema target_schema
                      mts
               else Some (mts, errs ++ op_errors, tr1))
              = Some (mts, errs ++ op_errors, tr1)) as Hskip.
    { intros op_errors tr1. destruct Hidle as [?|[Herrs| ->]]; [done| |].
      - by destruct errs.
      - by destruct (negb _). }
    destruct (dialect_of target_rdbms) as [d|].
    + rewrite Hskip. eexists _, _. split.
      * by rewrite <- !(assoc_L (++)).
      * repeat constructor; by intros [].
    + specialize (Hskip []). rewrite app_nil_r in Hskip. rewrite Hskip.
      eexists _, _. split.
      * by rewrite <- !(assoc_L (++)).
      * repeat constructor; by intros [].
  - eexists _, []. split; [done|constructor].
Qed.

(** X13: Without a connection to the target, or with an error from connecting,
    [migrate] returns whatever the fuel: the tables are as
    [migrate_metadata] registered them, the errors of the metadata are
    kept, and after the connection attempt no SELECT and no INSERT is
    made. *)
Theorem no_connection_no_copy fuel errors source_rdbms target_rdbms
    source_schema target_schema data_tables mts errors1 tr1 :
  migrate_metadata L W [] errors source_rdbms target_rdbms source_schema
    target_schema data_tables = (mts, errors1, tr1) →
  (db_connect W tr1 target_rdbms).1 = false
  ∨ (db_connect W tr1 target_rdbms).2 ≠ [] →
  ∃ op_errors new,
    migrate L W fuel errors source_rdbms target_rdbms source_schema
      target_schema data_tables
    = Some ({| source_rdbms_schema := (source_rdbms, source_schema);
               target_rdbms_schema := (target_rdbms, target_schema);
               migrated_tables := mts |},
            errors1 ++ op_errors,
            tr1 ++ DbConnect target_rdbms :: new)
    ∧ Forall (λ c, ¬ data_call c) new.
Proof.
  intros Hmd Hidle. unfold migrate. rewrite Hmd.
  destruct (plain_data_phase_idle fuel tr1 source_rdbms target_rdbms
              source_schema target_schema mts)
    as (op_errors & new & -> & Hnew); [tauto|].
  by exists op_errors, new.
Qed.

(** X14: A refused request still goes through the data phase: [migrate]
    returns whatever the fuel, with no table; it connects to the target
    all the same, and makes no SELECT and no INSERT. *)
Theorem refused_migration_connects fuel errors source_rdbms target_rdbms
    source_schema target_schema data_tables out :
  select_candidates L W [] errors source_rdbms target_rdbms source_schema
    target_schema data_tables = inr out →
  ∃ op_errors new,
    migrate L W fuel errors source_rdbms target_rdbms source_schema
      target_schema data_tables
    = Some ({| source_rdbms_schema := (source_rdbms, source_schema);
               target_rdbms_schema := (target_rdbms, target_schema);
               migrated_tables := [] |},
            out.1.2 ++ op_errors,
            out.2 ++ DbConnect target_rdbms :: new)
    ∧ Forall (λ c, ¬ data_call c) new.
Proof.
  intros Hrefused. unfold migrate, migrate_metadata. rewrite Hrefused.
  apply select_candidates_inr in Hrefused as (Hnone & _).
  destruct out as [[mts errors1] tr1]. cbn in *. subst mts.
  destruct (plain_data_phase_idle fuel tr1 source_rdbms target_rdbms
              source_schema target_schema [])
    as (op_errors & new & -> & Hnew); [tauto|].
  by exists op_errors, new.
Qed.

(** *** The candidates *)

Lemma elem_of_List_filter {A} (f : A → bool) x l :
  x ∈ List.filter f l ↔ f x = true ∧ x ∈ l.
Proof. rewrite !list_elem_of_In, filter_In. tauto. Qed.

Lemma elem_of_metadata_remove t metadata spare :
  t ∈ foldl metadata_remove metadata spare
  ↔ t ∈ metadata ∧ ∀ s, s ∈ spare → table_key t ≠ table_key s.
Proof.
  revert metadata. induction spare as [|s spare IH]; intros metadata; cbn.
  - split; [intros ?; split; [done|by intros ? ?%elem_of_nil]|by intros []].
  - rewrite IH. unfold metadata_remove.
    rewrite elem_of_List_filter, negb_true_iff, bool_decide_eq_false.
    split.
    + intros [[Hne Hin] Hspare]. split; [done|].
      intros s' [->|Hs']%elem_of_cons; auto.
    + intros [Hin Hspare]. split; [split; [|done]|].
      * apply Hspare. left.
      * intros s' Hs'. apply Hspare. by right.
Qed.

(** X15: With a list of tables in the request, and a dependency sort that only
    reorders, the candidates that reach the target are the requested
    tables: each requested name is the name of a candidate, and no other
    table is one. *)
Theorem candidates_are_the_requested_tables tr errors source_rdbms
    target_rdbms source_schema target_schema data_tables c :
  (∀ metadata, sorted_tables L metadata ≡ₚ metadata) →
  data_tables ≠ [] →
  select_candidates L W tr errors source_rdbms target_rdbms source_schema
    target_schema data_tables = inl c →
  ∀ name, name ∈ map tbl_name (cd_source_tables c) ↔ name ∈ data_tables.
Proof.
  intros Hsorted Hlisted. unfold select_candidates.
  destruct (build_engine L W tr errors source_rdbms) as [[se errors1] tr1].
  destruct (build_engine L W tr1 errors1 target_rdbms) as [[te errors2] tr2].
  destruct se as [se|], te as [te|]; try done.
  unfold probe_schema. destruct (PyStr.truthy _); [|done].
  match goal with
  | |- context [unlisted_tables L ?m data_tables] => generalize m
  end.
  intros metadata. case_bool_decide as Hunlisted; [|done].
  intros [= <-] name. cbn.
  apply nil_length_inv in Hunlisted.
  unfold unlisted_tables, purge_spare_tables in *.
  destruct data_tables as [|table data_tables]; [done|]. cbn [nonempty] in *.
  set (requested := table :: data_tables) in *.
  rewrite !list_elem_of_fmap. split.
  - intros (t & -> & Ht). rewrite Hsorted in Ht.
    apply elem_of_metadata_remove in Ht as [Ht Hspare].
    destruct (decide (tbl_name t ∈ requested)) as [|Hnot]; [done|].
    destruct (Hspare t); [|done].
    apply elem_of_List_filter. split.
    + by apply negb_true_iff, PyStrFacts.mem_false.
    + by rewrite Hsorted.
  - intros Hname.
    assert (name ∈ map tbl_name (sorted_tables L metadata)) as Hfound.
    { destruct (decide (name ∈ map tbl_name (sorted_tables L metadata)))
        as [|Hnot]; [done|].
      assert (name ∈ List.filter
                       (λ spare_table,
                          negb (PyStr.mem spare_table
                                  (map tbl_name (sorted_tables L metadata))))
                       requested) as Hin.
      { apply elem_of_List_filter. split; [|done].
        by apply negb_true_iff, PyStrFacts.mem_false. }
      rewrite Hunlisted in Hin. by apply elem_of_nil in Hin. }
    apply list_elem_of_fmap in Hfound as (t & -> & Ht).
    exists t. split; [done|]. rewrite Hsorted.
    apply elem_of_metadata_remove. split; [by rewrite <- Hsorted|].
    intros s [Hs _]%elem_of_List_filter [= _ Heq].
    apply negb_true_iff, PyStrFacts.mem_false in Hs.
    by rewrite <- Heq in Hs.
Qed.

End Tables.

(** The table [persons] of [Scenario.M.hr]. *)
Lemma setup_table_registers_columns_witness :
  NoDup (map col_name (tbl_columns Scenario.persons))
  ∧ (setup_table (Scenario.M.lib 3) [] "oracle" "postgres" 0 0 "hr"
       Scenario.persons).1.1
    = {| mt_table := "persons";
         mt_columns :=
           [ <["target-type" := "INTEGER"]>
               (<["source-type" := "INTEGER"]> {["name" := "id"]});
             <["target-type" := "DATE"]>
               (<["source-type" := "DATE"]> {["name" := "since"]});
             <["target-type" := "BYTEA"]>
               (<["source-type" := "BLOB"]> {["name" := "photo"]}) ];
         mt_count := 0; mt_status := "none" |}.
Proof.
  assert (NoDup (map col_name (tbl_columns Scenario.persons))) as Hnodup
    by (apply (bool_decide_unpack _); vm_compute; exact I).
  split; [exact Hnodup|].
  exact (setup_table_registers_columns (Scenario.M.lib 3) [] "oracle"
           "postgres" 0 0 "hr" Scenario.persons Hnodup).
Defined.

(** Two tables of [Scenario.M.hr] whose third INSERT fails. *)
Lemma every_table_attempted_witness :
  ∃ mts' errors' tr',
    migrate_plain_data (Scenario.M.lib 3)
      (Scenario.M.world (Scenario.M.hr_with None (Some 2))) 10 [] []
      "oracle" "postgres" "hr" "hr"
      [Scenario.M.migrated Scenario.jobs; Scenario.M.migrated Scenario.persons]
    = Some (mts', errors', tr')
    ∧ Forall2 (λ mt mt', mt_table mt' = mt_table mt
                         ∧ mt_columns mt' = mt_columns mt)
        [Scenario.M.migrated Scenario.jobs;
         Scenario.M.migrated Scenario.persons] mts'
    ∧ [] `prefix_of` errors'
    ∧ ∃ new,
        tr' = [] ++ new
        ∧ map (first_select (Scenario.M.lib 3) "oracle" "hr")
            [Scenario.M.migrated Scenario.jobs;
             Scenario.M.migrated Scenario.persons] `sublist_of` new.
Proof.
  destruct (migrate_plain_data (Scenario.M.lib 3)
              (Scenario.M.world (Scenario.M.hr_with None (Some 2))) 10 [] []
              "oracle" "postgres" "hr" "hr"
              [Scenario.M.migrated Scenario.jobs;
               Scenario.M.migrated Scenario.persons])
    as [[[mts' errors'] tr']|] eqn:Hrun; [|by vm_compute in Hrun].
  exists mts', errors', tr'. split; [reflexivity|].
  exact (every_table_attempted (Scenario.M.lib 3) _ _ _ _ _ _ _ _ _ _ _ _
           Hrun).
Defined.

(** The same run: the third INSERT is the last of [jobs], which comes
    back [partial]. *)
Lemma status_tells_errors_witness :
  ∃ mts' errors' tr',
    migrate_plain_data (Scenario.M.lib 3)
      (Scenario.M.world (Scenario.M.hr_with None (Some 2))) 10 [] []
      "oracle" "postgres" "hr" "hr"
      [Scenario.M.migrated Scenario.jobs; Scenario.M.migrated Scenario.persons]
    = Some (mts', errors', tr')
    ∧ map mt_status mts' = ["partial"; "full"]
    ∧ Forall (λ mt', mt_status mt' = "full"
                     ∨ mt_status mt' = "partial" ∧ 0 < mt_count mt'
                     ∨ mt_status mt' = "none" ∧ mt_count mt' = 0) mts'
    ∧ (Exists (λ mt', mt_status mt' ≠ "full") mts' →
       length (@nil string) < length errors').
Proof.
  destruct (migrate_plain_data (Scenario.M.lib 3)
              (Scenario.M.world (Scenario.M.hr_with None (Some 2))) 10 [] []
              "oracle" "postgres" "hr" "hr"
              [Scenario.M.migrated Scenario.jobs;
               Scenario.M.migrated Scenario.persons])
    as [[[mts' errors'] tr']|] eqn:Hrun; [|by vm_compute in Hrun].
  exists mts', errors', tr'. split; [reflexivity|].
  split; [by vm_compute in Hrun; simplify_eq|].
  exact (status_tells_errors (Scenario.M.lib 3) _ _ _ _ _ _ _ _ _ _ _ _
           Hrun).
Defined.

(** [Scenario.M.hr] with a target that refuses the connection. *)
Lemma no_connection_no_copy_witness :
  ∃ mts errors1 tr1 op_errors new,
    migrate_metadata (Scenario.M.lib 3) (Scenario.M.offline Scenario.M.hr)
      [] [] "oracle" "postgres" "hr" "hr" [] = (mts, errors1, tr1)
    ∧ map mt_table mts = ["jobs"; "persons"]
    ∧ migrate (Scenario.M.lib 3) (Scenario.M.offline Scenario.M.hr) 0 []
        "oracle" "postgres" "hr" "hr" []
      = Some ({| source_rdbms_schema := ("oracle", "hr");
                 target_rdbms_schema := ("postgres", "hr");
                 migrated_tables := mts |},
              errors1 ++ op_errors, tr1 ++ DbConnect "postgres" :: new)
    ∧ Forall (λ c, ¬ data_call c) new.
Proof.
  destruct (migrate_metadata (Scenario.M.lib 3)
              (Scenario.M.offline Scenario.M.hr) [] [] "oracle" "postgres"
              "hr" "hr" []) as [[mts errors1] tr1] eqn:Hmd.
  destruct (no_connection_no_copy (Scenario.M.lib 3)
              (Scenario.M.offline Scenario.M.hr) 0 [] "oracle" "postgres"
              "hr" "hr" [] mts errors1 tr1 Hmd)
    as (op_errors & new & Hrun & Hnew); [by left|].
  exists mts, errors1, tr1, op_errors, new.
  split; [reflexivity|]. split; [by vm_compute in Hmd; simplify_eq|].
  split; [exact Hrun|exact Hnew].
Defined.

(** A request for a table [Scenario.M.hr] does not have. *)
Lemma refused_migration_connects_witness :
  ∃ out op_errors new,
    select_candidates (Scenario.M.lib 3) (Scenario.M.world Scenario.M.hr) []
      [] "oracle" "postgres" "hr" "hr" ["missing"] = inr out
    ∧ migrate (Scenario.M.lib 3) (Scenario.M.world Scenario.M.hr) 0 []
        "oracle" "postgres" "hr" "hr" ["missing"]
      = Some ({| source_rdbms_schema := ("oracle", "hr");
                 target_rdbms_schema := ("postgres", "hr");
                 migrated_tables := [] |},
              out.1.2 ++ op_errors, out.2 ++ DbConnect "postgres" :: new)
    ∧ Forall (λ c, ¬ data_call c) new.
Proof.
  destruct (select_candidates (Scenario.M.lib 3)
              (Scenario.M.world Scenario.M.hr) [] [] "oracle" "postgres"
              "hr" "hr" ["missing"]) as [c|out] eqn:Hrefused;
    [by vm_compute in Hrefused|].
  destruct (refused_migration_connects (Scenario.M.lib 3)
              (Scenario.M.world Scenario.M.hr) 0 [] "oracle" "postgres"
              "hr" "hr" ["missing"] out Hrefused)
    as (op_errors & new & Hrun & Hnew).
  exists out, op_errors, new.
  split; [reflexivity|]. split; [exact Hrun|exact Hnew].
Defined.

(** A request for the table [jobs] of [Scenario.M.hr]. *)
Lemma candidates_are_the_requested_tables_witness :
  ∃ c,
    select_candidates (Scenario.M.lib 3) (Scenario.M.world Scenario.M.hr) []
      [] "oracle" "postgres" "hr" "hr" ["jobs"] = inl c
    ∧ ∀ name, name ∈ map tbl_name (cd_source_tables c) ↔ name ∈ ["jobs"].
Proof.
  destruct (select_candidates (Scenario.M.lib 3)
              (Scenario.M.world Scenario.M.hr) [] [] "oracle" "postgres"
              "hr" "hr" ["jobs"]) as [c|out] eqn:Hc;
    [|by vm_compute in Hc].
  exists c. split; [reflexivity|].
  apply (candidates_are_the_requested_tables (Scenario.M.lib 3)
           (Scenario.M.world Scenario.M.hr) [] [] "oracle" "postgres"
           "hr" "hr" ["jobs"] c); [by intros metadata|done|exact Hc].
Defined.

End MigratorFacts.

Module MetadataFacts.
Import Env Metadata StepTrace.

Lemma elem_of_remove_first x y l :
  y ∈ l → x ≠ y → y ∈ remove_first x l.
Proof.
  induction l as [|z l IH]; cbn; [done|].
  intros [->|Hin]%elem_of_cons Hne; case_bool_decide; subst;
    try done; try by left.
  right. by apply IH.
Qed.

Section Code.

Variable L : Lib.
Variable W : World.

Section Filter.

Variable include : bool.
Variable from_schema : string.
Variables plain_views mat_views : list string.
Variables process_views process_mviews : bool.

(** A listed name that is not the name of the table at hand stays
    listed. *)
Lemma filter_step_keeps name st source_table :
  name ∈ flt_include_tables st ++ flt_exclude_tables st →
  PyStr.lower (tbl_name source_table) ≠ name →
  name ∈ flt_include_tables
           (filter_step include from_schema plain_views mat_views
              process_views process_mviews st source_table)
         ++ flt_exclude_tables
              (filter_step include from_schema plain_views mat_views
                 process_views process_mviews st source_table).
Proof.
  intros Hin Hne. unfold filter_step.
  destruct (PyStr.mem _ (flt_include_tables st)); cbn.
  - apply elem_of_app in Hin as [Hin|Hin]; apply elem_of_app; [left|by right].
    by apply elem_of_remove_first.
  - destruct (PyStr.mem _ (flt_exclude_tables st)); cbn.
    + apply elem_of_app in Hin as [Hin|Hin]; apply elem_of_app;
        [by left|right].
      by apply elem_of_remove_first.
    + by destruct (_ && _).
Qed.

Lemma filter_loop_keeps name source_tables st :
  name ∈ flt_include_tables st ++ flt_exclude_tables st →
  (∀ t, t ∈ source_tables → PyStr.lower (tbl_name t) ≠ name) →
  let st' :=
    foldl (filter_step include from_schema plain_views mat_views
             process_views process_mviews) st source_tables in
  name ∈ flt_include_tables st' ++ flt_exclude_tables st'.
Proof.
  revert st. induction source_tables as [|t ts IH]; intros st Hin Hall;
    cbn; [done|].
  apply IH.
  - apply filter_step_keeps; [done|]. apply Hall. by left.
  - intros t' Ht'. apply Hall. by right.
Qed.

End Filter.

(** The calls made up to the reflection of the source. *)
Lemma reflect_source_trace tr errors source_rdbms target_rdbms
    source_schema r :
  reflect_source L W tr errors source_rdbms target_rdbms source_schema
  = inl r →
  rf_trace r
  = tr ++ [BuildEngine source_rdbms; BuildEngine target_rdbms;
           GetSchemaNames source_rdbms; GetViewNames source_rdbms;
           GetMaterializedViewNames source_rdbms;
           Reflect source_rdbms (rf_from_schema r)].
Proof.
  unfold reflect_source.
  destruct (build_engine W tr source_rdbms) as [se errs1].
  destruct (build_engine W _ target_rdbms) as [te errs2].
  destruct (se && te); [|done].
  destruct (PyStr.truthy _); [|done].
  destruct (reflect W _ source_rdbms _) as [source_tables warning].
  intros [= <-]. cbn. by rewrite <- !(assoc_L (++)).
Qed.

(** C6: when the source was reflected without an error and a name listed
    in [include_tables] or [exclude_tables] is not the (lower case) name of
    a reflected table, [migrate_metadata] returns no migration, its error
    list is the single error 142 on the comma-joined names left on the two
    lists, which hold every listed name that matches no reflected table,
    and the only calls made are the ones that built the engines and read
    the source: nothing is migrated. *)
Theorem unknown_tables_refused tr errors source_rdbms target_rdbms
    source_schema target_schema step_metadata process_indexes process_views
    process_mviews include_tables exclude_tables r name :
  reflect_source L W tr errors source_rdbms target_rdbms source_schema
  = inl r →
  rf_errors r = [] →
  name ∈ include_tables ++ exclude_tables →
  (∀ t, t ∈ rf_source_tables r → PyStr.lower (tbl_name t) ≠ name) →
  ∃ remaining,
    name ∈ remaining
    ∧ (∀ other, other ∈ include_tables ++ exclude_tables →
         (∀ t, t ∈ rf_source_tables r → PyStr.lower (tbl_name t) ≠ other) →
         other ∈ remaining)
    ∧ migrate_metadata L W tr errors source_rdbms target_rdbms source_schema
        target_schema step_metadata process_indexes process_views
        process_mviews include_tables exclude_tables
      = (None,
         [validate_format_error L 142
            [PyStr.join "," remaining;
             "not found in " +:+ source_rdbms +:+ "." +:+ source_schema]],
         tr ++ [BuildEngine source_rdbms; BuildEngine target_rdbms;
                GetSchemaNames source_rdbms; GetViewNames source_rdbms;
                GetMaterializedViewNames source_rdbms;
                Reflect source_rdbms (rf_from_schema r)]).
Proof.
  intros Hr Herrors Hlisted Hunknown.
  unfold migrate_metadata. rewrite Hr.
  apply reflect_source_trace in Hr as Htr.
  unfold migrate_reflected. rewrite Herrors, Htr. cbn [nonempty negb].
  set (st := filter_tables _ _ _ _ _ _ _ _).
  assert (∀ other, other ∈ include_tables ++ exclude_tables →
            (∀ t, t ∈ rf_source_tables r → PyStr.lower (tbl_name t) ≠ other) →
            other ∈ flt_include_tables st ++ flt_exclude_tables st) as Hkept.
  { intros other Hin Hall. subst st. unfold filter_tables.
    by apply filter_loop_keeps. }
  exists (flt_include_tables st ++ flt_exclude_tables st).
  split; [by apply Hkept|]. split; [done|].
  assert (nonempty (flt_include_tables st) || nonempty (flt_exclude_tables st)
          = true) as ->; [|done].
  specialize (Hkept name Hlisted Hunknown).
  destruct (flt_include_tables st), (flt_exclude_tables st); try done.
  by apply elem_of_nil in Hkept.
Qed.

End Code.

(** A request for [orders] and [customers], of which the source has only
    the first. *)
Lemma unknown_tables_refused_witness :
  ∃ r remaining,
    reflect_source Scenario.S.lib (Scenario.S.world Scenario.S.sales) [] []
      "postgres" "postgres" "sales" = inl r
    ∧ rf_errors r = []
    ∧ "customers" ∈ remaining
    ∧ migrate_metadata Scenario.S.lib (Scenario.S.world Scenario.S.sales)
        [] [] "postgres" "postgres" "sales" "public" true false true false
        ["orders"; "customers"] []
      = (None,
         [Scenario.format_error 142
            [PyStr.join "," remaining; "not found in postgres.sales"]],
         [BuildEngine "postgres"; BuildEngine "postgres";
          GetSchemaNames "postgres"; GetViewNames "postgres";
          GetMaterializedViewNames "postgres"; Reflect "postgres" "Sales"]).
Proof.
  destruct (reflect_source Scenario.S.lib (Scenario.S.world Scenario.S.sales)
              [] [] "postgres" "postgres" "sales") as [r|] eqn:Hr;
    [|by vm_compute in Hr].
  assert (rf_errors r = [] ∧ rf_from_schema r = "Sales"
          ∧ rf_source_tables r = [Scenario.S.orders; Scenario.S.v_active])
    as (Herrors & Hfrom & Htables) by (vm_compute in Hr; by simplify_eq).
  destruct (unknown_tables_refused Scenario.S.lib
              (Scenario.S.world Scenario.S.sales) [] [] "postgres" "postgres"
              "sales" "public" true false true false ["orders"; "customers"]
              [] r "customers" Hr Herrors) as (remaining & Hin & _ & Hout).
  - set_solver.
  - rewrite Htables.
    intros t [->|[->|[]%elem_of_nil]%elem_of_cons]%elem_of_cons;
      by vm_compute.
  - exists r, remaining. split; [done|]. split; [done|]. split; [done|].
    rewrite Hout, Hfrom. reflexivity.
Defined.

(** C8 (what the code does): the schema [Sales] of a Postgres source is
    asked for as [sales]; the script of its view is sent to the target in
    lower case with both [sales.] prefixes, quoted and bare, left as they
    were, since the name searched for is the reflected [Sales].  With a
    schema reflected in lower case the two prefixes are rewritten. *)
Theorem mixed_case_schema_not_rewritten :
  rewrite_view_script Scenario.S.v_active_script "postgres" "Sales" "public"
  = PyStr.lower Scenario.S.v_active_script
  ∧ PyStr.contains "sales."
      (rewrite_view_script Scenario.S.v_active_script "postgres" "Sales"
         "public") = true
  ∧ PyStr.contains "public."
      (rewrite_view_script Scenario.S.v_active_script "postgres" "Sales"
         "public") = false
  ∧ Scenario.S.executed
      (migrate_metadata Scenario.S.lib (Scenario.S.world Scenario.S.sales)
         [] [] "postgres" "postgres" "sales" "public" true false true false
         [] []).2
    = [PyStr.lower Scenario.S.v_active_script]
  ∧ rewrite_view_script Scenario.S.v_active_script "postgres" "sales" "public"
    = "create view " +:+ dquote +:+ "public" +:+ dquote
      +:+ ".v_active as select id from public.orders".
Proof. repeat split; vm_compute; reflexivity. Qed.

(** *** The selection, the construction and the error list *)

Section Selection.

Variable L : Lib.
Variable W : World.

Lemma filter_all {A} (P : A → Prop) `{∀ x, Decision (P x)} (l : list A) :
  Forall P l → filter P l = l.
Proof.
  induction 1 as [|x l Hx Hl IH]; [done|].
  rewrite filter_cons_True by done. by rewrite IH.
Qed.

Lemma remove_first_NoDup x l :
  NoDup l → remove_first x l = filter (λ y, y ≠ x) l.
Proof.
  induction 1 as [|y l Hy Hl IH]; cbn [remove_first]; [done|].
  case_bool_decide as Heq.
  - subst y. rewrite filter_cons_False by (by intros ?).
    symmetry. apply filter_all. apply Forall_forall.
    intros z Hz ->. done.
  - rewrite filter_cons_True by done. by rewrite IH.
Qed.

Lemma remove_first_absent x l : x ∉ l → remove_first x l = l.
Proof.
  induction l as [|y l IH]; cbn; [done|].
  intros [Hne Hl]%not_elem_of_cons. rewrite bool_decide_eq_false_2 by done.
  by rewrite IH.
Qed.

Lemma filter_absent x (l : list string) :
  x ∉ l → filter (λ y, y ≠ x) l = l.
Proof.
  intros Hx. apply filter_all, Forall_forall. by intros y Hy ->.
Qed.

Section Filter.

Variable include : bool.
Variable from_schema : string.
Variables plain_views mat_views : list string.
Variables process_views process_mviews : bool.

(** One table takes its name off both lists. *)
Lemma filter_step_lists st source_table :
  NoDup (flt_include_tables st ++ flt_exclude_tables st) →
  flt_include_tables
    (filter_step include from_schema plain_views mat_views process_views
       process_mviews st source_table)
  = filter (λ y, y ≠ PyStr.lower (tbl_name source_table))
      (flt_include_tables st)
  ∧ flt_exclude_tables
      (filter_step include from_schema plain_views mat_views process_views
         process_mviews st source_table)
    = filter (λ y, y ≠ PyStr.lower (tbl_name source_table))
        (flt_exclude_tables st).
Proof.
  intros (Hinc & Hdisj & Hexc)%NoDup_app. unfold filter_step.
  destruct (PyStr.mem _ (flt_include_tables st)) eqn:Hin; cbn.
  - apply PyStrFacts.mem_true in Hin.
    split; [by apply remove_first_NoDup|].
    symmetry. apply filter_absent. by apply Hdisj.
  - apply PyStrFacts.mem_false in Hin.
    destruct (PyStr.mem _ (flt_exclude_tables st)) eqn:Hex; cbn.
    + split; [by rewrite filter_absent|by apply remove_first_NoDup].
    + apply PyStrFacts.mem_false in Hex.
      destruct (_ && _); cbn; by rewrite !filter_absent.
Qed.

Lemma filter_loop_lists source_tables st :
  NoDup (flt_include_tables st ++ flt_exclude_tables st) →
  let st' :=
    foldl (filter_step include from_schema plain_views mat_views
             process_views process_mviews) st source_tables in
  flt_include_tables st'
  = filter (λ y, y ∉ map (λ t, PyStr.lower (tbl_name t)) source_tables)
      (flt_include_tables st)
  ∧ flt_exclude_tables st'
    = filter (λ y, y ∉ map (λ t, PyStr.lower (tbl_name t)) source_tables)
        (flt_exclude_tables st).
Proof.
  revert st. induction source_tables as [|t ts IH]; intros st Hnodup; cbn.
  - split; symmetry; apply filter_all, Forall_forall;
      intros y _; apply not_elem_of_nil.
  - destruct (filter_step_lists st t Hnodup) as [Hinc Hexc].
    destruct (IH (filter_step include from_schema plain_views mat_views
                    process_views process_mviews st t)) as [IHinc IHexc].
    { rewrite Hinc, Hexc, <- filter_app. by apply NoDup_filter. }
    rewrite IHinc, IHexc, Hinc, Hexc, !list_filter_filter.
    split; apply list_filter_iff; intros y; rewrite not_elem_of_cons; tauto.
Qed.

Lemma mem_remove_first x y l :
  x ≠ y → PyStr.mem x (remove_first y l) = PyStr.mem x l.
Proof.
  intros Hne. unfold PyStr.mem. apply bool_decide_ext.
  induction l as [|z l IH]; cbn; [done|].
  case_bool_decide as Heq.
  - subst z. rewrite elem_of_cons. split; [by right|by intros [?|?]].
  - by rewrite !elem_of_cons, IH.
Qed.

Lemma filter_step_selects st source_table :
  flt_target_tables
    (filter_step include from_schema plain_views mat_views process_views
       process_mviews st source_table)
  = flt_target_tables st
    ++ (if selects include from_schema plain_views mat_views process_views
             process_mviews (flt_include_tables st) (flt_exclude_tables st)
             source_table
        then [source_table] else []).
Proof.
  unfold filter_step, selects.
  destruct (PyStr.mem _ (flt_include_tables st)); cbn; [done|].
  destruct (PyStr.mem _ (flt_exclude_tables st)); cbn;
    [by rewrite app_nil_r|].
  destruct (_ && _); cbn; [done|by rewrite app_nil_r].
Qed.

Lemma filter_step_other st source_table other :
  PyStr.lower (tbl_name other) ≠ PyStr.lower (tbl_name source_table) →
  selects include from_schema plain_views mat_views process_views
    process_mviews
    (flt_include_tables
       (filter_step include from_schema plain_views mat_views process_views
          process_mviews st source_table))
    (flt_exclude_tables
       (filter_step include from_schema plain_views mat_views process_views
          process_mviews st source_table)) other
  = selects include from_schema plain_views mat_views process_views
      process_mviews (flt_include_tables st) (flt_exclude_tables st) other.
Proof.
  intros Hne. unfold filter_step.
  destruct (PyStr.mem _ (flt_include_tables st)); cbn.
  - unfold selects. by rewrite mem_remove_first.
  - destruct (PyStr.mem _ (flt_exclude_tables st)); cbn.
    + unfold selects. by rewrite mem_remove_first.
    + by destruct (_ && _).
Qed.

Lemma filter_loop_selects source_tables st :
  NoDup (map (λ t, PyStr.lower (tbl_name t)) source_tables) →
  flt_target_tables
    (foldl (filter_step include from_schema plain_views mat_views
              process_views process_mviews) st source_tables)
  = flt_target_tables st
    ++ List.filter
         (selects include from_schema plain_views mat_views process_views
            process_mviews (flt_include_tables st) (flt_exclude_tables st))
         source_tables.
Proof.
  revert st. induction source_tables as [|t ts IH]; intros st Hnodup; cbn.
  - by rewrite app_nil_r.
  - apply NoDup_cons in Hnodup as [Hfresh Hnodup].
    rewrite IH, filter_step_selects, <- (assoc_L (++)) by done.
    f_equal.
    assert (List.filter
              (selects include from_schema plain_views mat_views
                 process_views process_mviews
                 (flt_include_tables
                    (filter_step include from_schema plain_views mat_views
                       process_views process_mviews st t))
                 (flt_exclude_tables
                    (filter_step include from_schema plain_views mat_views
                       process_views process_mviews st t))) ts
            = List.filter
                (selects include from_schema plain_views mat_views
                   process_views process_mviews (flt_include_tables st)
                   (flt_exclude_tables st)) ts)
      as ->.
    { apply filter_ext_in. intros other Hother.
      apply filter_step_other. intros Heq. apply Hfresh.
      rewrite <- Heq. apply list_elem_of_In in Hother.
      by apply (list_elem_of_fmap_2 (λ t, PyStr.lower (tbl_name t))). }
    by destruct (selects _ _ _ _ _ _ _ _ t).
Qed.

End Filter.

(** X16: The names left on the lists: with no name listed twice, what stays
    on [include_tables] and on [exclude_tables] after the selection is
    what matches no reflected table, in the order of the request.  So a
    request is refused for its lists only when a listed name is not a
    table of the source. *)
Theorem listed_names_left_unmatched from_schema plain_views mat_views
    process_views process_mviews include_tables exclude_tables
    source_tables :
  NoDup (include_tables ++ exclude_tables) →
  flt_include_tables
    (filter_tables from_schema plain_views mat_views process_views
       process_mviews include_tables exclude_tables source_tables)
  = filter (λ name,
              name ∉ map (λ t, PyStr.lower (tbl_name t)) source_tables)
      include_tables
  ∧ flt_exclude_tables
      (filter_tables from_schema plain_views mat_views process_views
         process_mviews include_tables exclude_tables source_tables)
    = filter (λ name,
                name ∉ map (λ t, PyStr.lower (tbl_name t)) source_tables)
        exclude_tables.
Proof.
  intros Hnodup. unfold filter_tables.
  by apply (filter_loop_lists _ _ _ _ _ _ source_tables
              {| flt_target_tables := []; flt_include_tables := include_tables;
                 flt_exclude_tables := exclude_tables |}).
Qed.

(** X17: The tables selected, when no two reflected tables have the same name
    up to case: the tables named in [include_tables]; and with no
    [include_tables], the tables of the source schema that are not named
    in [exclude_tables] and are not views left out of the request.  The
    order is the order of the reflection. *)
Theorem selected_tables from_schema plain_views mat_views process_views
    process_mviews include_tables exclude_tables source_tables :
  NoDup (map (λ t, PyStr.lower (tbl_name t)) source_tables) →
  flt_target_tables
    (filter_tables from_schema plain_views mat_views process_views
       process_mviews include_tables exclude_tables source_tables)
  = List.filter
      (λ source_table,
         let table_name := PyStr.lower (tbl_name source_table) in
         PyStr.mem table_name include_tables
         || negb (PyStr.mem table_name exclude_tables)
            && negb (nonempty include_tables)
            && bool_decide (tbl_schema source_table = Some from_schema)
            && negb (PyStr.mem table_name plain_views && negb process_views)
            && negb (PyStr.mem table_name mat_views && negb process_mviews))
      source_tables.
Proof.
  intros Hnodup. unfold filter_tables.
  by rewrite filter_loop_selects.
Qed.

(** *** The construction *)

Lemma created_app tr1 tr2 : created (tr1 ++ tr2) = created tr1 ++ created tr2.
Proof.
  induction tr1 as [|c tr1 IH]; [done|].
  destruct c; cbn; by rewrite ?IH.
Qed.

Lemma scripts_requested_app tr1 tr2 :
  scripts_requested (tr1 ++ tr2)
  = scripts_requested tr1 ++ scripts_requested tr2.
Proof.
  induction tr1 as [|c tr1 IH]; [done|].
  destruct c; cbn; by rewrite ?IH.
Qed.

(** The calls of [migrate_view]: the script is asked for, and sent to the
    target only when the error list is empty by then. *)
Lemma migrate_view_calls tr errors view_name view_type source_rdbms
    source_schema target_rdbms target_schema :
  errors `prefix_of`
    (migrate_view L W tr errors view_name view_type source_rdbms
       source_schema target_rdbms target_schema).1
  ∧ ∃ new,
      (migrate_view L W tr errors view_name view_type source_rdbms
         source_schema target_rdbms target_schema).2
      = tr ++ DbGetViewScript view_type (target_schema +:+ "." +:+ view_name)
                source_rdbms :: new
      ∧ created new = [] ∧ scripts_requested new = []
      ∧ (errors ≠ [] → new = [])
      ∧ Forall execute_call new.
Proof.
  unfold migrate_view.
  destruct (db_get_view_script W tr view_type _ source_rdbms)
    as [view_script errs].
  destruct (errors ++ errs) as [|e errors1] eqn:Herrors; cbn.
  - apply app_eq_nil in Herrors as [-> ->].
    split; [apply prefix_nil|].
    destruct (db_execute W _ _ target_rdbms); cbn;
      (eexists; split; [by rewrite <- (assoc_L (++))|]);
      (split; [done|]); (split; [done|]); (split; [by intros []|]);
      by repeat constructor.
  - rewrite <- Herrors. split; [by apply prefix_app_r|].
    exists []. repeat split; by try constructor.
Qed.

(** X18: The construction goes through every table, whatever failed before:
    each table that is not a view is handed to [create_all] on its own,
    with the target schema, and the script of each view is asked for, in
    the order of the sort; the errors given are kept; and with an error
    on the list from the start, no view is created in the target. *)
Theorem construct_attempts_every_table tr errors source_rdbms target_rdbms
    from_schema to_schema plain_views mat_views sorted :
  ∃ new,
    (construct L W tr errors source_rdbms target_rdbms from_schema to_schema
       plain_views mat_views sorted).2 = tr ++ new
    ∧ created new
      = map (λ sorted_table,
               [ {| tbl_name := tbl_name sorted_table;
                    tbl_schema := Some to_schema;
                    tbl_columns := tbl_columns sorted_table;
                    tbl_indexes := tbl_indexes sorted_table |} ])
          (List.filter
             (λ sorted_table,
                negb (PyStr.mem (tbl_name sorted_table) plain_views
                      || PyStr.mem (tbl_name sorted_table) mat_views))
             sorted)
    ∧ scripts_requested new
      = map (λ sorted_table,
               (if PyStr.mem (tbl_name sorted_table) mat_views
                then "M" else "P",
                to_schema +:+ "." +:+ tbl_name sorted_table))
          (List.filter
             (λ sorted_table,
                PyStr.mem (tbl_name sorted_table) plain_views
                || PyStr.mem (tbl_name sorted_table) mat_views)
             sorted)
    ∧ (errors ≠ [] → Forall (λ c, ¬ execute_call c) new)
    ∧ errors `prefix_of`
        (construct L W tr errors source_rdbms target_rdbms from_schema
           to_schema plain_views mat_views sorted).1.
Proof.
  revert tr errors. induction sorted as [|sorted_table sorted IH];
    intros tr errors.
  - exists []. cbn. rewrite app_nil_r. repeat split; by try constructor.
  - cbn [construct List.filter tbl_name].
    destruct (PyStr.mem (tbl_name sorted_table) plain_views
              || PyStr.mem (tbl_name sorted_table) mat_views) eqn:Hview;
      cbn [negb].
    + destruct (migrate_view_calls tr errors (tbl_name sorted_table)
                  (if PyStr.mem (tbl_name sorted_table) mat_views
                   then "M" else "P")
                  source_rdbms from_schema target_rdbms to_schema)
        as (Hpre & new1 & Htr & Hcreated & Hscripts & Hskip & _).
      destruct (migrate_view _ _ _ _ _ _ _ _ _ _) as [errors1 tr1].
      cbn in Hpre, Htr. subst tr1.
      destruct (IH (tr ++ DbGetViewScript
                          (if PyStr.mem (tbl_name sorted_table) mat_views
                           then "M" else "P")
                          (to_schema +:+ "." +:+ tbl_name sorted_table)
                          source_rdbms :: new1) errors1)
        as (new & -> & Hc & Hs & Hex & Hpre').
      eexists. split; [by rewrite <- (assoc_L (++))|].
      cbn. rewrite created_app, scripts_requested_app, Hcreated, Hscripts.
      cbn. split; [done|]. split; [by rewrite Hs|].
      split; [|by etrans].
      intros Herrors. rewrite (Hskip Herrors). cbn.
      constructor; [by intros []|]. apply Hex.
      intros ->. by apply prefix_nil_inv in Hpre.
    + destruct (create_all W tr target_rdbms _) as [e|].
      * match goal with
        | |- context [construct L W ?tr1 ?errors1 _ _ _ _ _ _ sorted] =>
            destruct (IH tr1 errors1) as (new & -> & Hc & Hs & Hex & Hpre')
        end.
        eexists. split; [by rewrite <- (assoc_L (++))|].
        cbn. split; [by rewrite Hc|]. split; [done|].
        split; [|etrans; [by apply prefix_app_r|done]].
        intros Herrors. constructor; [by intros []|]. apply Hex.
        by destruct errors.
      * match goal with
        | |- context [construct L W ?tr1 ?errors1 _ _ _ _ _ _ sorted] =>
            destruct (IH tr1 errors1) as (new & -> & Hc & Hs & Hex & Hpre')
        end.
        eexists. split; [by rewrite <- (assoc_L (++))|].
        cbn. split; [by rewrite Hc|]. split; [done|].
        split; [|done].
        intros Herrors. constructor; [by intros []|]. by apply Hex.
Qed.

Lemma construct_trace tr errors source_rdbms target_rdbms from_schema
    to_schema plain_views mat_views sorted :
  ∃ new,
    (construct L W tr errors source_rdbms target_rdbms from_schema to_schema
       plain_views mat_views sorted).2 = tr ++ new
    ∧ Forall build_call new.
Proof.
  revert tr errors. induction sorted as [|sorted_table sorted IH];
    intros tr errors.
  - exists []. by rewrite app_nil_r.
  - cbn [construct tbl_name].
    destruct (PyStr.mem (tbl_name sorted_table) plain_views
              || PyStr.mem (tbl_name sorted_table) mat_views).
    + destruct (migrate_view_calls tr errors (tbl_name sorted_table)
                  (if PyStr.mem (tbl_name sorted_table) mat_views
                   then "M" else "P")
                  source_rdbms from_schema target_rdbms to_schema)
        as (_ & new1 & Htr & _ & _ & _ & Hexec).
      destruct (migrate_view _ _ _ _ _ _ _ _ _ _) as [errors1 tr1].
      cbn in Htr. subst tr1.
      match goal with
      | |- context [construct L W ?tr1 ?errors1 _ _ _ _ _ _ sorted] =>
          destruct (IH tr1 errors1) as (new & -> & Hnew)
      end.
      eexists. split; [by rewrite <- (assoc_L (++))|].
      cbn. constructor; [done|]. apply Forall_app. split; [|done].
      eapply Forall_impl; [exact Hexec|]. intros c. by destruct c.
    + destruct (create_all W tr target_rdbms _) as [e|];
        match goal with
        | |- context [construct L W ?tr1 ?errors1 _ _ _ _ _ _ sorted] =>
            destruct (IH tr1 errors1) as (new & -> & Hnew)
        end;
        (eexists; split; [by rewrite <- (assoc_L (++))|]);
        by constructor.
Qed.

(** *** The error list and the calls of [migrate_metadata] *)

Lemma steps_reflect_source_calls tr errors source_rdbms target_rdbms
    source_schema :
  match reflect_source L W tr errors source_rdbms target_rdbms
          source_schema with
  | inl r =>
      errors `prefix_of` rf_errors r
      ∧ ∃ new, rf_trace r = tr ++ new ∧ Forall setup_call new
  | inr out =>
      out.1.1 = None
      ∧ errors `prefix_of` out.1.2
      ∧ ∃ new, out.2 = tr ++ new ∧ Forall setup_call new
  end.
Proof.
  unfold reflect_source.
  destruct (build_engine W tr source_rdbms) as [se errs1].
  destruct (build_engine W _ target_rdbms) as [te errs2].
  assert (errors `prefix_of` (errors ++ errs1) ++ errs2) as Hpre
    by (by do 2 apply prefix_app_r).
  destruct (se && te).
  - destruct (PyStr.truthy _).
    + destruct (reflect W _ source_rdbms _) as [source_tables warning].
      cbn. split.
      * destruct warning; [by apply prefix_app_r|done].
      * eexists. split; [by rewrite <- !(assoc_L (++))|].
        by repeat constructor.
    + cbn. split; [done|]. split; [by apply prefix_app_r|].
      eexists. split; [by rewrite <- !(assoc_L (++))|].
      by repeat constructor.
  - cbn. split; [done|]. split; [done|].
    eexists. split; [by rewrite <- !(assoc_L (++))|]. by repeat constructor.
Qed.

Lemma steps_migrate_selected_calls tr errors source_rdbms target_rdbms
    source_schema target_schema from_schema step_metadata process_views
    process_mviews plain_views mat_views metadata :
  errors `prefix_of`
    (migrate_selected L W tr errors source_rdbms target_rdbms source_schema
       target_schema from_schema step_metadata process_views process_mviews
       plain_views mat_views metadata).1.2
  ∧ ∃ new,
      (migrate_selected L W tr errors source_rdbms target_rdbms source_schema
         target_schema from_schema step_metadata process_views process_mviews
         plain_views mat_views metadata).2 = tr ++ new
      ∧ (step_metadata = false → Forall (λ c, ¬ construction_call c) new).
Proof.
  unfold migrate_selected.
  destruct (sorted_tables L metadata) as [sorted|e].
  - destruct errors as [|e errors]; cbn [nonempty negb];
      [|split; [done|]; exists []; by rewrite app_nil_r].
    destruct step_metadata.
    + destruct (migrate_schema W tr target_rdbms target_schema sorted)
        as [to_schema errs].
      split; [apply prefix_nil|].
      destruct (PyStr.truthy to_schema).
      * destruct (migrate_tables W _ source_rdbms target_rdbms source_schema
                    sorted) as [result errs'].
        match goal with
        | |- context [construct L W ?tr1 ?errors1 ?a ?b ?c ?d ?e ?f sorted] =>
            destruct (construct_trace tr1 errors1 a b c d e f sorted)
              as (new & Hnew & _);
            destruct (construct L W tr1 errors1 a b c d e f sorted)
        end.
        cbn in *. subst. eexists. split; [by rewrite <- !(assoc_L (++))|done].
      * cbn. eexists. split; [done|done].
    + cbn [PyStr.truthy]. destruct target_schema as [|ch target_schema];
        cbn [PyStr.truthy].
      * split; [apply prefix_nil|]. exists []. by rewrite app_nil_r.
      * destruct (migrate_tables W _ source_rdbms target_rdbms source_schema
                    sorted) as [result errs'].
        cbn. split; [apply prefix_nil|].
        eexists. split; [done|]. intros _. repeat constructor. by intros [].
  - match goal with
    | |- context [nonempty ?l] =>
        assert (nonempty l = true) as -> by by destruct errors
    end.
    cbn. split; [by apply prefix_app_r|]. exists []. by rewrite app_nil_r.
Qed.

(** The phases of [migrate_selected], in the order of their calls. *)
Lemma steps_migrate_selected_order tr errors source_rdbms target_rdbms
    source_schema target_schema from_schema step_metadata process_views
    process_mviews plain_views mat_views metadata :
  ∃ sorted schema tables build,
    (migrate_selected L W tr errors source_rdbms target_rdbms source_schema
       target_schema from_schema step_metadata process_views process_mviews
       plain_views mat_views metadata).2 = tr ++ schema ++ tables ++ build
    ∧ (schema = []
       ∨ schema = [MigrateSchema target_rdbms target_schema sorted])
    ∧ (tables = []
       ∨ tables
         = [MigrateTables source_rdbms target_rdbms source_schema sorted])
    ∧ Forall build_call build
    ∧ (build ≠ [] → schema ≠ [] ∧ tables ≠ [])
    ∧ ((migrate_selected L W tr errors source_rdbms target_rdbms
          source_schema target_schema from_schema step_metadata process_views
          process_mviews plain_views mat_views metadata).1.1 ≠ None →
       tables ≠ []).
Proof.
  unfold migrate_selected.
  destruct (sorted_tables L metadata) as [sorted|e].
  - destruct errors as [|e errors]; cbn [nonempty negb].
    2:{ exists [], [], [], []. cbn. rewrite app_nil_r.
        repeat split; first [done | by left | by constructor]. }
    destruct step_metadata.
    + destruct (migrate_schema W tr target_rdbms target_schema sorted)
        as [to_schema errs].
      destruct (PyStr.truthy to_schema).
      * destruct (migrate_tables W _ source_rdbms target_rdbms source_schema
                    sorted) as [result errs'].
        match goal with
        | |- context [construct L W ?tr1 ?errors1 ?a ?b ?c ?d ?e ?f sorted] =>
            destruct (construct_trace tr1 errors1 a b c d e f sorted)
              as (new & Hnew & Hbuild);
            destruct (construct L W tr1 errors1 a b c d e f sorted)
        end.
        cbn in *. subst.
        exists sorted, [MigrateSchema target_rdbms target_schema sorted],
          [MigrateTables source_rdbms target_rdbms source_schema sorted], new.
        rewrite <- !(assoc_L (++)).
        repeat split; first [done | by right].
      * cbn. exists sorted, [MigrateSchema target_rdbms target_schema sorted],
          [], [].
        repeat split; first [done | by left | by right | by constructor].
    + destruct target_schema as [|ch target_schema]; cbn [PyStr.truthy].
      * cbn. exists sorted, [], [], []. rewrite app_nil_r.
        repeat split; first [done | by left | by constructor].
      * destruct (migrate_tables W _ source_rdbms target_rdbms source_schema
                    sorted) as [result errs'].
        cbn. exists sorted, [],
          [MigrateTables source_rdbms target_rdbms source_schema sorted], [].
        repeat split; first [done | by left | by right | by constructor].
  - match goal with
    | |- context [nonempty ?l] =>
        assert (nonempty l = true) as -> by by destruct errors
    end.
    exists [], [], [], []. cbn. rewrite app_nil_r.
    repeat split; first [done | by left | by constructor].
Qed.

(** X19: The order of a migration: first the engines are built and the source
    is read; then, if at all, the schema is migrated, then the tables,
    both for the same sorted list of tables; and only after them is a
    table or a view created, one call per table or view.  A migration is
    returned only when the tables were migrated. *)
Theorem steps_in_order tr errors source_rdbms target_rdbms source_schema
    target_schema step_metadata process_indexes process_views process_mviews
    include_tables exclude_tables :
  ∃ reads sorted schema tables build,
    (migrate_metadata L W tr errors source_rdbms target_rdbms source_schema
       target_schema step_metadata process_indexes process_views
       process_mviews include_tables exclude_tables).2
    = tr ++ reads ++ schema ++ tables ++ build
    ∧ Forall setup_call reads
    ∧ (schema = []
       ∨ schema = [MigrateSchema target_rdbms target_schema sorted])
    ∧ (tables = []
       ∨ tables
         = [MigrateTables source_rdbms target_rdbms source_schema sorted])
    ∧ Forall build_call build
    ∧ (build ≠ [] → schema ≠ [] ∧ tables ≠ [])
    ∧ ((migrate_metadata L W tr errors source_rdbms target_rdbms
          source_schema target_schema step_metadata process_indexes
          process_views process_mviews include_tables exclude_tables).1.1
       ≠ None → tables ≠ []).
Proof.
  unfold migrate_metadata.
  pose proof (steps_reflect_source_calls tr errors source_rdbms target_rdbms
                source_schema) as Hreflect.
  destruct (reflect_source L W tr errors source_rdbms target_rdbms
              source_schema) as [r|out].
  - destruct Hreflect as (_ & reads & Htr & Hreads). unfold migrate_reflected.
    destruct (negb (nonempty (rf_errors r))).
    2:{ exists reads, [], [], [], []. cbn. rewrite app_nil_r.
        repeat split; first [done | by left | by constructor]. }
    destruct (_ || _).
    { exists reads, [], [], [], []. cbn. rewrite app_nil_r.
      repeat split; first [done | by left | by constructor]. }
    match goal with
    | |- context [migrate_selected L W ?tr1 ?e ?a ?b ?c ?d ?f ?sm ?g ?h ?i
                    ?j ?k] =>
        destruct (steps_migrate_selected_order tr1 e a b c d f sm g h i j k)
          as (sorted & schema & tables & build & -> & Hs & Ht & Hb & Hbt & Hr)
    end.
    exists reads, sorted, schema, tables, build.
    rewrite Htr in Hr |- *. rewrite <- !(assoc_L (++)).
    repeat split; first [done | by apply Hbt].
  - destruct Hreflect as (Hnone & _ & reads & Htr & Hreads).
    exists reads, [], [], [], []. rewrite app_nil_r.
    repeat split; first [done | by left | by constructor].
Qed.

(** X20: Without [step_metadata] nothing is constructed: whatever the
    request, [migrate_metadata] makes no call that migrates the schema,
    creates a table, asks for the script of a view or executes a
    statement in the target. *)
Theorem nothing_constructed_without_step_metadata tr errors source_rdbms
    target_rdbms source_schema target_schema process_indexes process_views
    process_mviews include_tables exclude_tables :
  ∃ new,
    (migrate_metadata L W tr errors source_rdbms target_rdbms source_schema
       target_schema false process_indexes process_views process_mviews
       include_tables exclude_tables).2 = tr ++ new
    ∧ Forall (λ c, ¬ construction_call c) new.
Proof.
  unfold migrate_metadata.
  pose proof (steps_reflect_source_calls tr errors source_rdbms target_rdbms
                source_schema) as Hreflect.
  assert (∀ new, Forall setup_call new →
                 Forall (λ c, ¬ construction_call c) new) as Hreads.
  { intros new Hnew. eapply Forall_impl; [exact Hnew|].
    intros c. destruct c; cbn; tauto. }
  destruct (reflect_source L W tr errors source_rdbms target_rdbms
              source_schema) as [r|out].
  - destruct Hreflect as (_ & new & Htr & Hnew). unfold migrate_reflected.
    destruct (negb (nonempty (rf_errors r))); [|by exists new; auto].
    destruct (_ || _); [by exists new; auto|].
    match goal with
    | |- context [migrate_selected L W ?tr1 ?e ?a ?b ?c ?d ?f false ?g ?h ?i
                    ?j ?k] =>
        destruct (steps_migrate_selected_calls tr1 e a b c d f false g h i j
                    k) as (_ & new' & -> & Hnew')
    end.
    rewrite Htr. exists (new ++ new'). rewrite (assoc_L (++)).
    split; [done|]. apply Forall_app. auto.
  - destruct Hreflect as (_ & _ & new & Htr & Hnew). by exists new; auto.
Qed.

(** X21: The errors of the caller stay where they are: the list
    [migrate_metadata] returns starts with the list it was given.  The
    message 101 of a view is put at the head of the list only when the
    list was empty before the view. *)
Theorem steps_keep_errors tr errors source_rdbms target_rdbms source_schema
    target_schema step_metadata process_indexes process_views process_mviews
    include_tables exclude_tables :
  errors `prefix_of`
    (migrate_metadata L W tr errors source_rdbms target_rdbms source_schema
       target_schema step_metadata process_indexes process_views
       process_mviews include_tables exclude_tables).1.2.
Proof.
  unfold migrate_metadata.
  pose proof (steps_reflect_source_calls tr errors source_rdbms target_rdbms
                source_schema) as Hreflect.
  destruct (reflect_source L W tr errors source_rdbms target_rdbms
              source_schema) as [r|out]; [|by destruct Hreflect as (_ & ? & _)].
  destruct Hreflect as (Hpre & _). unfold migrate_reflected.
  destruct (negb (nonempty (rf_errors r))); [|done].
  destruct (_ || _); [by cbn; apply prefix_app_r|].
  etrans; [exact Hpre|].
  apply steps_migrate_selected_calls.
Qed.

(** X22: Called with an error on the list, [migrate_metadata] gives up after
    the reflection: engines are built and the source is read, no table is
    selected, nothing is migrated and no migration is returned. *)
Theorem errors_on_entry_stop_the_migration tr errors source_rdbms
    target_rdbms source_schema target_schema step_metadata process_indexes
    process_views process_mviews include_tables exclude_tables :
  errors ≠ [] →
  (migrate_metadata L W tr errors source_rdbms target_rdbms source_schema
     target_schema step_metadata process_indexes process_views
     process_mviews include_tables exclude_tables).1.1 = None
  ∧ ∃ new,
      (migrate_metadata L W tr errors source_rdbms target_rdbms source_schema
         target_schema step_metadata process_indexes process_views
         process_mviews include_tables exclude_tables).2 = tr ++ new
      ∧ Forall setup_call new.
Proof.
  intros Herrors. unfold migrate_metadata.
  pose proof (steps_reflect_source_calls tr errors source_rdbms target_rdbms
                source_schema) as Hreflect.
  destruct (reflect_source L W tr errors source_rdbms target_rdbms
              source_schema) as [r|out]; [|by destruct Hreflect as (? & _ & ?)].
  destruct Hreflect as (Hpre & Hcalls). unfold migrate_reflected.
  destruct (rf_errors r) as [|e errors1]; [|done].
  by apply prefix_nil_inv in Hpre.
Qed.

End Selection.

(** X23: A schema name with an upper-case letter is never rewritten: the
    script is searched in lower case for the name as the catalog has it,
    so for every script what is sent to the target is the lower-cased
    script (less the Oracle clause), with the source schema where it
    was. *)
Theorem upper_case_schema_never_rewritten view_script source_rdbms
    source_schema target_schema :
  PyStr.has_upper source_schema = true →
  rewrite_view_script view_script source_rdbms source_schema target_schema
  = if bool_decide (source_rdbms = "oracle")
    then PyStr.replace (PyStr.lower view_script) "force editionable "
           EmptyString
    else PyStr.lower view_script.
Proof.
  intros Hupper. unfold rewrite_view_script.
  rewrite (PyStrFacts.replace_no_upper (PyStr.lower view_script)
             (source_schema +:+ "."));
    [|by rewrite PyStrFacts.has_upper_app, Hupper
      |apply PyStrFacts.has_upper_lower].
  rewrite (PyStrFacts.replace_no_upper (PyStr.lower view_script));
    [done| |apply PyStrFacts.has_upper_lower].
  rewrite !PyStrFacts.has_upper_app, Hupper. by rewrite orb_true_r.
Qed.

(** A request that lists a table and a view of the source, and two names
    the source does not have. *)
Lemma listed_names_left_unmatched_witness :
  NoDup (["orders"; "customers"] ++ ["v_active"; "invoices"])
  ∧ flt_include_tables
      (filter_tables "Sales" ["v_active"] [] true false
         ["orders"; "customers"] ["v_active"; "invoices"]
         [Scenario.S.orders; Scenario.S.v_active])
    = ["customers"]
  ∧ flt_exclude_tables
      (filter_tables "Sales" ["v_active"] [] true false
         ["orders"; "customers"] ["v_active"; "invoices"]
         [Scenario.S.orders; Scenario.S.v_active])
    = ["invoices"].
Proof.
  assert (NoDup (["orders"; "customers"] ++ ["v_active"; "invoices"]))
    as Hnodup by (apply (bool_decide_unpack _); vm_compute; exact I).
  split; [exact Hnodup|].
  pose proof (listed_names_left_unmatched "Sales" ["v_active"] [] true false
                ["orders"; "customers"] ["v_active"; "invoices"]
                [Scenario.S.orders; Scenario.S.v_active] Hnodup)
    as [Hinclude Hexclude].
  split; [rewrite Hinclude|rewrite Hexclude]; by vm_compute.
Defined.

(** The tables of [Scenario.S.sales], with the view left out of the
    request. *)
Lemma selected_tables_witness :
  NoDup (map (λ t, PyStr.lower (tbl_name t))
           [Scenario.S.orders; Scenario.S.v_active])
  ∧ flt_target_tables
      (filter_tables "Sales" ["v_active"] [] false false [] []
         [Scenario.S.orders; Scenario.S.v_active])
    = [Scenario.S.orders].
Proof.
  assert (NoDup (map (λ t, PyStr.lower (tbl_name t))
                   [Scenario.S.orders; Scenario.S.v_active]))
    as Hnodup by (apply (bool_decide_unpack _); vm_compute; exact I).
  split; [exact Hnodup|].
  rewrite (selected_tables "Sales" ["v_active"] [] false false [] []
             [Scenario.S.orders; Scenario.S.v_active] Hnodup).
  by vm_compute.
Defined.

(** [Scenario.S.sales], asked to migrate with an error on the list. *)
Lemma errors_on_entry_stop_the_migration_witness :
  (migrate_metadata Scenario.S.lib (Scenario.S.world Scenario.S.sales) []
     ["earlier"] "postgres" "postgres" "sales" "public" true false true false
     [] []).1.1 = None
  ∧ ∃ new,
      (migrate_metadata Scenario.S.lib (Scenario.S.world Scenario.S.sales) []
         ["earlier"] "postgres" "postgres" "sales" "public" true false true
         false [] []).2 = [] ++ new
      ∧ Forall setup_call new.
Proof.
  by apply (errors_on_entry_stop_the_migration Scenario.S.lib
              (Scenario.S.world Scenario.S.sales) [] ["earlier"]).
Defined.

(** The schema [Sales] and the script of its view. *)
Lemma upper_case_schema_never_rewritten_witness :
  PyStr.has_upper "Sales" = true
  ∧ rewrite_view_script Scenario.S.v_active_script "oracle" "Sales" "public"
    = PyStr.replace (PyStr.lower Scenario.S.v_active_script)
        "force editionable " EmptyString.
Proof.
  split; [reflexivity|].
  exact (upper_case_schema_never_rewritten Scenario.S.v_active_script
           "oracle" "Sales" "public" eq_refl).
Defined.

End MetadataFacts.

Module AppFacts.
Import App.

Section BuildResponse.

Context {Value : Type}.
Variable strings : list string → Value.
Variable validate_format_errors : list string → list string.

(** X24: The response of a request: without an error, the reply with the
    status 200; with an error, the status 400 and an object that keeps
    every field of the reply and reports the formatted errors under
    [errors], unless the reply has a field [errors] of its own, which
    then stands in their place. *)
Theorem error_response_keeps_the_reply errors reply :
  (errors = [] →
   _build_response strings validate_format_errors errors reply
   = {| body := reply; status_code := 200 |})
  ∧ (errors ≠ [] →
     ∃ sent,
       _build_response strings validate_format_errors errors reply
       = {| body := Some sent; status_code := 400 |}
       ∧ ∀ key,
           sent !! key
           = match reply ≫= (.!! key) with
             | Some value => Some value
             | None =>
                 if bool_decide (key = "errors")
                 then Some (strings (validate_format_errors errors))
                 else None
             end).
Proof.
  unfold _build_response, jsonify. split.
  - by intros ->.
  - intros Herrors. rewrite bool_decide_eq_false_2 by by destruct errors.
    eexists. split; [done|]. intros key. cbn.
    destruct reply as [reply|]; cbn.
    + rewrite lookup_union. destruct (reply !! key) as [value|]; cbn.
      * by rewrite union_Some_l.
      * rewrite (left_id_L None _). case_bool_decide; subst.
        -- by rewrite lookup_singleton.
        -- by rewrite lookup_singleton_ne.
    + case_bool_decide; subst.
      * by rewrite lookup_singleton.
      * by rewrite lookup_singleton_ne.
Qed.

End BuildResponse.

End AppFacts.
